(** * Khushu admin backend: product catalog and authentication routes

    A shallow embedding of the Express handlers of

    - [routes/productRoutes.js] (current revision: paginated, admin-guarded,
      images kept as binary sub-documents), module [ProductRoutes];
    - the inline product routes of the server entry file, module [Server];
    - [routes/authRoutes.js], module [AuthRoutes].

    The MongoDB collections are finite maps / lists, every handler is a
    function from the collection and the request to the JSON envelope it
    sends (and the new collection when it writes).  A [try { } catch] block
    is a computation in the [Throws] monad run by the handler.  A handler is
    the last function of its route: the middleware before it
    ([requireAuth], [requireAdmin], and multer where it is mounted on the
    route) has let the request through.

    Conventions.
    - JavaScript numbers that hold integers ([parseInt] results, counts) are
      [Z]; the model is exact while magnitudes stay below 2^53.  [NaN] is a
      separate constructor.
    - Strings are byte strings; case folding is the ASCII one.
    - The fields of a multipart request are [option string]: [None] is
      JavaScript's [undefined].  The fields of a JSON body are [Json]: a
      client can send a number or an object where a string is expected.
    - The store keeps two timestamps on a product: [createdAt], set when the
      document is inserted, and [updatedAt], set at every write.  A handler
      that writes takes the time of its write.
    - A handler that reads a document and writes it back later does so
      around an [await]: its model takes the collection as it is at the read
      and as it is at the write.
    - Library code (bcrypt, jsonwebtoken, [parseFloat], base64, the file
      system, the schema validators of the Mongoose models) is a parameter,
      class [Runtime] and class [Schema]. *)

From Stdlib Require Import ZArith String Ascii List Lia Bool.
From stdpp Require Import base option list gmap strings sorting.

Local Open Scope string_scope.
Local Open Scope Z_scope.

(** ** JavaScript values *)

(** A JavaScript number that is either [NaN] or a value of [A]. *)
Inductive JsNum (A : Type) : Type :=
| NaN : JsNum A
| Num : A -> JsNum A.
Arguments NaN {A}.
Arguments Num {A} _.

(** [n || d] for an integer-valued number: [NaN] and [0] are falsy. *)
Definition orDefault (n : JsNum Z) (d : Z) : Z :=
  match n with
  | NaN => d
  | Num z => if z =? 0 then d else z
  end.

(** Truthiness of an optional string: [undefined] and [''] are falsy. *)
Definition truthy (o : option string) : bool :=
  match o with
  | None => false
  | Some s => negb (String.eqb s "")
  end.

(** [String(v)] for a value that is a string or [undefined]. *)
Definition toString (o : option string) : string :=
  match o with
  | None => "undefined"
  | Some s => s
  end.

(** A value of a JSON or URL-encoded body: absent, a string, or any other
    value ([null], a boolean, a number, an array, an object).  Of a value
    that is no string the routes observe whether it is truthy, and the store
    the string it casts to on a String path, if it casts (a number and a
    boolean do, an array and an object do not). *)
Inductive Json : Type :=
| JUndefined : Json
| JString : string -> Json
| JOther : bool -> option string -> Json.

(** Truthiness of a value of a body. *)
Definition truthyJson (v : Json) : bool :=
  match v with
  | JUndefined => false
  | JString s => negb (String.eqb s "")
  | JOther t _ => t
  end.

Module Js.

Definition code (c : ascii) : Z := Z.of_nat (nat_of_ascii c).

Definition isUpper (c : ascii) : bool := (65 <=? code c) && (code c <=? 90).

Definition lowerChar (c : ascii) : ascii :=
  if isUpper c then ascii_of_nat (nat_of_ascii c + 32) else c.

(** [s.toLowerCase()] *)
Fixpoint toLowerCase (s : string) : string :=
  match s with
  | EmptyString => EmptyString
  | String c r => String (lowerChar c) (toLowerCase r)
  end.

(** [s.startsWith(p)] *)
Fixpoint startsWith (p s : string) : bool :=
  match p, s with
  | EmptyString, _ => true
  | String a p', String b s' => Ascii.eqb a b && startsWith p' s'
  | String _ _, EmptyString => false
  end.

Fixpoint dropChars (n : nat) (s : string) : string :=
  match n, s with
  | O, _ => s
  | S n', String _ r => dropChars n' r
  | S _, EmptyString => EmptyString
  end.

(** [s.replace(pat, rep)] with a string pattern: first occurrence only. *)
Fixpoint replace (pat rep s : string) : string :=
  if startsWith pat s then rep +:+ dropChars (String.length pat) s
  else match s with
       | EmptyString => EmptyString
       | String c r => String c (replace pat rep r)
       end.

(** White space skipped by [parseInt] (the ASCII part of it). *)
Definition isWhiteSpace (c : ascii) : bool :=
  let n := code c in
  (n =? 9) || (n =? 10) || (n =? 11) || (n =? 12) || (n =? 13) || (n =? 32).

Fixpoint trimStart (s : string) : string :=
  match s with
  | EmptyString => EmptyString
  | String c r => if isWhiteSpace c then trimStart r else s
  end.

(** Value of a digit in radix up to 36. *)
Definition digitValue (c : ascii) : option Z :=
  let n := code c in
  if (48 <=? n) && (n <=? 57) then Some (n - 48)
  else if (97 <=? n) && (n <=? 122) then Some (n - 87)
  else if (65 <=? n) && (n <=? 90) then Some (n - 55)
  else None.

(** Longest prefix of radix digits, read as a number; [acc] is the value
    read so far ([None]: no digit yet). *)
Fixpoint readDigits (radix : Z) (s : string) (acc : option Z) : option Z :=
  match s with
  | EmptyString => acc
  | String c r =>
      match digitValue c with
      | Some d =>
          if d <? radix
          then readDigits radix r (Some (radix * default 0 acc + d))
          else acc
      | None => acc
      end
  end.

(** [parseInt(s)] with no radix argument. *)
Definition parseInt (s : string) : JsNum Z :=
  let s1 := trimStart s in
  let '(neg, s2) :=
    match s1 with
    | String "-" r => (true, r)
    | String "+" r => (false, r)
    | _ => (false, s1)
    end in
  let '(radix, s3) :=
    match s2 with
    | String "0" (String "x" r) => (16, r)
    | String "0" (String "X" r) => (16, r)
    | _ => (10, s2)
    end in
  match readDigits radix s3 None with
  | None => NaN
  | Some n => Num (if neg then - n else n)
  end.

(** [Math.ceil(a / b)] for integers [a], [b] with [b <> 0]. *)
Definition ceilDiv (a b : Z) : Z := - ((- a) / b).

End Js.

(** ** Regular expressions of the store's [$regex] operator

    The operator is used with option ['i'] and an unanchored pattern.  The
    fragment modelled here in full is: ordinary characters, matched
    case-insensitively, and [.], matching any character but a line feed.  A
    pattern that uses any other operator is handed to the engine of the
    runtime ([pcre], below). *)
Module Regex.

Inductive atom : Type :=
| Any : atom
| Lit : ascii -> atom.

Definition metaChars : list ascii :=
  ["\"; "^"; "$"; "."; "|"; "?"; "*"; "+"; "("; ")"; "["; "]"; "{"; "}"]%char.

Definition isMeta (c : ascii) : bool := existsb (Ascii.eqb c) metaChars.

Fixpoint parse (p : string) : option (list atom) :=
  match p with
  | EmptyString => Some []
  | String c r =>
      if Ascii.eqb c "." then option_map (cons Any) (parse r)
      else if isMeta c then None
      else option_map (cons (Lit c)) (parse r)
  end.

Definition matchAtom (a : atom) (c : ascii) : bool :=
  match a with
  | Any => negb (Js.code c =? 10)
  | Lit l => Ascii.eqb (Js.lowerChar l) (Js.lowerChar c)
  end.

(** The atoms match a prefix of [s]. *)
Fixpoint matchHere (atoms : list atom) (s : string) : bool :=
  match atoms, s with
  | [], _ => true
  | a :: atoms', String c r => matchAtom a c && matchHere atoms' r
  | _ :: _, EmptyString => false
  end.

(** The atoms match somewhere in [s]. *)
Fixpoint matchAnywhere (atoms : list atom) (s : string) : bool :=
  matchHere atoms s ||
  match s with
  | EmptyString => false
  | String _ r => matchAnywhere atoms r
  end.

(** Compile a pattern; [None] when the engine rejects it. *)
Definition compile (pcre : string -> option (string -> bool))
    (pattern : string) : option (string -> bool) :=
  match parse pattern with
  | Some atoms => Some (matchAnywhere atoms)
  | None => pcre pattern
  end.

End Regex.

(** ** Object ids *)

Definition isHexDigit (c : ascii) : bool :=
  let n := Js.code c in
  ((48 <=? n) && (n <=? 57)) || ((97 <=? n) && (n <=? 102)) ||
  ((65 <=? n) && (n <=? 70)).

Fixpoint allChars (f : ascii -> bool) (s : string) : bool :=
  match s with
  | EmptyString => true
  | String c r => f c && allChars f r
  end.

(** The cast of a string of 24 hexadecimal digits to an object id, kept in
    lower case; any other string is refused. *)
Definition hexObjectId (s : string) : option string :=
  if Nat.eqb (String.length s) 24 && allChars isHexDigit s
  then Some (Js.toLowerCase s)
  else None.

(** ** The runtime: library code the routes call *)

Inductive Role : Type := RoleUser | RoleAdmin.

Class Runtime : Type := {
  (** the JavaScript numbers a price can be (IEEE doubles other than NaN);
      prices are only parsed, stored and sent back *)
  Price : Type;
  (** [parseFloat(s)] *)
  parseFloat : string -> JsNum Price;
  (** the regular-expression engine on patterns outside the fragment of
      [Regex]; [None] when the pattern is rejected *)
  pcre : string -> option (string -> bool);
  (** [Buffer.from(bytes).toString('base64')] *)
  base64 : list Byte.byte -> string;
  (** [fs.existsSync(p) && fs.readFileSync(p)] for the file of that name in
      the uploads directory; [None] when it is missing or reading throws *)
  readUpload : string -> option (list Byte.byte);
  (** [path.extname(filename)] *)
  extname : string -> string;
  (** [bcrypt.hash(password, 10)], with the salt it draws *)
  bcrypt_hash : string -> string -> string;
  (** [bcrypt.compare(password, hash)] *)
  bcrypt_compare : string -> string -> bool;
  (** [jwt.sign({ id, role }, secret, { expiresIn: '4h' })] at a given time *)
  jwt_sign : string -> Role -> string -> Z -> string;
  (** Mongoose's cast of a route parameter to an [ObjectId]; [None] when the
      string is not an id *)
  objectId : string -> option string
}.

(** ** Errors thrown inside a handler *)

Inductive Exception : Type :=
| CastError : Exception             (* a value cannot be cast to the type of its path *)
| ValidationError : Exception       (* a schema validator failed *)
| DuplicateKey : Exception          (* unique index violated *)
| BadValue : Exception              (* the server rejected the query *)
| MulterError : string -> Exception (* the upload failed, with its message *)
| TypeError : Exception             (* a method called on a value that has none of that name *)
| IllegalArguments : Exception      (* bcrypt given a password that is no string *).

Inductive Throws (A : Type) : Type :=
| Ret : A -> Throws A
| Throw : Exception -> Throws A.
Arguments Ret {A} _.
Arguments Throw {A} _.

#[global] Instance Throws_ret : MRet Throws := fun A a => Ret a.

#[global] Instance Throws_bind : MBind Throws := fun A B k m =>
  match m with
  | Ret a => k a
  | Throw e => Throw e
  end.

(** [try { body } catch (error) { handler(error) }] *)
Definition tryCatch {A : Type} (body : Throws A) (handler : Exception -> A) : A :=
  match body with
  | Ret a => a
  | Throw e => handler e
  end.

(** The cast of [req.params.id], which throws on a string that is no id. *)
Definition castObjectId `{Runtime} (s : string) : Throws string :=
  match objectId s with
  | Some id => Ret id
  | None => Throw CastError
  end.

(** ** The Product model

    The collection is a finite map from [_id] to the rest of the document.
    The schema file [models/Product.js] is not among the sources: the shape
    of a document is taken from the data model of the specification and the
    README, and what the schema accepts is the parameter [Product.Schema]. *)

(** An element of [images]: the path or URL of an uploaded file, or the
    file itself with its content type. *)
Inductive Image : Type :=
| ImgString : string -> Image
| ImgBinary : list Byte.byte -> string -> Image.

(** A file as multer hands it to the route. *)
Record File : Type := mkFile {
  filename : string;
  buffer : list Byte.byte;
  mimetype : string
}.

Module Product.

Section Model.
Context `{Runtime}.

(** Modelled from the spec: the document of [models/Product.js], with the
    fields the data model lists and the routes read and write (name,
    description, images, price, category, stock, isActive) and the two
    timestamps the store sets ([createdAt] at the insertion, [updatedAt] at
    every write), without its [_id].  A document written by a route that
    sets no category has none.  [I] is the type of an image: [Image] in the
    collection, [string] once converted for transport. *)
Record t (I : Type) : Type := mk {
  name : string;
  description : string;
  images : list I;
  price : Price;
  category : option string;
  stock : Z;
  isActive : bool;
  createdAt : Z;
  updatedAt : Z
}.
Arguments mk {I}.
Arguments name {I}.
Arguments description {I}.
Arguments images {I}.
Arguments price {I}.
Arguments category {I}.
Arguments stock {I}.
Arguments isActive {I}.
Arguments createdAt {I}.
Arguments updatedAt {I}.

(** A document with its [_id]. *)
Definition doc : Type := string * t Image.

(** The update object of [findByIdAndUpdate]: a key is [None] when it is
    absent or [undefined] (Mongoose drops undefined keys). *)
Record Update : Type := mkUpdate {
  set_name : option string;
  set_description : option string;
  set_price : option (JsNum Price);
  set_category : option string;
  set_stock : option (JsNum Z);
  set_images : option (list Image);
  set_isActive : option bool
}.

(** The object given to [Product.create]. *)
Record NewDoc : Type := mkNewDoc {
  new_name : option string;
  new_description : option string;
  new_images : list Image;
  new_price : JsNum Price;
  new_category : option string;
  new_stock : JsNum Z
}.

(** What the schema of [models/Product.js] accepts, on an update and on a
    new document: the casts of the values to the types of their paths ([NaN]
    apart, which no number path takes) and the validators (lengths, minima,
    the category enumeration). *)
Class Schema : Type := {
  validateUpdate : Update -> bool;
  validateCreate : NewDoc -> bool
}.

Context `{Schema}.

(** A number path cannot hold [NaN]. *)
Definition castFails (u : Update) : bool :=
  match set_price u with Some NaN => true | _ => false end ||
  match set_stock u with Some NaN => true | _ => false end.

(** [$set] of the keys present in the update, and of [updatedAt] to the
    time of the write. *)
Definition applyUpdate (u : Update) (now : Z) (p : t Image) : t Image :=
  {| name := default (name p) (set_name u);
     description := default (description p) (set_description u);
     images := default (images p) (set_images u);
     price := match set_price u with Some (Num x) => x | _ => price p end;
     category := match set_category u with Some c => Some c | None => category p end;
     stock := match set_stock u with Some (Num x) => x | _ => stock p end;
     isActive := default (isActive p) (set_isActive u);
     createdAt := createdAt p;
     updatedAt := now |}.

(** [{ isActive: false }] *)
Definition deactivate : Update := mkUpdate None None None None None None (Some false).

(** [Product.findById(id)] *)
Definition findById (rid : string) (c : gmap string (t Image)) : Throws (option doc) :=
  id ← castObjectId rid;
  mret ((fun p => (id, p)) <$> c !! id).

(** [Product.findByIdAndUpdate(id, update, { new: true, runValidators })] at
    the time [now]: the updated document, or [null] when there is none with
    that id. *)
Definition findByIdAndUpdate (rid : string) (u : Update) (runValidators : bool)
    (now : Z) (c : gmap string (t Image))
    : Throws (option doc * gmap string (t Image)) :=
  id ← castObjectId rid;
  if castFails u then Throw CastError
  else if runValidators && negb (validateUpdate u) then Throw ValidationError
  else match c !! id with
       | None => mret (None, c)
       | Some p =>
           let p' := applyUpdate u now p in
           mret (Some (id, p'), <[id := p']> c)
       end.

(** The documents that satisfy the criteria. *)
Definition matching (criteria : t Image -> bool) (c : gmap string (t Image)) : list doc :=
  List.filter (fun d => criteria d.2) (map_to_list c).

(** [sort({ createdAt: -1 })]: newest first. *)
Definition newerFirst (a b : doc) : Prop := createdAt b.2 <= createdAt a.2.

#[global] Instance newerFirst_dec a b : Decision (newerFirst a b) :=
  Z_le_dec (createdAt b.2) (createdAt a.2).

(** [Product.find(criteria).sort({ createdAt: -1 })].  The sort is on
    [createdAt] alone: between two documents created at the same time the
    store promises no order, nor the same order from one query to the
    next; the model takes the one of the merge sort, for every query.
    [distinctTimes], below, says that there are no such documents: the
    order is then the only one there is. *)
Definition find (criteria : t Image -> bool) (c : gmap string (t Image)) : list doc :=
  merge_sort newerFirst (matching criteria c).

(** [.skip(skip).limit(limit)] and the execution of the query: the server
    rejects a negative skip; a limit of 0 is no limit and a negative limit
    is its absolute value. *)
Definition skipLimit (skip limit : Z) (l : list doc) : Throws (list doc) :=
  if skip <? 0 then Throw BadValue
  else
    let rest := drop (Z.to_nat skip) l in
    mret (if limit =? 0 then rest else take (Z.to_nat (Z.abs limit)) rest).

(** [Product.countDocuments(criteria)] *)
Definition countDocuments (criteria : t Image -> bool) (c : gmap string (t Image)) : Z :=
  Z.of_nat (length (matching criteria c)).

(** [Product.create(doc)]: the paths name, description, price and stock are
    required; [isActive] defaults to [true]; the id and the two timestamps
    come from the driver and the clock. *)
Definition create (n : NewDoc) (freshId : string) (now : Z)
    (c : gmap string (t Image)) : Throws (doc * gmap string (t Image)) :=
  match new_name n, new_description n, new_price n, new_stock n with
  | Some nm, Some ds, Num pr, Num st =>
      if negb (validateCreate n) then Throw ValidationError
      else if decide (is_Some (c !! freshId)) then Throw DuplicateKey
      else
        let p := {| name := nm; description := ds; images := new_images n;
                    price := pr; category := new_category n; stock := st;
                    isActive := true; createdAt := now; updatedAt := now |} in
        mret ((freshId, p), <[freshId := p]> c)
  | _, _, _, _ => Throw ValidationError
  end.

End Model.

Arguments mk {_ I}.
Arguments name {_ I}.
Arguments description {_ I}.
Arguments images {_ I}.
Arguments price {_ I}.
Arguments category {_ I}.
Arguments stock {_ I}.
Arguments isActive {_ I}.
Arguments createdAt {_ I}.
Arguments updatedAt {_ I}.

End Product.

(** ** Requests and the JSON envelope *)

(** What a product route reads from [req]. *)
Record Request : Type := mkRequest {
  params_id : string;                (* [req.params.id] *)
  params_query : string;             (* [req.params.query] *)
  query_page : option string;        (* [req.query.page] *)
  query_limit : option string;       (* [req.query.limit] *)
  body_name : option string;
  body_description : option string;
  body_price : option string;
  body_category : option string;
  body_stock : option string;
  uploadError : option string;       (* the [err] multer hands to the routes of
                                        the entry file, which call it
                                        themselves *)
  files : option (list File)         (* [req.files] *)
}.

(** The body of a response: [{ success, message?, error?, data?, count?,
    page?, totalPages?, hasNextPage?, hasPrevPage?, searchQuery?, token? }]. *)
Record Envelope (D : Type) : Type := mkEnvelope {
  success : bool;
  message : option string;
  error : option Exception;
  data : option D;
  count : option Z;
  page : option Z;
  totalPages : option Z;
  hasNextPage : option bool;
  hasPrevPage : option bool;
  searchQuery : option string;
  token : option string
}.
Arguments mkEnvelope {D}.
Arguments success {D}.
Arguments message {D}.
Arguments error {D}.
Arguments data {D}.
Arguments count {D}.
Arguments page {D}.
Arguments totalPages {D}.
Arguments hasNextPage {D}.
Arguments hasPrevPage {D}.
Arguments searchQuery {D}.
Arguments token {D}.

(** [res.status(status).json(json)] *)
Record Response (D : Type) : Type := mkResponse {
  status : Z;
  json : Envelope D
}.
Arguments mkResponse {D}.
Arguments status {D}.
Arguments json {D}.

(** [{ success: false, message, error? }] *)
Definition failure {D : Type} (st : Z) (msg : string) (err : option Exception) : Response D :=
  mkResponse st (mkEnvelope false (Some msg) err None None None None None None None None).

(** [{ success: true, message?, data? }] *)
Definition succeeded {D : Type} (st : Z) (msg : option string) (d : option D) : Response D :=
  mkResponse st (mkEnvelope true msg None d None None None None None None None).

(** [{ success: true, count, data, page, totalPages, hasNextPage,
    hasPrevPage, searchQuery? }] *)
Definition paged {D : Type} (total : Z) (d : D) (pg tp : Z) (next prev : bool)
    (q : option string) : Response D :=
  mkResponse 200
    (mkEnvelope true None None (Some d) (Some total) (Some pg) (Some tp)
       (Some next) (Some prev) q None).

(** [!req.files || req.files.length === 0] *)
Definition noFiles (req : Request) : bool :=
  match files req with
  | None => true
  | Some fs => Nat.eqb (length fs) 0
  end.

(** [parseInt(req.query.page) || 1] *)
Definition pageOf (req : Request) : Z :=
  orDefault (Js.parseInt (toString (query_page req))) 1.

(** [parseInt(req.query.limit) || 12] *)
Definition limitOf (req : Request) : Z :=
  orDefault (Js.parseInt (toString (query_limit req))) 12.

(** ** routes/productRoutes.js *)
Module ProductRoutes.

Section Routes.
Context `{Runtime} `{!Product.Schema}.

(** One image of a product as a data URL (the body of the [map] in
    [toDataUrlProduct]). *)
Definition toDataUrl (img : Image) : string :=
  match img with
  | ImgString s =>
      if String.eqb s "" then ""
      else if Js.startsWith "/uploads/" s then
        let filename := Js.replace "/uploads/" "" s in
        match readUpload filename with
        | Some fileBuffer =>
            let ext := Js.replace "." "" (extname filename) in
            let contentType := "image/" +:+ (if String.eqb ext "" then "jpeg" else ext) in
            "data:" +:+ contentType +:+ ";base64," +:+ base64 fileBuffer
        | None => s
        end
      else s
  | ImgBinary bytes contentType =>
      if negb (String.eqb contentType "")
      then "data:" +:+ contentType +:+ ";base64," +:+ base64 bytes
      else ""
  end.

Definition toDataUrlProduct (d : Product.doc) : string * Product.t string :=
  let p := d.2 in
  (d.1,
   Product.mk (Product.name p) (Product.description p)
     (List.map toDataUrl (Product.images p))
     (Product.price p) (Product.category p) (Product.stock p)
     (Product.isActive p) (Product.createdAt p) (Product.updatedAt p)).

(** [{ isActive: true }] *)
Definition activeCriteria (p : Product.t Image) : bool := Product.isActive p.

(** [{ $and: [{ isActive: true }, { $or: [{ name: re }, { description: re },
    { category: re }] }] }] for a compiled expression [re]. *)
Definition searchCriteria (re : string -> bool) (p : Product.t Image) : bool :=
  Product.isActive p &&
  (re (Product.name p) || re (Product.description p) ||
   match Product.category p with Some c => re c | None => false end).

(** GET / *)
Definition listProducts (c : gmap string (Product.t Image)) (req : Request)
    : Response (list (string * Product.t string)) :=
  tryCatch
    (let page := pageOf req in
     let limit := limitOf req in
     let skip := (page - 1) * limit in
     products ← Product.skipLimit skip limit (Product.find activeCriteria c);
     let total := Product.countDocuments activeCriteria c in
     let data := List.map toDataUrlProduct products in
     mret (paged total data page (Js.ceilDiv total limit)
             (page * limit <? total) (1 <? page) None))
    (fun e => failure 500 "Error fetching products" (Some e)).

(** GET /search/:query *)
Definition search (c : gmap string (Product.t Image)) (req : Request)
    : Response (list (string * Product.t string)) :=
  tryCatch
    (let searchQuery := params_query req in
     let page := pageOf req in
     let limit := limitOf req in
     let skip := (page - 1) * limit in
     match Regex.compile pcre searchQuery with
     | None => Throw BadValue
     | Some re =>
         let criteria := searchCriteria re in
         products ← Product.skipLimit skip limit (Product.find criteria c);
         let total := Product.countDocuments criteria c in
         let data := List.map toDataUrlProduct products in
         mret (paged total data page (Js.ceilDiv total limit)
                 (page * limit <? total) (1 <? page) (Some searchQuery))
     end)
    (fun e => failure 500 "Error searching products" (Some e)).

(** GET /:id *)
Definition getById (c : gmap string (Product.t Image)) (req : Request)
    : Response (string * Product.t string) :=
  tryCatch
    (product ← Product.findById (params_id req) c;
     match product with
     | None => mret (failure 404 "Product not found" None)
     | Some p => mret (succeeded 200 None (Some (toDataUrlProduct p)))
     end)
    (fun e => failure 500 "Error fetching product" (Some e)).

(** [req.files.map(file => ({ data: file.buffer, contentType: file.mimetype }))] *)
Definition binaryImages (fs : list File) : list Image :=
  List.map (fun file => ImgBinary (buffer file) (mimetype file)) fs.

(** POST /; the id and the time are those of the insertion. *)
Definition create (c : gmap string (Product.t Image)) (req : Request)
    (freshId : string) (now : Z)
    : Response (string * Product.t string) * gmap string (Product.t Image) :=
  tryCatch
    (if noFiles req
     then mret (failure 400 "At least one image is required" None, c)
     else
       let images := binaryImages (default [] (files req)) in
       '(product, c') ← Product.create
          (Product.mkNewDoc (body_name req) (body_description req) images
             (parseFloat (toString (body_price req))) (body_category req)
             (Js.parseInt (toString (body_stock req))))
          freshId now c;
       mret (succeeded 201 (Some "Product created successfully")
               (Some (toDataUrlProduct product)), c'))
    (fun e => (failure 400 "Error creating product" (Some e), c)).

(** [{ name, description, price: parseFloat(price), category,
    stock: parseInt(stock) }], with [images] once it is set. *)
Definition updateData (req : Request) (imgs : option (list Image)) : Product.Update :=
  Product.mkUpdate (body_name req) (body_description req)
    (Some (parseFloat (toString (body_price req)))) (body_category req)
    (Some (Js.parseInt (toString (body_stock req)))) imgs None.

(** PUT /:id.  The handler awaits [findById] and then
    [findByIdAndUpdate]: [seen] is the collection at the first, [c] the
    collection at the second, at the time [now]. *)
Definition updateFrom (seen c : gmap string (Product.t Image)) (req : Request)
    (now : Z)
    : Response (string * Product.t string) * gmap string (Product.t Image) :=
  tryCatch
    (updateData ←
       (if negb (noFiles req) then
          let newImages := binaryImages (default [] (files req)) in
          existingProduct ← Product.findById (params_id req) seen;
          match existingProduct with
          | Some p => mret (updateData req (Some (Product.images p.2 ++ newImages)%list))
          | None => mret (updateData req (Some newImages))
          end
        else mret (updateData req None));
     '(product, c') ← Product.findByIdAndUpdate (params_id req) updateData true now c;
     match product with
     | None => mret (failure 404 "Product not found" None, c')
     | Some p =>
         mret (succeeded 200 (Some "Product updated successfully")
                 (Some (toDataUrlProduct p)), c')
     end)
    (fun e => (failure 400 "Error updating product" (Some e), c)).

(** PUT /:id when no other request writes between its read and its
    write. *)
Definition update (c : gmap string (Product.t Image)) (req : Request) (now : Z)
    : Response (string * Product.t string) * gmap string (Product.t Image) :=
  updateFrom c c req now.

(** DELETE /:id at the time [now]. *)
Definition softDelete (c : gmap string (Product.t Image)) (req : Request) (now : Z)
    : Response (string * Product.t string) * gmap string (Product.t Image) :=
  tryCatch
    ('(product, c') ← Product.findByIdAndUpdate (params_id req)
        Product.deactivate false now c;
     match product with
     | None => mret (failure 404 "Product not found" None, c')
     | Some _ => mret (succeeded 200 (Some "Product deleted successfully") None, c')
     end)
    (fun e => (failure 500 "Error deleting product" (Some e), c)).

End Routes.

End ProductRoutes.

(** ** The product routes of the server entry file

    The entry file declares its own product routes on [app] and mounts only
    the authentication router.  They differ from the router above: the
    documents are sent as they are, search looks at name and description
    only, and category is neither read nor written.  [create] and [update]
    are those of the revision that stores uploaded files as binary and
    appends them as paths; [getById] is the one of the later revision (the
    earlier one reads a [Product] that is not in scope in its handler). *)
Module Server.

Section Routes.
Context `{Runtime} `{!Product.Schema}.

(** [{ $and: [{ isActive: true }, { $or: [{ name: re }, { description: re }] }] }] *)
Definition searchCriteria (re : string -> bool) (p : Product.t Image) : bool :=
  Product.isActive p && (re (Product.name p) || re (Product.description p)).

(** GET /api/products *)
Definition listProducts (c : gmap string (Product.t Image)) (req : Request)
    : Response (list Product.doc) :=
  tryCatch
    (let page := pageOf req in
     let limit := limitOf req in
     let skip := (page - 1) * limit in
     products ← Product.skipLimit skip limit
                  (Product.find ProductRoutes.activeCriteria c);
     let total := Product.countDocuments ProductRoutes.activeCriteria c in
     mret (paged total products page (Js.ceilDiv total limit)
             (page * limit <? total) (1 <? page) None))
    (fun e => failure 500 "Error fetching products" (Some e)).

(** GET /api/products/search/:query *)
Definition search (c : gmap string (Product.t Image)) (req : Request)
    : Response (list Product.doc) :=
  tryCatch
    (let searchQuery := params_query req in
     let page := pageOf req in
     let limit := limitOf req in
     let skip := (page - 1) * limit in
     match Regex.compile pcre searchQuery with
     | None => Throw BadValue
     | Some re =>
         products ← Product.skipLimit skip limit
                      (Product.find (searchCriteria re) c);
         let total := Product.countDocuments (searchCriteria re) c in
         mret (paged total products page (Js.ceilDiv total limit)
                 (page * limit <? total) (1 <? page) (Some searchQuery))
     end)
    (fun e => failure 500 "Error searching products" (Some e)).

(** POST /api/products *)
Definition create (c : gmap string (Product.t Image)) (req : Request)
    (freshId : string) (now : Z)
    : Response Product.doc * gmap string (Product.t Image) :=
  match uploadError req with
  | Some msg => (failure 400 "File upload error" (Some (MulterError msg)), c)
  | None =>
      tryCatch
        (if noFiles req
         then mret (failure 400 "At least one image is required" None, c)
         else
           let images := ProductRoutes.binaryImages (default [] (files req)) in
           '(product, c') ← Product.create
              (Product.mkNewDoc (body_name req) (body_description req) images
                 (parseFloat (toString (body_price req))) None
                 (Js.parseInt (toString (body_stock req))))
              freshId now c;
           mret (succeeded 201 (Some "Product created successfully")
                   (Some product), c'))
        (fun e => (failure 400 "Error creating product" (Some e), c))
  end.

(** GET /api/products/:id *)
Definition getById (c : gmap string (Product.t Image)) (req : Request)
    : Response Product.doc :=
  tryCatch
    (product ← Product.findById (params_id req) c;
     match product with
     | None => mret (failure 404 "Product not found" None)
     | Some p => mret (succeeded 200 None (Some p))
     end)
    (fun e => failure 500 "Error fetching product" (Some e)).

(** [req.files.map(file => `/uploads/${file.filename}`)] *)
Definition pathImages (fs : list File) : list Image :=
  List.map (fun file => ImgString ("/uploads/" +:+ filename file)) fs.

(** [{ name, description, price: parseFloat(price), stock: parseInt(stock) }],
    with [images] once it is set. *)
Definition updateData (req : Request) (imgs : option (list Image)) : Product.Update :=
  Product.mkUpdate (body_name req) (body_description req)
    (Some (parseFloat (toString (body_price req)))) None
    (Some (Js.parseInt (toString (body_stock req)))) imgs None.

(** PUT /api/products/:id, with the collection at its [findById], [seen],
    and at its [findByIdAndUpdate], [c]. *)
Definition updateFrom (seen c : gmap string (Product.t Image)) (req : Request)
    (now : Z)
    : Response Product.doc * gmap string (Product.t Image) :=
  match uploadError req with
  | Some msg => (failure 400 "File upload error" (Some (MulterError msg)), c)
  | None =>
      tryCatch
        (updateData ←
           (if negb (noFiles req) then
              let newImages := pathImages (default [] (files req)) in
              existingProduct ← Product.findById (params_id req) seen;
              match existingProduct with
              | Some p => mret (updateData req (Some (Product.images p.2 ++ newImages)%list))
              | None => mret (updateData req None)
              end
            else mret (updateData req None));
         '(product, c') ← Product.findByIdAndUpdate (params_id req) updateData true now c;
         match product with
         | None => mret (failure 404 "Product not found" None, c')
         | Some p =>
             mret (succeeded 200 (Some "Product updated successfully") (Some p), c')
         end)
        (fun e => (failure 400 "Error updating product" (Some e), c))
  end.

(** PUT /api/products/:id when no other request writes between its read and
    its write. *)
Definition update (c : gmap string (Product.t Image)) (req : Request) (now : Z)
    : Response Product.doc * gmap string (Product.t Image) :=
  updateFrom c c req now.

(** DELETE /api/products/:id at the time [now]. *)
Definition softDelete (c : gmap string (Product.t Image)) (req : Request) (now : Z)
    : Response Product.doc * gmap string (Product.t Image) :=
  tryCatch
    ('(product, c') ← Product.findByIdAndUpdate (params_id req)
        Product.deactivate false now c;
     match product with
     | None => mret (failure 404 "Product not found" None, c')
     | Some _ => mret (succeeded 200 (Some "Product deleted successfully") None, c')
     end)
    (fun e => (failure 500 "Error deleting product" (Some e), c)).

End Routes.

End Server.

(** ** The User model and routes/authRoutes.js

    The collection is the list of its documents in insertion order. *)
Module User.

(** Modelled from the spec: the document of [models/User.js], which is not
    among the sources, with the fields the data model lists and the routes
    and the bootstrap script write.  A user is inserted and never written
    again: the two timestamps the store sets at the insertion, which nothing
    reads, are left out. *)
Record t : Type := mk {
  _id : string;
  name : string;
  email : string;
  phone : string;
  zipcode : string;
  password : string;     (* the bcrypt hash *)
  role : Role;
  isActive : bool
}.

(** What the schema of [models/User.js] accepts of a new document. *)
Class Schema : Type := { validate : t -> bool }.

(** [User.findOne(criteria)] *)
Definition findOne (criteria : t -> bool) (users : list t) : option t :=
  List.find criteria users.

(** [User.create(doc)]; [isActive] defaults to [true]. *)
Definition create `{Schema} (u : t) (users : list t) : Throws (t * list t) :=
  if validate u then mret (u, (users ++ [u])%list) else Throw ValidationError.

End User.

Module AuthRoutes.

(** [req.body] of the two routes, as [express.json] and
    [express.urlencoded] parse it. *)
Record Body : Type := mkBody {
  name : Json;
  email : Json;
  phone : Json;
  zipcode : Json;
  password : Json
}.

(** [v.toLowerCase()]: only a string has the method. *)
Definition toLowerCaseOf (v : Json) : Throws string :=
  match v with
  | JString s => mret (Js.toLowerCase s)
  | _ => Throw TypeError
  end.

(** The password as [bcrypt.hash] and [bcrypt.compare] take it: they reject
    when it is no string. *)
Definition bcryptArgument (v : Json) : Throws string :=
  match v with
  | JString s => mret s
  | _ => Throw IllegalArguments
  end.

(** The cast of a value to a String path by [User.create], which rejects
    when there is none. *)
Definition castToString (v : Json) : Throws string :=
  match v with
  | JString s => mret s
  | JOther _ (Some s) => mret s
  | _ => Throw ValidationError
  end.

(** What the process supplies: the id of the inserted document, the salt
    bcrypt draws, the clock and [process.env.JWT_SECRET]. *)
Record Env : Type := mkEnv {
  freshId : string;
  salt : string;
  now : Z;
  JWT_SECRET : option string
}.

(** [{ id, name, email, role }] *)
Record Account : Type := mkAccount {
  acc_id : string;
  acc_name : string;
  acc_email : string;
  acc_role : Role
}.

Section Routes.
Context `{Runtime} `{!User.Schema}.

(** [process.env.JWT_SECRET || 'dev_secret'] *)
Definition secret (env : Env) : string :=
  if truthy (JWT_SECRET env) then toString (JWT_SECRET env) else "dev_secret".

Definition account (user : User.t) : Account :=
  mkAccount (User._id user) (User.name user) (User.email user) (User.role user).

Definition authenticated (st : Z) (msg : string) (user : User.t) (env : Env)
    : Response Account :=
  mkResponse st
    (mkEnvelope true (Some msg) None (Some (account user)) None None None None
       None None
       (Some (jwt_sign (User._id user) (User.role user) (secret env) (now env)))).

(** POST /register *)
Definition register (users : list User.t) (body : Body) (env : Env)
    : Response Account * list User.t :=
  tryCatch
    (if negb (truthyJson (name body)) || negb (truthyJson (email body)) ||
        negb (truthyJson (phone body)) || negb (truthyJson (zipcode body)) ||
        negb (truthyJson (password body))
     then mret (failure 400 "All fields are required" None, users)
     else
       lowered ← toLowerCaseOf (email body);
       let existing := User.findOne (fun u => String.eqb (User.email u) lowered) users in
       match existing with
       | Some _ => mret (failure 409 "Email already in use" None, users)
       | None =>
           password ← bcryptArgument (password body);
           let hashed := bcrypt_hash password (salt env) in
           lowered ← toLowerCaseOf (email body);
           name ← castToString (name body);
           phone ← castToString (phone body);
           zipcode ← castToString (zipcode body);
           '(user, users') ← User.create
              (User.mk (freshId env) name lowered phone zipcode hashed
                 RoleUser true)
              users;
           mret (authenticated 201 "Registered successfully" user env, users')
       end)
    (fun e => (failure 500 "Registration error" (Some e), users)).

(** POST /login *)
Definition login (users : list User.t) (body : Body) (env : Env)
    : Response Account :=
  tryCatch
    (if negb (truthyJson (email body)) || negb (truthyJson (password body))
     then mret (failure 400 "Email and password are required" None)
     else
       lowered ← toLowerCaseOf (email body);
       let user := User.findOne
                     (fun u => String.eqb (User.email u) lowered && User.isActive u)
                     users in
       match user with
       | None => mret (failure 401 "Invalid credentials" None)
       | Some user =>
           password ← bcryptArgument (password body);
           let match_ := bcrypt_compare password (User.password user) in
           if negb match_
           then mret (failure 401 "Invalid credentials" None)
           else mret (authenticated 200 "Login successful" user env)
       end)
    (fun e => failure 500 "Login error" (Some e)).

End Routes.

End AuthRoutes.

(** ** The earlier revision of routes/productRoutes.js

    The router before pagination, authentication and binary images: the
    listing and the search send every result, uploaded files stay on disk and
    [images] holds their paths, and a creation that fails removes the files
    it uploaded.  The disk is the set of the names of the files in the
    uploads directory. *)
Module Legacy.

Section Routes.
Context `{Runtime} `{!Product.Schema}.

(** [{ success: true, count: products.length, data: products }] *)
Definition counted (products : list Product.doc) : Response (list Product.doc) :=
  mkResponse 200
    (mkEnvelope true None None (Some products) (Some (Z.of_nat (length products)))
       None None None None None None).

(** GET / *)
Definition listProducts (c : gmap string (Product.t Image)) : Response (list Product.doc) :=
  tryCatch
    (let products := Product.find ProductRoutes.activeCriteria c in
     mret (counted products))
    (fun e => failure 500 "Error fetching products" (Some e)).

(** GET /search/:query *)
Definition search (c : gmap string (Product.t Image)) (req : Request)
    : Response (list Product.doc) :=
  tryCatch
    (let searchQuery := params_query req in
     match Regex.compile pcre searchQuery with
     | None => Throw BadValue
     | Some re =>
         let products := Product.find (ProductRoutes.searchCriteria re) c in
         mret (counted products)
     end)
    (fun e => failure 500 "Error searching products" (Some e)).

(** GET /:id *)
Definition getById (c : gmap string (Product.t Image)) (req : Request)
    : Response Product.doc :=
  tryCatch
    (product ← Product.findById (params_id req) c;
     match product with
     | None => mret (failure 404 "Product not found" None)
     | Some p => mret (succeeded 200 None (Some p))
     end)
    (fun e => failure 500 "Error fetching product" (Some e)).

(** [req.files.forEach(file => { if (fs.existsSync(filePath))
    fs.unlinkSync(filePath) })] *)
Definition unlinkUploads (fs : list File) (disk : gset string) : gset string :=
  foldl (fun d file => if decide (filename file ∈ d) then d ∖ {[filename file]} else d)
    disk fs.

(** POST / *)
Definition create (c : gmap string (Product.t Image)) (disk : gset string)
    (req : Request) (freshId : string) (now : Z)
    : Response Product.doc * gmap string (Product.t Image) * gset string :=
  tryCatch
    (if noFiles req
     then mret (failure 400 "At least one image is required" None, c, disk)
     else
       let images := Server.pathImages (default [] (files req)) in
       '(product, c') ← Product.create
          (Product.mkNewDoc (body_name req) (body_description req) images
             (parseFloat (toString (body_price req))) (body_category req)
             (Js.parseInt (toString (body_stock req))))
          freshId now c;
       mret (succeeded 201 (Some "Product created successfully") (Some product),
             c', disk))
    (fun e =>
       (failure 400 "Error creating product" (Some e), c,
        match files req with
        | Some fs => unlinkUploads fs disk
        | None => disk
        end)).

(** PUT /:id, with the collection at its [findById], [seen], and at its
    [findByIdAndUpdate], [c]. *)
Definition updateFrom (seen c : gmap string (Product.t Image)) (req : Request)
    (now : Z)
    : Response Product.doc * gmap string (Product.t Image) :=
  tryCatch
    (updateData ←
       (if negb (noFiles req) then
          let newImages := Server.pathImages (default [] (files req)) in
          existingProduct ← Product.findById (params_id req) seen;
          match existingProduct with
          | Some p =>
              mret (ProductRoutes.updateData req
                      (Some (Product.images p.2 ++ newImages)%list))
          | None => mret (ProductRoutes.updateData req None)
          end
        else mret (ProductRoutes.updateData req None));
     '(product, c') ← Product.findByIdAndUpdate (params_id req) updateData true now c;
     match product with
     | None => mret (failure 404 "Product not found" None, c')
     | Some p =>
         mret (succeeded 200 (Some "Product updated successfully") (Some p), c')
     end)
    (fun e => (failure 400 "Error updating product" (Some e), c)).

(** PUT /:id when no other request writes between its read and its
    write. *)
Definition update (c : gmap string (Product.t Image)) (req : Request) (now : Z)
    : Response Product.doc * gmap string (Product.t Image) :=
  updateFrom c c req now.

(** DELETE /:id at the time [now]. *)
Definition softDelete (c : gmap string (Product.t Image)) (req : Request) (now : Z)
    : Response Product.doc * gmap string (Product.t Image) :=
  tryCatch
    ('(product, c') ← Product.findByIdAndUpdate (params_id req)
        Product.deactivate false now c;
     match product with
     | None => mret (failure 404 "Product not found" None, c')
     | Some _ => mret (succeeded 200 (Some "Product deleted successfully") None, c')
     end)
    (fun e => (failure 500 "Error deleting product" (Some e), c)).

End Routes.

End Legacy.

(** ** createAdminUser.js

    The bootstrap script, from the connection on: its result is the exit
    code of the process and the users it leaves; what it prints is not
    modelled. *)
Module Bootstrap.

Section Script.
Context `{Runtime} `{!User.Schema}.

(** [createAdminUser()]; [connectError] is the error [mongoose.connect]
    rejects with, if it does, and the id and the salt are those of the
    insertion and of bcrypt. *)
Definition createAdminUser (connectError : option Exception) (users : list User.t)
    (freshId salt : string) : Z * list User.t :=
  tryCatch
    (_ ← match connectError with
         | Some e => Throw e
         | None => mret tt
         end;
     let existingAdmin :=
       User.findOne (fun u => String.eqb (User.email u) "admin@khushu.com") users in
     match existingAdmin with
     | Some _ => mret (0, users)
     | None =>
         let hashedPassword := bcrypt_hash "admin123" salt in
         '(adminUser, users') ← User.create
            (User.mk freshId "Admin User" "admin@khushu.com" "1234567890" "12345"
               hashedPassword RoleAdmin true)
            users;
         mret (0, users')
     end)
    (fun e => (1, users)).

End Script.

End Bootstrap.

(** ** The vocabulary of the specification *)

(** The error classes of the specification and the status each is sent
    with. *)
Inductive ErrorClass : Type :=
| InvalidRequest   (* ValidationError, 400 *)
| Conflict         (* ConflictError, 409 *)
| Unauthenticated  (* AuthError, 401 *)
| Forbidden        (* ForbiddenError, 403 *)
| NotFound         (* NotFoundError, 404 *)
| StoreFailure     (* StoreError, 500 *).

Definition errorClass {D : Type} (r : Response D) : option ErrorClass :=
  if success (json r) then None
  else if status r =? 400 then Some InvalidRequest
  else if status r =? 409 then Some Conflict
  else if status r =? 401 then Some Unauthenticated
  else if status r =? 403 then Some Forbidden
  else if status r =? 404 then Some NotFound
  else if status r =? 500 then Some StoreFailure
  else None.

(** [s] contains [q] as a case-insensitive substring. *)
Definition containsCI (q s : string) : Prop :=
  exists pre post, Js.toLowerCase s = pre +:+ Js.toLowerCase q +:+ post.

(** [k] is the ceiling of [total / pageSize], for a positive [pageSize]. *)
Definition isCeil (k total pageSize : Z) : Prop :=
  (k - 1) * pageSize < total <= k * pageSize.

(** The pagination metadata of a response are those of [total] results
    read at page [pg] with [pageSize] results a page. *)
Definition pageMetadata {D : Type} (r : Response D) (total pg pageSize : Z) : Prop :=
  status r = 200 /\
  count (json r) = Some total /\
  page (json r) = Some pg /\
  (exists k, totalPages (json r) = Some k /\ isCeil k total pageSize) /\
  (exists b, hasNextPage (json r) = Some b /\ (b = true <-> pg * pageSize < total)) /\
  (exists b, hasPrevPage (json r) = Some b /\ (b = true <-> pg > 1)).

(** The number of documents of the collection that satisfy the criteria. *)
Definition totalOf `{Runtime} (crit : Product.t Image -> bool)
    (c : gmap string (Product.t Image)) : Z :=
  Z.of_nat (size (filter (fun kv : string * Product.t Image => crit kv.2 = true) c)).

(** A query made of ordinary characters only. *)
Definition literalQuery (q : string) : bool :=
  allChars (fun c => negb (Regex.isMeta c)) q.

(** The products a search for [q] is to find: active, with [q] in the name,
    the description or, when [withCategory], the category. *)
Definition wanted `{Runtime} (withCategory : bool) (q : string) (p : Product.t Image) : Prop :=
  Product.isActive p = true /\
  (containsCI q (Product.name p) \/ containsCI q (Product.description p) \/
   (withCategory = true /\
    exists cat, Product.category p = Some cat /\ containsCI q cat)).

(** The price and the stock of the request are numbers. *)
Definition numericFields `{Runtime} (req : Request) : Prop :=
  (exists x, parseFloat (toString (body_price req)) = Num x) /\
  (exists n, Js.parseInt (toString (body_stock req)) = Num n).

(** The slice of [l] shown at page [pg]. *)
Definition pageSlice {A : Type} (pg pageSize : Z) (l : list A) : list A :=
  take (Z.to_nat pageSize) (drop (Z.to_nat ((pg - 1) * pageSize)) l).

(** The five fields of a registration are all supplied and not empty. *)
Definition complete (body : AuthRoutes.Body) : Prop :=
  truthyJson (AuthRoutes.name body) = true /\
  truthyJson (AuthRoutes.email body) = true /\
  truthyJson (AuthRoutes.phone body) = true /\
  truthyJson (AuthRoutes.zipcode body) = true /\
  truthyJson (AuthRoutes.password body) = true.

(** Every stored email is in lower case, as [register] and the bootstrap
    script store it. *)
Definition lowercased (users : list User.t) : Prop :=
  Forall (fun u => User.email u = Js.toLowerCase (User.email u)) users.

(** The number of results page [pg] shows out of [total], [pageSize] a
    page. *)
Definition shownOn (total pg pageSize : Z) : Z :=
  Z.max 0 (Z.min pageSize (total - (pg - 1) * pageSize)).

(** The requests of the pages 1, 2, ... in turn, all with [pageSize] results
    a page. *)
Definition consecutivePages (pageSize : Z) (reqs : list Request) : Prop :=
  forall i r, reqs !! i = Some r -> pageOf r = Z.of_nat i + 1 /\ limitOf r = pageSize.

(** No two documents of the collection that satisfy the criteria were
    created at the same time. *)
Definition distinctTimes `{Runtime} (crit : Product.t Image -> bool)
    (c : gmap string (Product.t Image)) : Prop :=
  forall i p j q, c !! i = Some p -> c !! j = Some q ->
    crit p = true -> crit q = true ->
    Product.createdAt p = Product.createdAt q -> i = j.

(** Every document of [c] is still in [c'], created at the same time, and
    is not active in [c'] if it was not in [c]. *)
Definition keepsDocuments `{Runtime} (c c' : gmap string (Product.t Image)) : Prop :=
  forall id p, c !! id = Some p ->
    exists p', c' !! id = Some p' /\
               Product.createdAt p' = Product.createdAt p /\
               (Product.isActive p = false -> Product.isActive p' = false).

(** [c'] is [c] after one write of a route: an update, which does not set
    [isActive] to true, of a document of [c], or the insertion of an active
    document under an id [c] does not hold. *)
Definition oneWrite `{Runtime} (c c' : gmap string (Product.t Image)) : Prop :=
  (exists id p u now, c !! id = Some p /\ Product.set_isActive u <> Some true /\
                      c' = <[id := Product.applyUpdate u now p]> c) \/
  (exists id p, c !! id = None /\ Product.isActive p = true /\ c' = <[id := p]> c).

(** The outcome of a writing route: a failure that leaves the collection as
    it was, or a success after one write. *)
Definition writeOutcome `{Runtime} {D : Type} (c : gmap string (Product.t Image))
    (r : Response D) (c' : gmap string (Product.t Image)) : Prop :=
  (success (json r) = false /\ c' = c) \/
  (success (json r) = true /\ (status r = 200 \/ status r = 201) /\ oneWrite c c').

(** The nine writing routes on one request at the time [now]: for each,
    whether it answers with a success, its status and the collection it
    leaves. *)
Definition writesOf `{Runtime} `{!Product.Schema} (c : gmap string (Product.t Image))
    (disk : gset string) (req : Request) (freshId : string) (now : Z)
    : list (bool * Z * gmap string (Product.t Image)) :=
  let answer {D : Type} (r : Response D * gmap string (Product.t Image)) :=
    (success (json r.1), status r.1, r.2) in
  [ answer (ProductRoutes.create c req freshId now);
    answer (ProductRoutes.update c req now);
    answer (ProductRoutes.softDelete c req now);
    answer (Server.create c req freshId now);
    answer (Server.update c req now);
    answer (Server.softDelete c req now);
    answer (Legacy.create c disk req freshId now).1;
    answer (Legacy.update c req now);
    answer (Legacy.softDelete c req now) ].

(** No product of the collection has the id of the request. *)
Definition unknownId `{Runtime} (c : gmap string (Product.t Image)) (req : Request) : Prop :=
  forall id, objectId (params_id req) = Some id -> c !! id = None.

(** The response to a request for a product that is not there: 404, or 500
    with [msg] when the id of the request is no id at all. *)
Definition notThere `{Runtime} {D : Type} (req : Request) (msg : string) : Response D :=
  match objectId (params_id req) with
  | Some _ => failure 404 "Product not found" None
  | None => failure 500 msg (Some CastError)
  end.

(** 1 for a document that satisfies the criteria, 0 for one that does not
    or for none. *)
Definition counts `{Runtime} (crit : Product.t Image -> bool)
    (o : option (Product.t Image)) : Z :=
  match o with
  | Some p => if crit p then 1 else 0
  | None => 0
  end.

(** The document a successful creation stores. *)
Definition created `{Runtime} (nm ds : string) (imgs : list Image) (pr : Price)
    (cat : option string) (st now : Z) : Product.t Image :=
  Product.mk nm ds imgs pr cat st true now now.

(** A view with its images put back as stored strings. *)
Definition asStored `{Runtime} (v : string * Product.t string) : Product.doc :=
  (v.1,
   Product.mk (Product.name v.2) (Product.description v.2)
     (List.map ImgString (Product.images v.2))
     (Product.price v.2) (Product.category v.2) (Product.stock v.2)
     (Product.isActive v.2) (Product.createdAt v.2) (Product.updatedAt v.2)).

(** bcrypt accepts a password against a hash made of it, whatever the
    salt. *)
Definition hashVerifies `{Runtime} : Prop :=
  forall pw salt, bcrypt_compare pw (bcrypt_hash pw salt) = true.

(** The user a registration with these fields stores. *)
Definition registered `{Runtime} (env : AuthRoutes.Env) (n e ph z pw : string) : User.t :=
  User.mk (AuthRoutes.freshId env) n (Js.toLowerCase e) ph z
    (bcrypt_hash pw (AuthRoutes.salt env)) RoleUser true.

(** The user the bootstrap script stores. *)
Definition adminUser `{Runtime} (freshId salt : string) : User.t :=
  User.mk freshId "Admin User" "admin@khushu.com" "1234567890" "12345"
    (bcrypt_hash "admin123" salt) RoleAdmin true.

(** [p] with its [updatedAt] set to [now]. *)
Definition touched `{Runtime} (now : Z) (p : Product.t Image) : Product.t Image :=
  Product.mk (Product.name p) (Product.description p) (Product.images p)
    (Product.price p) (Product.category p) (Product.stock p)
    (Product.isActive p) (Product.createdAt p) now.

(** Every document of [c] is still in [c'] with the images it had, in the
    same order, possibly followed by more. *)
Definition keepsImages `{Runtime} (c c' : gmap string (Product.t Image)) : Prop :=
  forall id p, c !! id = Some p ->
    exists p' more, c' !! id = Some p' /\
                    Product.images p' = (Product.images p ++ more)%list.

(** The product of the request is in [c] what it was in [seen]: no request
    wrote it between the read and the write of the update. *)
Definition undisturbed `{Runtime} (seen c : gmap string (Product.t Image))
    (req : Request) : Prop :=
  forall id, objectId (params_id req) = Some id -> seen !! id = c !! id.

(** ** A runtime to run the model on examples

    Prices are integers, no file is on disk, no pattern outside the fragment
    of [Regex] is accepted, a hash is the password behind a dollar sign, an
    id is 24 hexadecimal digits and the validators accept everything. *)
Definition exampleRuntime : Runtime :=
  {| Price := Z;
     parseFloat := Js.parseInt;
     pcre := fun _ => None;
     base64 := fun _ => "AA==";
     readUpload := fun _ => None;
     extname := fun _ => "";
     bcrypt_hash := fun pw _ => "$" +:+ pw;
     bcrypt_compare := fun pw h => String.eqb h ("$" +:+ pw);
     jwt_sign := fun id _ _ _ => "jwt." +:+ id;
     objectId := hexObjectId |}.

Definition exampleSchema : @Product.Schema exampleRuntime :=
  {| Product.validateUpdate := fun _ => true;
     Product.validateCreate := fun _ => true |}.

Definition exampleUserSchema : User.Schema :=
  {| User.validate := fun _ => true |}.

Definition emptyRequest : Request :=
  mkRequest "" "" None None None None None None None None None.

(** Two ids. *)
Definition idA : string := "64b7f0a1c2d3e4f5a6b7c8d9".
Definition idB : string := "64b7f0a1c2d3e4f5a6b7c8da".

Definition headphones : @Product.t exampleRuntime Image :=
  @Product.mk exampleRuntime Image "Wireless Headphones"
    "High-quality wireless headphones"
    [ImgBinary [] "image/jpeg"] 99%Z (Some "Electronics") 50 true 1000 1000.

Definition novel : @Product.t exampleRuntime Image :=
  @Product.mk exampleRuntime Image "abc" "def" [ImgBinary [] "image/png"] 10%Z
    (Some "Books") 3 true 2000 2000.

Definition catalog : gmap string (@Product.t exampleRuntime Image) :=
  <[idB := novel]> (<[idA := headphones]> ∅).

(** The second page of a listing with one product a page. *)
Definition secondPage : Request :=
  mkRequest "" "" (Some "2") (Some "1") None None None None None None None.

(** A search for [q] on the first page. *)
Definition searchFor (q : string) : Request :=
  mkRequest "" q None None None None None None None None None.

(** An update of the product [idA] that uploads one file. *)
Definition photo : File := mkFile "front.png" [] "image/png".

Definition updateWithPhoto : Request :=
  mkRequest idA "" None None (Some "Headphones") (Some "Wired") (Some "80")
    (Some "Audio") (Some "7") None (Some [photo]).

(** An update of the product [idA] that uploads the file and supplies no
    other field. *)
Definition photoOnly : Request :=
  mkRequest idA "" None None None None None None None None (Some [photo]).

(** Another update of the product [idA] that uploads one file. *)
Definition scan : File := mkFile "back.gif" [] "image/gif".

Definition updateWithScan : Request :=
  mkRequest idA "" None None (Some "Headphones") (Some "Wired") (Some "80")
    (Some "Audio") (Some "7") None (Some [scan]).

(** The same update without a file. *)
Definition updateFields : Request :=
  mkRequest idA "" None None (Some "Headphones") (Some "Wired") (Some "80")
    (Some "Audio") (Some "7") None None.

(** A request on the product [idA]. *)
Definition onProductA : Request :=
  mkRequest idA "" None None None None None None None None None.

(** A creation request with every field and no file. *)
Definition createWithoutImage : Request :=
  mkRequest "" "" None None (Some "Wireless Headphones")
    (Some "High-quality wireless headphones") (Some "99") (Some "Electronics")
    (Some "50") None (Some []).

(** A collection whose only product has been soft-deleted. *)
Definition retired : @Product.t exampleRuntime Image :=
  @Product.mk exampleRuntime Image "Wireless Headphones"
    "High-quality wireless headphones"
    [ImgBinary [] "image/jpeg"] 99%Z (Some "Electronics") 50 false 1000 1500.


(** A registration, the same registration with the email in another case,
    and the process state of the two calls. *)
Definition signup : AuthRoutes.Body :=
  AuthRoutes.mkBody (JString "Amina") (JString "Amina@Khushu.com") (JString "0300")
    (JString "54000") (JString "s3cret").

Definition signupAgain : AuthRoutes.Body :=
  AuthRoutes.mkBody (JString "Amina") (JString "AMINA@khushu.COM") (JString "0300")
    (JString "54000") (JString "s3cret").

Definition firstCall : AuthRoutes.Env := AuthRoutes.mkEnv idA "salt1" 100 None.
Definition secondCall : AuthRoutes.Env := AuthRoutes.mkEnv idB "salt2" 200 None.

Definition amina : User.t :=
  User.mk idA "Amina" "amina@khushu.com" "0300" "54000" "$s3cret" RoleUser true.

(** A login with an empty password. *)
Definition blankPassword : AuthRoutes.Body :=
  AuthRoutes.mkBody JUndefined (JString "nobody@khushu.com") JUndefined JUndefined (JString "").




(** The creation of the headphones with two pictures. *)
Definition createHeadphones : Request :=
  mkRequest "" "" None None (Some "Wireless Headphones")
    (Some "High-quality wireless headphones") (Some "99") (Some "Electronics")
    (Some "50") None
    (Some [mkFile "img1.jpg" [] "image/jpeg"; mkFile "img2.jpg" [] "image/jpeg"]).

(** The first page of a listing with one product a page. *)
Definition firstPage : Request :=
  mkRequest "" "" (Some "1") (Some "1") None None None None None None None.

(** An id the catalog does not hold, and a request on it. *)
Definition idC : string := "64b7f0a1c2d3e4f5a6b7c8db".

Definition onProductC : Request :=
  mkRequest idC "" None None (Some "Headphones") (Some "Wired") (Some "80")
    (Some "Audio") (Some "7") None None.

(** The two files of [createHeadphones]. *)
Definition twoPictures : list File :=
  [mkFile "img1.jpg" [] "image/jpeg"; mkFile "img2.jpg" [] "image/jpeg"].

(** A registration without a phone number. *)
Definition signupWithoutPhone : AuthRoutes.Body :=
  AuthRoutes.mkBody (JString "Amina") (JString "Amina@Khushu.com") JUndefined
    (JString "54000") (JString "s3cret").

(** A registration under the address of the administrator, and the login of
    the administrator. *)
Definition squatter : AuthRoutes.Body :=
  AuthRoutes.mkBody (JString "Mallory") (JString "Admin@Khushu.com") (JString "0311")
    (JString "54000") (JString "letmein").

Definition adminLogin : AuthRoutes.Body :=
  AuthRoutes.mkBody JUndefined (JString "Admin@Khushu.com") JUndefined JUndefined (JString "admin123").

(** * Properties *)

(** ** Strings and the regular-expression fragment *)

Lemma toLowerCase_app (a b : string) :
  Js.toLowerCase (a +:+ b) = Js.toLowerCase a +:+ Js.toLowerCase b.
Proof.
  induction a as [|c a IH]; simpl; [reflexivity|]. now rewrite IH.
Qed.

Lemma toLowerCase_length (s : string) :
  String.length (Js.toLowerCase s) = String.length s.
Proof.
  induction s as [|c s IH]; simpl; [reflexivity|]. now rewrite IH.
Qed.

Lemma lowerChar_idem (c : ascii) : Js.lowerChar (Js.lowerChar c) = Js.lowerChar c.
Proof.
  destruct c as [[] [] [] [] [] [] [] []]; reflexivity.
Qed.

Lemma toLowerCase_idem (s : string) :
  Js.toLowerCase (Js.toLowerCase s) = Js.toLowerCase s.
Proof.
  induction s as [|c s IH]; simpl; [reflexivity|].
  now rewrite lowerChar_idem, IH.
Qed.

(** A literal query parses to its characters. *)
Lemma parse_literal (q : string) :
  literalQuery q = true ->
  Regex.parse q = Some (List.map Regex.Lit (list_ascii_of_string q)).
Proof.
  unfold literalQuery.
  induction q as [|c q IH]; simpl; intros Hq; [reflexivity|].
  apply andb_true_iff in Hq as [Hc Hq].
  destruct (Ascii.eqb c ".") eqn:Hdot.
  - apply Ascii.eqb_eq in Hdot. subst c. discriminate Hc.
  - apply negb_true_iff in Hc. rewrite Hc, (IH Hq). reflexivity.
Qed.

(** Literal atoms match a prefix exactly when the lowered subject starts
    with the lowered pattern. *)
Lemma matchHere_literal (q s : string) :
  Regex.matchHere (List.map Regex.Lit (list_ascii_of_string q)) s = true <->
  exists post, Js.toLowerCase s = Js.toLowerCase q +:+ post.
Proof.
  revert s. induction q as [|a q IH]; intros s; simpl.
  - split; [intros _; now exists (Js.toLowerCase s) | reflexivity].
  - destruct s as [|c s]; simpl.
    + split; [discriminate | intros [post Hp]; discriminate Hp].
    + rewrite andb_true_iff, IH, Ascii.eqb_eq. split.
      * intros [Hc [post Hp]]. exists post. now rewrite Hc, Hp.
      * intros [post Hp]. injection Hp as Hc Hp. split; [now symmetry | now exists post].
Qed.

Lemma matchAnywhere_literal (q s : string) :
  Regex.matchAnywhere (List.map Regex.Lit (list_ascii_of_string q)) s = true <->
  containsCI q s.
Proof.
  unfold containsCI. induction s as [|c s IH].
  - simpl. rewrite orb_false_r, matchHere_literal. split.
    + intros [post Hp]. now exists "", post.
    + intros [pre [post Hp]]. destruct pre as [|x pre]; [now exists post|].
      discriminate Hp.
  - cbn [Regex.matchAnywhere]. rewrite orb_true_iff, matchHere_literal, IH. split.
    + intros [[post Hp] | [pre [post Hp]]].
      * now exists "", post.
      * exists (String (Js.lowerChar c) pre), post. simpl. now rewrite Hp.
    + intros [pre [post Hp]]. destruct pre as [|x pre].
      * left. now exists post.
      * right. simpl in Hp. injection Hp as _ Hp. now exists pre, post.
Qed.

(** On a literal query the compiled expression is the case-insensitive
    substring test, whatever the engine of the runtime. *)
Lemma compile_literal (engine : string -> option (string -> bool)) (q : string) :
  literalQuery q = true ->
  exists re, Regex.compile engine q = Some re /\
             forall s, re s = true <-> containsCI q s.
Proof.
  intros Hq. unfold Regex.compile. rewrite (parse_literal q Hq).
  eexists. split; [reflexivity|]. intros s. apply matchAnywhere_literal.
Qed.

(** ** Arithmetic of the pagination metadata *)

Lemma ceilDiv_isCeil (total pageSize : Z) :
  0 < pageSize -> isCeil (Js.ceilDiv total pageSize) total pageSize.
Proof.
  intros Hp. unfold isCeil, Js.ceilDiv.
  pose proof (Z.div_mod (- total) pageSize ltac:(lia)) as Hdm.
  pose proof (Z.mod_pos_bound (- total) pageSize Hp) as Hb.
  nia.
Qed.

Lemma isCeil_unique (k k' total pageSize : Z) :
  0 < pageSize -> isCeil k total pageSize -> isCeil k' total pageSize -> k = k'.
Proof.
  unfold isCeil. intros Hp [H1 H2] [H3 H4]. nia.
Qed.

(** ** Queries on the product collection *)

Section Queries.
Context `{Runtime}.

Lemma elem_of_matching (crit : Product.t Image -> bool)
    (c : gmap string (Product.t Image)) (id : string) (p : Product.t Image) :
  (id, p) ∈ Product.matching crit c <-> c !! id = Some p /\ crit p = true.
Proof.
  unfold Product.matching.
  rewrite list_elem_of_In, filter_In, <- list_elem_of_In, elem_of_map_to_list.
  reflexivity.
Qed.

Lemma NoDup_matching (crit : Product.t Image -> bool)
    (c : gmap string (Product.t Image)) :
  NoDup (Product.matching crit c).
Proof.
  unfold Product.matching.
  apply NoDup_ListNoDup, List.NoDup_filter, NoDup_ListNoDup, NoDup_map_to_list.
Qed.

Lemma find_Permutation (crit : Product.t Image -> bool)
    (c : gmap string (Product.t Image)) :
  Product.find crit c ≡ₚ Product.matching crit c.
Proof. apply merge_sort_Permutation. Qed.

Lemma elem_of_find (crit : Product.t Image -> bool)
    (c : gmap string (Product.t Image)) (id : string) (p : Product.t Image) :
  (id, p) ∈ Product.find crit c <-> c !! id = Some p /\ crit p = true.
Proof. rewrite find_Permutation. apply elem_of_matching. Qed.

Lemma NoDup_find (crit : Product.t Image -> bool)
    (c : gmap string (Product.t Image)) :
  NoDup (Product.find crit c).
Proof. rewrite find_Permutation. apply NoDup_matching. Qed.

#[local] Instance newerFirst_total : Total Product.newerFirst.
Proof. intros a b. unfold Product.newerFirst. lia. Qed.

(** The results come newest first. *)
Lemma find_sorted (crit : Product.t Image -> bool)
    (c : gmap string (Product.t Image)) :
  Sorted Product.newerFirst (Product.find crit c).
Proof. apply Sorted_merge_sort, _. Qed.

Lemma length_find (crit : Product.t Image -> bool)
    (c : gmap string (Product.t Image)) :
  Z.of_nat (length (Product.find crit c)) = Product.countDocuments crit c.
Proof.
  unfold Product.countDocuments. now rewrite (Permutation_length (find_Permutation crit c)).
Qed.

(** Criteria that agree on every document select the same documents. *)
Lemma matching_ext (f g : Product.t Image -> bool)
    (c : gmap string (Product.t Image)) :
  (forall p, f p = g p) -> Product.matching f c = Product.matching g c.
Proof.
  intros Hfg. unfold Product.matching. apply List.filter_ext. intros d. apply Hfg.
Qed.

Lemma skipLimit_valid (skip limit : Z) (l : list Product.doc) :
  0 <= skip -> 1 <= limit ->
  Product.skipLimit skip limit l =
  Ret (take (Z.to_nat limit) (drop (Z.to_nat skip) l)).
Proof.
  intros Hs Hl. unfold Product.skipLimit.
  destruct (skip <? 0) eqn:E; [lia|].
  destruct (limit =? 0) eqn:E'; [lia|].
  now rewrite Z.abs_eq by lia.
Qed.

(** A page holds results of the query only. *)
Lemma skipLimit_subset (skip limit : Z) (l l' : list Product.doc) (d : Product.doc) :
  Product.skipLimit skip limit l = Ret l' -> d ∈ l' -> d ∈ l.
Proof.
  unfold Product.skipLimit. destruct (skip <? 0); [discriminate|].
  intros [= <-] Hd.
  assert (d ∈ drop (Z.to_nat skip) l) as Hd'.
  { destruct (limit =? 0); [exact Hd|].
    eapply elem_of_sublist; [exact Hd | apply sublist_take]. }
  eapply elem_of_sublist; [exact Hd' | apply sublist_drop].
Qed.

(** The count is the number of documents of the collection that satisfy
    the criteria. *)
Lemma countDocuments_size (crit : Product.t Image -> bool)
    (c : gmap string (Product.t Image)) :
  Product.countDocuments crit c =
  Z.of_nat (size (filter (fun kv : string * Product.t Image => crit kv.2 = true) c)).
Proof.
  unfold Product.countDocuments, Product.matching. f_equal.
  rewrite <- length_map_to_list.
  apply Permutation_length, NoDup_Permutation.
  - apply NoDup_ListNoDup, List.NoDup_filter, NoDup_ListNoDup, NoDup_map_to_list.
  - apply NoDup_map_to_list.
  - intros [id p].
    rewrite list_elem_of_In, filter_In, <- list_elem_of_In.
    rewrite !elem_of_map_to_list, map_lookup_filter_Some. reflexivity.
Qed.

End Queries.

(** ** Pagination *)

Lemma paged_metadata {D : Type} (total : Z) (d : D) (pg pageSize : Z) (q : option string) :
  0 < pageSize ->
  pageMetadata
    (paged total d pg (Js.ceilDiv total pageSize) (pg * pageSize <? total) (1 <? pg) q)
    total pg pageSize.
Proof.
  intros Hp. unfold pageMetadata, paged. simpl.
  repeat split; try reflexivity.
  - exists (Js.ceilDiv total pageSize). split; [reflexivity|]. now apply ceilDiv_isCeil.
  - exists (pg * pageSize <? total). split; [reflexivity|]. apply Z.ltb_lt.
  - exists (1 <? pg). split; [reflexivity|]. rewrite Z.ltb_lt. lia.
Qed.

Section Pagination.
Context `{Runtime}.

(** On a valid page the listing sends the slice of the active products,
    newest first, that the page shows. *)
Lemma listProducts_page (c : gmap string (Product.t Image)) (req : Request) :
  1 <= pageOf req -> 1 <= limitOf req ->
  Sorted Product.newerFirst (Product.find ProductRoutes.activeCriteria c) /\
  data (json (ProductRoutes.listProducts c req)) =
    Some (List.map ProductRoutes.toDataUrlProduct
            (pageSlice (pageOf req) (limitOf req)
               (Product.find ProductRoutes.activeCriteria c))) /\
  data (json (Server.listProducts c req)) =
    Some (pageSlice (pageOf req) (limitOf req)
            (Product.find ProductRoutes.activeCriteria c)).
Proof.
  intros Hpage Hlimit.
  assert (0 <= (pageOf req - 1) * limitOf req) as Hskip by nia.
  split; [apply find_sorted|].
  unfold ProductRoutes.listProducts, Server.listProducts.
  rewrite !skipLimit_valid by assumption. split; reflexivity.
Qed.

(** C1. For every list or search request with a valid page and page size
    (both at least 1, after the defaults), the response carries
    [totalPages = ceil(total / pageSize)], [hasNextPage] true exactly when
    [page * pageSize < total] and [hasPrevPage] true exactly when [page > 1],
    where [total], also sent as [count], is the number of active products
    (for a search: of active products the query matches).  This holds for
    the router and for the routes of the entry file; a search whose pattern
    the engine rejects is answered with status 500 and has no metadata. *)
Theorem pagination_metadata (c : gmap string (Product.t Image)) (req : Request) :
  1 <= pageOf req -> 1 <= limitOf req ->
  pageMetadata (ProductRoutes.listProducts c req)
    (totalOf Product.isActive c) (pageOf req) (limitOf req) /\
  pageMetadata (Server.listProducts c req)
    (totalOf Product.isActive c) (pageOf req) (limitOf req) /\
  match Regex.compile pcre (params_query req) with
  | Some re =>
      pageMetadata (ProductRoutes.search c req)
        (totalOf (ProductRoutes.searchCriteria re) c) (pageOf req) (limitOf req) /\
      pageMetadata (Server.search c req)
        (totalOf (Server.searchCriteria re) c) (pageOf req) (limitOf req)
  | None =>
      errorClass (ProductRoutes.search c req) = Some StoreFailure /\
      errorClass (Server.search c req) = Some StoreFailure
  end.
Proof.
  intros Hpage Hlimit.
  assert (0 <= (pageOf req - 1) * limitOf req) as Hskip by nia.
  unfold totalOf. rewrite <- !countDocuments_size.
  unfold ProductRoutes.listProducts, Server.listProducts,
    ProductRoutes.search, Server.search.
  destruct (Regex.compile pcre (params_query req)) as [re|].
  - rewrite <- !countDocuments_size.
    rewrite !skipLimit_valid by assumption. cbn [mbind Throws_bind mret Throws_ret tryCatch].
    repeat split; apply paged_metadata; lia.
  - rewrite !skipLimit_valid by assumption. cbn [mbind Throws_bind mret Throws_ret tryCatch].
    repeat split; try (apply paged_metadata; lia); reflexivity.
Qed.

End Pagination.

(** ** Search *)

Section Search.
Context `{Runtime}.

Lemma routerCriteria_wanted (re : string -> bool) (q : string) (p : Product.t Image) :
  (forall s, re s = true <-> containsCI q s) ->
  ProductRoutes.searchCriteria re p = true <-> wanted true q p.
Proof.
  intros Hre. unfold ProductRoutes.searchCriteria, wanted.
  rewrite andb_true_iff, !orb_true_iff, !Hre.
  destruct (Product.category p) as [cat|].
  - rewrite Hre. split.
    + intros [Ha [[Hn | Hd] | Hc]]; eauto 8.
    + intros [Ha [Hn | [Hd | [_ [cat' [[= <-] Hc]]]]]]; eauto.
  - split.
    + intros [Ha [[Hn | Hd] | Hc]]; [eauto | eauto | discriminate].
    + intros [Ha [Hn | [Hd | [_ [cat' [Hc _]]]]]]; [eauto | eauto | discriminate].
Qed.

Lemma serverCriteria_wanted (re : string -> bool) (q : string) (p : Product.t Image) :
  (forall s, re s = true <-> containsCI q s) ->
  Server.searchCriteria re p = true <-> wanted false q p.
Proof.
  intros Hre. unfold Server.searchCriteria, wanted.
  rewrite andb_true_iff, !orb_true_iff, !Hre. split.
  - intros [Ha [Hn | Hd]]; eauto.
  - intros [Ha [Hn | [Hd | [Hc _]]]]; [eauto | eauto | discriminate].
Qed.

(** C2, amended.  For every query made of ordinary characters only (none of
    the operators of a regular expression) and a valid page and page size,
    the search of the router finds exactly the active products whose name,
    description or category contains the query as a case-insensitive
    substring: [count] is their number and [data] is the requested page of
    them, newest first.  The search of the entry file does the same over
    name and description only. *)
Theorem search_literal_query (c : gmap string (Product.t Image)) (req : Request) :
  literalQuery (params_query req) = true ->
  1 <= pageOf req -> 1 <= limitOf req ->
  (exists results : list Product.doc,
     (forall id p, (id, p) ∈ results <->
                   c !! id = Some p /\ wanted true (params_query req) p) /\
     NoDup results /\ Sorted Product.newerFirst results /\
     status (ProductRoutes.search c req) = 200 /\
     count (json (ProductRoutes.search c req)) = Some (Z.of_nat (length results)) /\
     data (json (ProductRoutes.search c req)) =
       Some (List.map ProductRoutes.toDataUrlProduct
               (pageSlice (pageOf req) (limitOf req) results))) /\
  (exists results : list Product.doc,
     (forall id p, (id, p) ∈ results <->
                   c !! id = Some p /\ wanted false (params_query req) p) /\
     NoDup results /\ Sorted Product.newerFirst results /\
     status (Server.search c req) = 200 /\
     count (json (Server.search c req)) = Some (Z.of_nat (length results)) /\
     data (json (Server.search c req)) =
       Some (pageSlice (pageOf req) (limitOf req) results)).
Proof.
  intros Hq Hpage Hlimit.
  assert (0 <= (pageOf req - 1) * limitOf req) as Hskip by nia.
  destruct (compile_literal pcre (params_query req) Hq) as [re [Hc Hre]].
  split.
  - exists (Product.find (ProductRoutes.searchCriteria re) c).
    split; [|split; [apply NoDup_find | split; [apply find_sorted|]]].
    + intros id p. rewrite elem_of_find, (routerCriteria_wanted re _ p Hre). reflexivity.
    + unfold ProductRoutes.search. rewrite Hc, skipLimit_valid by assumption.
      cbn [mbind Throws_bind mret Throws_ret tryCatch paged status json count data].
      rewrite length_find. repeat split.
  - exists (Product.find (Server.searchCriteria re) c).
    split; [|split; [apply NoDup_find | split; [apply find_sorted|]]].
    + intros id p. rewrite elem_of_find, (serverCriteria_wanted re _ p Hre). reflexivity.
    + unfold Server.search. rewrite Hc, skipLimit_valid by assumption.
      cbn [mbind Throws_bind mret Throws_ret tryCatch paged status json count data].
      rewrite length_find. repeat split.
Qed.

End Search.

(** ** Reading and updating one document *)

Section Documents.
Context `{Runtime} `{!Product.Schema}.

Lemma findById_present (rid id : string) (c : gmap string (Product.t Image))
    (p : Product.t Image) :
  castObjectId rid = Ret id -> c !! id = Some p ->
  Product.findById rid c = Ret (Some (id, p)).
Proof.
  intros Hid Hp. unfold Product.findById. rewrite Hid.
  cbn [mbind Throws_bind mret Throws_ret]. now rewrite Hp.
Qed.

Lemma findByIdAndUpdate_present (rid id : string) (u : Product.Update)
    (runValidators : bool) (now : Z) (c : gmap string (Product.t Image))
    (p : Product.t Image) :
  castObjectId rid = Ret id -> c !! id = Some p ->
  Product.castFails u = false ->
  runValidators && negb (Product.validateUpdate u) = false ->
  Product.findByIdAndUpdate rid u runValidators now c =
  Ret (Some (id, Product.applyUpdate u now p), <[id := Product.applyUpdate u now p]> c).
Proof.
  intros Hid Hp Hcast Hval. unfold Product.findByIdAndUpdate. rewrite Hid.
  cbn [mbind Throws_bind mret Throws_ret]. now rewrite Hcast, Hval, Hp.
Qed.

Lemma noFiles_false (req : Request) (fs : list File) :
  files req = Some fs -> fs <> [] -> noFiles req = false.
Proof.
  intros Hf Hne. unfold noFiles. rewrite Hf. now destruct fs.
Qed.

Lemma router_castFails (req : Request) (imgs : option (list Image)) :
  numericFields req -> Product.castFails (ProductRoutes.updateData req imgs) = false.
Proof.
  intros [[x Hx] [n Hn]]. unfold Product.castFails, ProductRoutes.updateData.
  cbn. now rewrite Hx, Hn.
Qed.

Lemma server_castFails (req : Request) (imgs : option (list Image)) :
  numericFields req -> Product.castFails (Server.updateData req imgs) = false.
Proof.
  intros [[x Hx] [n Hn]]. unfold Product.castFails, Server.updateData.
  cbn. now rewrite Hx, Hn.
Qed.

(** C3, amended.  For every product of the collection and every non-empty
    list of uploaded files, an update the store accepts (price and stock
    are numbers, the validators pass) answers 200 and leaves the product
    with the image sequence the route read from it, followed by the new
    images: the length is the length read plus the number of files and is
    not below the length read.  [seen] is the collection when the route
    reads the product and [c] the collection when it writes: they are the
    same, and the sequence read is the old sequence, when no other request
    writes in between ([update c req now] is [updateFrom c c req now]).
    The router appends the files as binary images, the route of the entry
    file appends their paths. *)
Theorem update_appends_images (seen c : gmap string (Product.t Image))
    (req : Request) (now : Z) (id : string) (p q : Product.t Image)
    (fs : list File) :
  castObjectId (params_id req) = Ret id ->
  seen !! id = Some p -> c !! id = Some q ->
  files req = Some fs -> fs <> [] ->
  numericFields req ->
  (Product.validateUpdate
     (ProductRoutes.updateData req
        (Some (Product.images p ++ ProductRoutes.binaryImages fs)%list)) = true ->
   exists p',
     ProductRoutes.updateFrom seen c req now =
       (succeeded 200 (Some "Product updated successfully")
          (Some (ProductRoutes.toDataUrlProduct (id, p'))), <[id := p']> c) /\
     Product.images p' = (Product.images p ++ ProductRoutes.binaryImages fs)%list /\
     length (Product.images p') = (length (Product.images p) + length fs)%nat /\
     (length (Product.images p) <= length (Product.images p'))%nat) /\
  (uploadError req = None ->
   Product.validateUpdate
     (Server.updateData req
        (Some (Product.images p ++ Server.pathImages fs)%list)) = true ->
   exists p',
     Server.updateFrom seen c req now =
       (succeeded 200 (Some "Product updated successfully") (Some (id, p')),
        <[id := p']> c) /\
     Product.images p' = (Product.images p ++ Server.pathImages fs)%list /\
     length (Product.images p') = (length (Product.images p) + length fs)%nat /\
     (length (Product.images p) <= length (Product.images p'))%nat).
Proof.
  intros Hid Hp Hq Hf Hne Hnum. split.
  - intros Hval.
    eexists. split; [|split; [|split]].
    + unfold ProductRoutes.updateFrom.
      rewrite (noFiles_false req fs Hf Hne), (findById_present _ _ _ _ Hid Hp), Hf.
      change (default [] (Some fs)) with fs.
      cbn [negb mbind Throws_bind mret Throws_ret snd].
      rewrite (findByIdAndUpdate_present _ _ _ _ _ _ _ Hid Hq).
      * reflexivity.
      * now apply router_castFails.
      * now rewrite Hval.
    + reflexivity.
    + cbn. unfold ProductRoutes.binaryImages.
      now rewrite length_app, length_map.
    + cbn. rewrite length_app. lia.
  - intros Hup Hval.
    eexists. split; [|split; [|split]].
    + unfold Server.updateFrom.
      rewrite Hup, (noFiles_false req fs Hf Hne), (findById_present _ _ _ _ Hid Hp), Hf.
      change (default [] (Some fs)) with fs.
      cbn [negb mbind Throws_bind mret Throws_ret snd].
      rewrite (findByIdAndUpdate_present _ _ _ _ _ _ _ Hid Hq).
      * reflexivity.
      * now apply server_castFails.
      * now rewrite Hval.
    + reflexivity.
    + cbn. unfold Server.pathImages.
      now rewrite length_app, length_map.
    + cbn. rewrite length_app. lia.
Qed.

End Documents.

(** ** Soft delete and what the listings show *)

Section SoftDelete.
Context `{Runtime} `{!Product.Schema}.

Lemma elem_of_views (docs : list Product.doc) (v : string * Product.t string) :
  v ∈ List.map ProductRoutes.toDataUrlProduct docs ->
  exists d, d ∈ docs /\ v = ProductRoutes.toDataUrlProduct d.
Proof.
  rewrite list_elem_of_In, in_map_iff. intros [d [Hv Hd]].
  exists d. now rewrite list_elem_of_In.
Qed.

(** What a listing sends are views of active documents of the collection. *)
Lemma listProducts_only_active (c : gmap string (Product.t Image)) (req : Request)
    (ds : list (string * Product.t string)) (v : string * Product.t string) :
  data (json (ProductRoutes.listProducts c req)) = Some ds -> v ∈ ds ->
  Product.isActive v.2 = true /\
  exists p, c !! v.1 = Some p /\ Product.isActive p = true /\
            v = ProductRoutes.toDataUrlProduct (v.1, p).
Proof.
  unfold ProductRoutes.listProducts.
  destruct (Product.skipLimit _ _ _) as [docs|e] eqn:Hsl;
    cbn [mbind Throws_bind mret Throws_ret tryCatch paged failure json data];
    [|discriminate].
  intros [= <-] Hv. apply elem_of_views in Hv as [[id p] [Hd ->]].
  apply (skipLimit_subset _ _ _ _ _ Hsl), elem_of_find in Hd as [Hp Ha].
  cbn. split; [exact Ha|]. exists p. repeat split; assumption.
Qed.

Lemma search_only_active (c : gmap string (Product.t Image)) (req : Request)
    (ds : list (string * Product.t string)) (v : string * Product.t string) :
  data (json (ProductRoutes.search c req)) = Some ds -> v ∈ ds ->
  Product.isActive v.2 = true /\
  exists p, c !! v.1 = Some p /\ Product.isActive p = true /\
            v = ProductRoutes.toDataUrlProduct (v.1, p).
Proof.
  unfold ProductRoutes.search.
  destruct (Regex.compile pcre (params_query req)) as [re|]; [|discriminate].
  destruct (Product.skipLimit _ _ _) as [docs|e] eqn:Hsl;
    cbn [mbind Throws_bind mret Throws_ret tryCatch paged failure json data];
    [|discriminate].
  intros [= <-] Hv. apply elem_of_views in Hv as [[id p] [Hd ->]].
  apply (skipLimit_subset _ _ _ _ _ Hsl), elem_of_find in Hd as [Hp Ha].
  unfold ProductRoutes.searchCriteria in Ha. apply andb_true_iff in Ha as [Ha _].
  cbn. split; [exact Ha|]. exists p. repeat split; assumption.
Qed.

(** The soft delete of a product of the collection succeeds and stores the
    product with [isActive] false and [updatedAt] the time of the call, all
    else unchanged. *)
Lemma softDelete_present (c : gmap string (Product.t Image)) (req : Request)
    (now : Z) (id : string) (p : Product.t Image) :
  castObjectId (params_id req) = Ret id -> c !! id = Some p ->
  ProductRoutes.softDelete c req now =
    (succeeded 200 (Some "Product deleted successfully") None,
     <[id := Product.applyUpdate Product.deactivate now p]> c).
Proof.
  intros Hid Hp. unfold ProductRoutes.softDelete.
  now rewrite (findByIdAndUpdate_present _ _ _ _ _ _ _ Hid Hp).
Qed.

Lemma server_softDelete_present (c : gmap string (Product.t Image)) (req : Request)
    (now : Z) (id : string) (p : Product.t Image) :
  castObjectId (params_id req) = Ret id -> c !! id = Some p ->
  Server.softDelete c req now =
    (succeeded 200 (Some "Product deleted successfully") None,
     <[id := Product.applyUpdate Product.deactivate now p]> c).
Proof.
  intros Hid Hp. unfold Server.softDelete.
  now rewrite (findByIdAndUpdate_present _ _ _ _ _ _ _ Hid Hp).
Qed.

(** C4. For every product of the collection, the soft delete of its id
    succeeds, whatever its time, and afterwards no page of the listing (and no page of a
    search) holds a product with that id; in any collection, the listing and
    the search send only products whose [isActive] is true. *)
Theorem softDelete_then_list_excludes (c : gmap string (Product.t Image))
    (req : Request) (now : Z) (id : string) (p : Product.t Image) :
  castObjectId (params_id req) = Ret id -> c !! id = Some p ->
  (exists c',
     ProductRoutes.softDelete c req now =
       (succeeded 200 (Some "Product deleted successfully") None, c') /\
     (forall req' ds v,
        data (json (ProductRoutes.listProducts c' req')) = Some ds ->
        v ∈ ds -> v.1 <> id) /\
     (forall req' ds v,
        data (json (ProductRoutes.search c' req')) = Some ds ->
        v ∈ ds -> v.1 <> id)) /\
  (forall (c0 : gmap string (Product.t Image)) req' ds v,
     data (json (ProductRoutes.listProducts c0 req')) = Some ds \/
     data (json (ProductRoutes.search c0 req')) = Some ds ->
     v ∈ ds ->
     Product.isActive v.2 = true /\
     exists p0, c0 !! v.1 = Some p0 /\ Product.isActive p0 = true).
Proof.
  intros Hid Hp. split.
  - eexists. split; [apply (softDelete_present c req now id p Hid Hp)|].
    split; intros req' ds v Hds Hv Heq.
    + destruct (listProducts_only_active _ _ _ _ Hds Hv) as [_ [p0 [Hp0 [Ha _]]]].
      rewrite Heq, lookup_insert_eq in Hp0. injection Hp0 as <-. discriminate Ha.
    + destruct (search_only_active _ _ _ _ Hds Hv) as [_ [p0 [Hp0 [Ha _]]]].
      rewrite Heq, lookup_insert_eq in Hp0. injection Hp0 as <-. discriminate Ha.
  - intros c0 req' ds v [Hds | Hds] Hv.
    + destruct (listProducts_only_active _ _ _ _ Hds Hv) as [Hv' [p0 [Hp0 [Ha _]]]]. eauto.
    + destruct (search_only_active _ _ _ _ Hds Hv) as [Hv' [p0 [Hp0 [Ha _]]]]. eauto.
Qed.

End SoftDelete.

(** ** Creation, single fetch, repeated delete, update of the fields *)

Section Catalog.
Context `{Runtime} `{!Product.Schema}.

Lemma noFiles_true (req : Request) :
  files req = None \/ files req = Some [] -> noFiles req = true.
Proof. unfold noFiles. now intros [-> | ->]. Qed.

(** C5. For every create request whose list of uploaded images is empty
    ([req.files] undefined or of length 0), whatever the other fields, the
    id and the time, creation fails with status 400 (ValidationError) and
    the collection is unchanged.  The message is that an image is required;
    in the route of the entry file a failed upload is reported first, also
    with status 400. *)
Theorem create_requires_image (c : gmap string (Product.t Image)) (req : Request)
    (freshId : string) (now : Z) :
  files req = None \/ files req = Some [] ->
  ProductRoutes.create c req freshId now =
    (failure 400 "At least one image is required" None, c) /\
  errorClass (ProductRoutes.create c req freshId now).1 = Some InvalidRequest /\
  Server.create c req freshId now =
    (match uploadError req with
     | Some msg => failure 400 "File upload error" (Some (MulterError msg))
     | None => failure 400 "At least one image is required" None
     end, c) /\
  errorClass (Server.create c req freshId now).1 = Some InvalidRequest.
Proof.
  intros Hf. apply noFiles_true in Hf.
  unfold ProductRoutes.create, Server.create. rewrite Hf.
  destruct (uploadError req); repeat split.
Qed.


Lemma touched_deactivated (now1 now2 : Z) (p : Product.t Image) :
  Product.applyUpdate Product.deactivate now2
    (Product.applyUpdate Product.deactivate now1 p) =
  touched now2 (Product.applyUpdate Product.deactivate now1 p).
Proof. reflexivity. Qed.

Lemma touched_same (p : Product.t Image) : touched (Product.updatedAt p) p = p.
Proof. now destruct p. Qed.

(** C9, amended.  For every id of a product of the collection, a second soft
    delete answers 200 as the first does, not 404.  It leaves the collection
    as the first left it but for one value: the [updatedAt] of that product,
    which the first call set to its time and the second sets to its own.
    Every other field of the product and every other document are those
    the first call left, and so is the whole collection when the second
    call bears the time of the first. *)
Theorem softDelete_idempotent (c : gmap string (Product.t Image)) (req : Request)
    (now1 now2 : Z) (id : string) (p : Product.t Image) :
  castObjectId (params_id req) = Ret id -> c !! id = Some p ->
  exists c1 p1,
    ProductRoutes.softDelete c req now1 =
      (succeeded 200 (Some "Product deleted successfully") None, c1) /\
    c1 !! id = Some p1 /\
    Product.isActive p1 = false /\ Product.updatedAt p1 = now1 /\
    ProductRoutes.softDelete c1 req now2 =
      (succeeded 200 (Some "Product deleted successfully") None,
       <[id := touched now2 p1]> c1) /\
    Server.softDelete c req now1 =
      (succeeded 200 (Some "Product deleted successfully") None, c1) /\
    Server.softDelete c1 req now2 =
      (succeeded 200 (Some "Product deleted successfully") None,
       <[id := touched now2 p1]> c1) /\
    (now2 = now1 -> <[id := touched now2 p1]> c1 = c1).
Proof.
  intros Hid Hp.
  exists (<[id := Product.applyUpdate Product.deactivate now1 p]> c),
    (Product.applyUpdate Product.deactivate now1 p).
  assert ((<[id := Product.applyUpdate Product.deactivate now1 p]> c) !! id =
          Some (Product.applyUpdate Product.deactivate now1 p)) as Hp1
    by apply lookup_insert_eq.
  rewrite (softDelete_present _ _ _ _ _ Hid Hp), (softDelete_present _ _ _ _ _ Hid Hp1).
  rewrite (server_softDelete_present _ _ _ _ _ Hid Hp),
    (server_softDelete_present _ _ _ _ _ Hid Hp1).
  rewrite touched_deactivated.
  split; [reflexivity|]. split; [exact Hp1|]. split; [reflexivity|].
  split; [reflexivity|]. split; [reflexivity|]. split; [reflexivity|].
  split; [reflexivity|].
  intros ->. rewrite insert_insert_eq.
  exact (f_equal (fun d => <[id := d]> c)
           (touched_same (Product.applyUpdate Product.deactivate now1 p))).
Qed.

(** C10, amended.  For every product of the collection, an update with no
    uploaded file that supplies name, description, category, a numeric
    price and a numeric stock, and that the validators accept, answers 200
    and leaves the image sequence as it was; name, description, price and
    stock become the supplied values.  The router also sets the category;
    the route of the entry file leaves the category as it was.  The store
    sets [updatedAt] to the time of the update and leaves [isActive] and
    [createdAt]. *)
Theorem update_without_images (c : gmap string (Product.t Image)) (req : Request)
    (now : Z) (id : string) (p : Product.t Image) (n d cat : string) (pr : Price)
    (st : Z) :
  castObjectId (params_id req) = Ret id -> c !! id = Some p ->
  files req = None \/ files req = Some [] ->
  body_name req = Some n -> body_description req = Some d ->
  body_category req = Some cat ->
  parseFloat (toString (body_price req)) = Num pr ->
  Js.parseInt (toString (body_stock req)) = Num st ->
  (Product.validateUpdate (ProductRoutes.updateData req None) = true ->
   exists p',
     ProductRoutes.update c req now =
       (succeeded 200 (Some "Product updated successfully")
          (Some (ProductRoutes.toDataUrlProduct (id, p'))), <[id := p']> c) /\
     Product.images p' = Product.images p /\
     p' = Product.mk n d (Product.images p) pr (Some cat) st
            (Product.isActive p) (Product.createdAt p) now) /\
  (uploadError req = None ->
   Product.validateUpdate (Server.updateData req None) = true ->
   exists p',
     Server.update c req now =
       (succeeded 200 (Some "Product updated successfully") (Some (id, p')),
        <[id := p']> c) /\
     Product.images p' = Product.images p /\
     p' = Product.mk n d (Product.images p) pr (Product.category p) st
            (Product.isActive p) (Product.createdAt p) now).
Proof.
  intros Hid Hp Hf Hn Hd Hcat Hpr Hst. apply noFiles_true in Hf.
  assert (numericFields req) as Hnum by (split; eauto).
  split.
  - intros Hval. eexists. split; [|split].
    + unfold ProductRoutes.update, ProductRoutes.updateFrom. rewrite Hf.
      cbn [negb mbind Throws_bind mret Throws_ret].
      rewrite (findByIdAndUpdate_present _ _ _ _ _ _ _ Hid Hp).
      * reflexivity.
      * now apply router_castFails.
      * now rewrite Hval.
    + reflexivity.
    + unfold Product.applyUpdate, ProductRoutes.updateData. cbn.
      now rewrite Hn, Hd, Hcat, Hpr, Hst.
  - intros Hup Hval. eexists. split; [|split].
    + unfold Server.update, Server.updateFrom. rewrite Hup, Hf.
      cbn [negb mbind Throws_bind mret Throws_ret].
      rewrite (findByIdAndUpdate_present _ _ _ _ _ _ _ Hid Hp).
      * reflexivity.
      * now apply server_castFails.
      * now rewrite Hval.
    + reflexivity.
    + unfold Product.applyUpdate, Server.updateData. cbn.
      now rewrite Hn, Hd, Hpr, Hst.
Qed.

End Catalog.

(** ** Registration and login *)

Section Auth.
Context `{Runtime} `{!User.Schema}.

Lemma truthy_Some (o : option string) :
  truthy o = true -> exists s, o = Some s /\ s <> "".
Proof.
  destruct o as [s|]; [|discriminate]. simpl. intros Hs. exists s. split; [reflexivity|].
  intros ->. discriminate Hs.
Qed.

Lemma Some_truthy (s : string) : s <> "" -> truthy (Some s) = true.
Proof.
  intros Hs. simpl. apply negb_true_iff, String.eqb_neq. exact Hs.
Qed.

Lemma JString_truthy (s : string) : s <> "" -> truthyJson (JString s) = true.
Proof.
  intros Hs. simpl. apply negb_true_iff, String.eqb_neq. exact Hs.
Qed.

Lemma truthy_JString (s : string) : truthyJson (JString s) = true -> s <> "".
Proof.
  simpl. intros Hs ->. discriminate Hs.
Qed.

(** A truthy value is a string that is not empty, or no string at all. *)
Lemma truthyJson_cases (v : Json) :
  truthyJson v = true ->
  (exists s, v = JString s /\ s <> "") \/ (exists o, v = JOther true o).
Proof.
  destruct v as [|s|[] o]; try discriminate; intros Hv.
  - left. exists s. split; [reflexivity | now apply truthy_JString].
  - right. now exists o.
Qed.

(** [findOne] answers as soon as some document satisfies the criteria. *)
Lemma findOne_found (criteria : User.t -> bool) (users : list User.t) (u : User.t) :
  u ∈ users -> criteria u = true -> exists v, User.findOne criteria users = Some v.
Proof.
  intros Hu Hc. unfold User.findOne.
  destruct (List.find criteria users) as [v|] eqn:Hf; [now exists v|].
  apply list_elem_of_In in Hu.
  rewrite (List.find_none _ _ Hf u Hu) in Hc. discriminate Hc.
Qed.

Lemma findOne_none (criteria : User.t -> bool) (users : list User.t) :
  (forall u, u ∈ users -> criteria u = false) -> User.findOne criteria users = None.
Proof.
  intros Hall. unfold User.findOne.
  destruct (List.find criteria users) as [v|] eqn:Hf; [|reflexivity].
  apply List.find_some in Hf as [Hin Hc]. apply list_elem_of_In in Hin.
  rewrite (Hall v Hin) in Hc. discriminate Hc.
Qed.

Lemma toLowerCaseOf_Ret (v : Json) (l : string) :
  AuthRoutes.toLowerCaseOf v = Ret l -> exists e, v = JString e /\ l = Js.toLowerCase e.
Proof.
  destruct v as [|e|]; try discriminate. intros [= <-]. now exists e.
Qed.

(** Registration keeps every stored email in lower case. *)
Lemma register_lowercased (users : list User.t) (body : AuthRoutes.Body)
    (env : AuthRoutes.Env) :
  lowercased users -> lowercased (AuthRoutes.register users body env).2.
Proof.
  intros Hl. unfold AuthRoutes.register.
  destruct (negb _ || _ || _ || _ || _); [exact Hl|].
  destruct (AuthRoutes.toLowerCaseOf (AuthRoutes.email body)) as [lowered|]
    eqn:Hlow; [|exact Hl].
  apply toLowerCaseOf_Ret in Hlow as [e [_ ->]].
  cbn [mbind Throws_bind].
  destruct (User.findOne _ users); [exact Hl|].
  destruct (AuthRoutes.bcryptArgument _); [|exact Hl].
  destruct (AuthRoutes.castToString (AuthRoutes.name body)); [|exact Hl].
  destruct (AuthRoutes.castToString (AuthRoutes.phone body)); [|exact Hl].
  destruct (AuthRoutes.castToString (AuthRoutes.zipcode body)); [|exact Hl].
  cbn [mbind Throws_bind].
  unfold User.create. destruct (User.validate _); [|exact Hl].
  cbn. unfold lowercased. apply Forall_app. split; [exact Hl|].
  constructor; [|constructor]. cbn. now rewrite toLowerCase_idem.
Qed.

(** With all fields supplied as strings, an email no user has and a
    document the schema accepts, registration stores the user, active and
    with the role of a plain user, under the email in lower case. *)
Lemma register_new_email (users : list User.t) (body : AuthRoutes.Body)
    (env : AuthRoutes.Env) (n e ph z pw : string) :
  AuthRoutes.name body = JString n -> AuthRoutes.email body = JString e ->
  AuthRoutes.phone body = JString ph -> AuthRoutes.zipcode body = JString z ->
  AuthRoutes.password body = JString pw -> complete body ->
  (forall u, u ∈ users -> User.email u <> Js.toLowerCase e) ->
  let user := User.mk (AuthRoutes.freshId env) n (Js.toLowerCase e) ph z
                (bcrypt_hash pw (AuthRoutes.salt env)) RoleUser true in
  User.validate user = true ->
  AuthRoutes.register users body env =
    (AuthRoutes.authenticated 201 "Registered successfully" user env,
     (users ++ [user])%list).
Proof.
  intros Hn He Hph Hz Hpw (Tn & Te & Tp & Tz & Tw) Hfresh user Hv.
  unfold AuthRoutes.register. rewrite Tn, Te, Tp, Tz, Tw. cbn [negb orb].
  rewrite Hn, He, Hph, Hz, Hpw.
  cbn [AuthRoutes.toLowerCaseOf AuthRoutes.bcryptArgument AuthRoutes.castToString
       mbind Throws_bind mret Throws_ret].
  rewrite findOne_none.
  - cbn [mbind Throws_bind mret Throws_ret].
    unfold User.create. fold user. now rewrite Hv.
  - intros u Hu. apply String.eqb_neq. now apply Hfresh.
Qed.

(** With both fields supplied as strings, login succeeds when the active
    user found passes the hash comparison. *)
Lemma login_success (users : list User.t) (body : AuthRoutes.Body)
    (env : AuthRoutes.Env) (e pw : string) (u : User.t) :
  AuthRoutes.email body = JString e -> e <> "" ->
  AuthRoutes.password body = JString pw -> pw <> "" ->
  User.findOne
    (fun v => String.eqb (User.email v) (Js.toLowerCase e) && User.isActive v)
    users = Some u ->
  bcrypt_compare pw (User.password u) = true ->
  AuthRoutes.login users body env =
    AuthRoutes.authenticated 200 "Login successful" u env.
Proof.
  intros He Hne Hp Hnp Hfound Hcmp. unfold AuthRoutes.login.
  rewrite He, Hp, (JString_truthy e Hne), (JString_truthy pw Hnp).
  cbn [negb orb AuthRoutes.toLowerCaseOf AuthRoutes.bcryptArgument
       mbind Throws_bind mret Throws_ret].
  rewrite Hfound.
  cbn [AuthRoutes.bcryptArgument mbind Throws_bind mret Throws_ret].
  now rewrite Hcmp.
Qed.

(** C6. For every email [e]: when a user whose email equals [e] up to case
    is registered (stored emails being in lower case), a call of register
    with [e] and all five fields supplied fails with status 409
    (ConflictError) and leaves the users as they were: no user is created. *)
Theorem register_duplicate_email (users : list User.t) (body : AuthRoutes.Body)
    (env : AuthRoutes.Env) (e : string) (u : User.t) :
  lowercased users ->
  u ∈ users -> Js.toLowerCase (User.email u) = Js.toLowerCase e ->
  AuthRoutes.email body = JString e -> complete body ->
  AuthRoutes.register users body env =
    (failure 409 "Email already in use" None, users) /\
  errorClass (AuthRoutes.register users body env).1 = Some Conflict.
Proof.
  intros Hl Hu Heq He (Hn & Hem & Hp & Hz & Hpw).
  assert (AuthRoutes.register users body env =
          (failure 409 "Email already in use" None, users)) as Hr.
  { unfold AuthRoutes.register. rewrite Hn, Hem, Hp, Hz, Hpw. cbn [negb orb].
    rewrite He. cbn [AuthRoutes.toLowerCaseOf mbind Throws_bind mret Throws_ret].
    destruct (findOne_found
                (fun v => String.eqb (User.email v) (Js.toLowerCase e)) users u Hu)
      as [v Hv].
    - apply String.eqb_eq. rewrite <- Heq.
      unfold lowercased in Hl. rewrite Forall_forall in Hl. now apply Hl.
    - now rewrite Hv. }
  split; [exact Hr | now rewrite Hr].
Qed.


End Auth.

(** * Further properties of the routes *)

(** ** The pages of a listing *)

Lemma length_pageSlice {A : Type} (pg pageSize : Z) (l : list A) :
  1 <= pg -> 1 <= pageSize ->
  Z.of_nat (length (pageSlice pg pageSize l)) =
  shownOn (Z.of_nat (length l)) pg pageSize.
Proof.
  intros Hpg Hps. unfold pageSlice, shownOn.
  rewrite length_take, length_drop. nia.
Qed.

Lemma StronglySorted_pageSlice {A : Type} (R : relation A) (pg pageSize : Z) (l : list A) :
  StronglySorted R l -> StronglySorted R (pageSlice pg pageSize l).
Proof.
  intros Hl. unfold pageSlice.
  set (m := Z.to_nat ((pg - 1) * pageSize)). set (n := Z.to_nat pageSize).
  assert (StronglySorted R (drop m l)) as Hd.
  { rewrite <- (take_drop m l) in Hl. now apply StronglySorted_app_1_r in Hl. }
  rewrite <- (take_drop n (drop m l)) in Hd. now apply StronglySorted_app_1_l in Hd.
Qed.

(** The first [n] pages, one after the other, are the first [n * pageSize]
    results. *)
Lemma concat_pageSlices {A : Type} (pageSize : Z) (l : list A) (n : nat) :
  1 <= pageSize ->
  concat (List.map (fun i => pageSlice (Z.of_nat i + 1) pageSize l) (seq 0 n)) =
  take (n * Z.to_nat pageSize) l.
Proof.
  intros Hps. induction n as [|n IH]; [reflexivity|].
  rewrite seq_S, List.map_app, concat_app, IH. cbn [List.map concat plus].
  rewrite app_nil_r. unfold pageSlice.
  replace (Z.to_nat ((Z.of_nat n + 1 - 1) * pageSize)) with (n * Z.to_nat pageSize)%nat
    by nia.
  rewrite take_take_drop. f_equal. lia.
Qed.

Section Pages.
Context `{Runtime}.

#[local] Instance newerFirst_trans : Transitive Product.newerFirst.
Proof. intros a b c. unfold Product.newerFirst. lia. Qed.

Lemma find_strongly_sorted (crit : Product.t Image -> bool)
    (c : gmap string (Product.t Image)) :
  StronglySorted Product.newerFirst (Product.find crit c).
Proof. apply Sorted_StronglySorted; [apply _ | apply find_sorted]. Qed.

Lemma totalOf_nonneg (crit : Product.t Image -> bool)
    (c : gmap string (Product.t Image)) : 0 <= totalOf crit c.
Proof. unfold totalOf. lia. Qed.

Lemma totalOf_length_find (crit : Product.t Image -> bool)
    (c : gmap string (Product.t Image)) :
  Z.of_nat (length (Product.find crit c)) = totalOf crit c.
Proof. unfold totalOf. now rewrite length_find, countDocuments_size. Qed.

(** The whole response of the two listings on a valid page. *)
Lemma router_listing_eq (c : gmap string (Product.t Image)) (req : Request) :
  1 <= pageOf req -> 1 <= limitOf req ->
  ProductRoutes.listProducts c req =
  paged (totalOf Product.isActive c)
    (List.map ProductRoutes.toDataUrlProduct
       (pageSlice (pageOf req) (limitOf req)
          (Product.find ProductRoutes.activeCriteria c)))
    (pageOf req) (Js.ceilDiv (totalOf Product.isActive c) (limitOf req))
    (pageOf req * limitOf req <? totalOf Product.isActive c) (1 <? pageOf req) None.
Proof.
  intros Hpage Hlimit.
  assert (0 <= (pageOf req - 1) * limitOf req) as Hskip by nia.
  unfold totalOf. rewrite <- !countDocuments_size.
  unfold ProductRoutes.listProducts. now rewrite skipLimit_valid by assumption.
Qed.

Lemma server_listing_eq (c : gmap string (Product.t Image)) (req : Request) :
  1 <= pageOf req -> 1 <= limitOf req ->
  Server.listProducts c req =
  paged (totalOf Product.isActive c)
    (pageSlice (pageOf req) (limitOf req)
       (Product.find ProductRoutes.activeCriteria c))
    (pageOf req) (Js.ceilDiv (totalOf Product.isActive c) (limitOf req))
    (pageOf req * limitOf req <? totalOf Product.isActive c) (1 <? pageOf req) None.
Proof.
  intros Hpage Hlimit.
  assert (0 <= (pageOf req - 1) * limitOf req) as Hskip by nia.
  unfold totalOf. rewrite <- !countDocuments_size.
  unfold Server.listProducts. now rewrite skipLimit_valid by assumption.
Qed.

(** X1. On a valid page the listing sends
    [min(pageSize, total - (page - 1) * pageSize)] products, and none past
    the last page: a page is never longer than [pageSize], it is full
    whenever [hasNextPage] is true, and its products come newest first. *)
Theorem listing_page_length (c : gmap string (Product.t Image)) (req : Request) :
  1 <= pageOf req -> 1 <= limitOf req ->
  let shown := shownOn (totalOf Product.isActive c) (pageOf req) (limitOf req) in
  (exists ds, data (json (ProductRoutes.listProducts c req)) = Some ds /\
              Z.of_nat (length ds) = shown) /\
  (exists ds, data (json (Server.listProducts c req)) = Some ds /\
              Z.of_nat (length ds) = shown /\
              StronglySorted Product.newerFirst ds) /\
  shown <= limitOf req /\
  (hasNextPage (json (ProductRoutes.listProducts c req)) = Some true ->
   shown = limitOf req) /\
  (totalOf Product.isActive c <= (pageOf req - 1) * limitOf req -> shown = 0).
Proof.
  intros Hpage Hlimit shown.
  rewrite (router_listing_eq c req Hpage Hlimit), (server_listing_eq c req Hpage Hlimit).
  pose proof (totalOf_nonneg Product.isActive c) as Hnn.
  cbn [paged json data hasNextPage].
  split; [|split; [|split; [|split]]].
  - eexists. split; [reflexivity|].
    rewrite length_map, length_pageSlice by assumption.
    unfold shown. f_equal. apply totalOf_length_find.
  - eexists. split; [reflexivity|]. split.
    + rewrite length_pageSlice by assumption.
      unfold shown. f_equal. apply totalOf_length_find.
    + apply StronglySorted_pageSlice, find_strongly_sorted.
  - unfold shown, shownOn. lia.
  - intros [= Hnext]. apply Z.ltb_lt in Hnext. unfold shown, shownOn. nia.
  - intros Hpast. unfold shown, shownOn. lia.
Qed.

(** X2. On a valid page, [hasNextPage] is true exactly when the page comes
    before the last one, [page < totalPages]; [totalPages] is never
    negative and is 0 exactly when there is no active product. *)
Theorem next_page_iff_before_last (c : gmap string (Product.t Image)) (req : Request) :
  1 <= pageOf req -> 1 <= limitOf req ->
  exists k,
    totalPages (json (ProductRoutes.listProducts c req)) = Some k /\
    totalPages (json (Server.listProducts c req)) = Some k /\
    0 <= k /\ (k = 0 <-> totalOf Product.isActive c = 0) /\
    (hasNextPage (json (ProductRoutes.listProducts c req)) = Some true <->
     pageOf req < k) /\
    (hasNextPage (json (Server.listProducts c req)) = Some true <->
     pageOf req < k).
Proof.
  intros Hpage Hlimit.
  rewrite (router_listing_eq c req Hpage Hlimit), (server_listing_eq c req Hpage Hlimit).
  cbn [paged json totalPages hasNextPage].
  pose proof (totalOf_nonneg Product.isActive c) as Hnn.
  pose proof (ceilDiv_isCeil (totalOf Product.isActive c) (limitOf req) ltac:(lia))
    as [Hlo Hhi].
  exists (Js.ceilDiv (totalOf Product.isActive c) (limitOf req)).
  assert (((pageOf req * limitOf req <? totalOf Product.isActive c) = true) <->
          pageOf req < Js.ceilDiv (totalOf Product.isActive c) (limitOf req)) as Hnext.
  { rewrite Z.ltb_lt. split; intros; nia. }
  repeat split; try reflexivity; try nia.
  - intros [= Hb]. now apply Hnext.
  - intros Hb. f_equal. now apply Hnext.
  - intros [= Hb]. now apply Hnext.
  - intros Hb. f_equal. now apply Hnext.
Qed.

Lemma concat_server_pages (c : gmap string (Product.t Image)) (pageSize : Z)
    (reqs : list Request) :
  1 <= pageSize -> consecutivePages pageSize reqs ->
  concat (List.map (fun r => default [] (data (json (Server.listProducts c r)))) reqs) =
  take (length reqs * Z.to_nat pageSize)
    (Product.find ProductRoutes.activeCriteria c).
Proof.
  intros Hps. induction reqs as [|r reqs IH] using rev_ind; intros Hcons.
  - reflexivity.
  - rewrite List.map_app, concat_app, IH.
    + destruct (Hcons (length reqs) r) as [Hpg Hl].
      { rewrite lookup_app_r by lia. now rewrite Nat.sub_diag. }
      cbn [List.map concat]. rewrite app_nil_r.
      rewrite (server_listing_eq c r) by lia.
      cbn [paged json data default from_option id]. unfold pageSlice. rewrite Hpg, Hl.
      replace (Z.to_nat ((Z.of_nat (length reqs) + 1 - 1) * pageSize))
        with (length reqs * Z.to_nat pageSize)%nat by nia.
      rewrite take_take_drop, length_app. f_equal. cbn. lia.
    + intros i r' Hi. apply Hcons. now apply lookup_app_l_Some.
Qed.

(** Documents created at different times come in one order only, newest
    first: whichever way a query breaks ties, its results are those of
    [Product.find]. *)
Lemma find_unique (crit : Product.t Image -> bool)
    (c : gmap string (Product.t Image)) (l : list Product.doc) :
  distinctTimes crit c ->
  l ≡ₚ Product.matching crit c -> Sorted Product.newerFirst l ->
  l = Product.find crit c.
Proof.
  intros Hdist Hperm Hsorted.
  apply (StronglySorted_unique_strong Product.newerFirst).
  - intros [i p] [j q] Hi Hj Hij Hji.
    rewrite Hperm in Hi. apply elem_of_matching in Hi as [Hp Hcp].
    apply elem_of_find in Hj as [Hq Hcq].
    unfold Product.newerFirst in Hij, Hji. cbn [snd] in Hij, Hji.
    assert (i = j) as <- by (apply (Hdist i p j q); auto; lia).
    rewrite Hp in Hq. now injection Hq as <-.
  - apply Sorted_StronglySorted; [apply _ | exact Hsorted].
  - apply find_strongly_sorted.
  - now rewrite find_Permutation.
Qed.

(** X3. When no two active products were created at the same time, the
    listing has one order only, whichever way the store breaks ties between
    two queries, and the pages of the listing, read in turn from page 1 to
    page [totalPages], make up every active product once, newest first:
    what the unpaginated listing of the earlier revision sends in one
    response, with their number as [count]. *)
Theorem pages_make_up_the_listing (c : gmap string (Product.t Image)) (pageSize : Z)
    (reqs : list Request) :
  1 <= pageSize -> consecutivePages pageSize reqs ->
  Z.of_nat (length reqs) = Js.ceilDiv (totalOf Product.isActive c) pageSize ->
  distinctTimes Product.isActive c ->
  (forall l, l ≡ₚ Product.matching ProductRoutes.activeCriteria c ->
             Sorted Product.newerFirst l ->
             l = Product.find ProductRoutes.activeCriteria c) /\
  data (json (Legacy.listProducts c)) =
    Some (concat (List.map
                    (fun r => default [] (data (json (Server.listProducts c r))))
                    reqs)) /\
  count (json (Legacy.listProducts c)) = Some (totalOf Product.isActive c) /\
  NoDup (default [] (data (json (Legacy.listProducts c)))) /\
  forall id p, ((id, p) ∈ default [] (data (json (Legacy.listProducts c)))) <->
               (c !! id = Some p /\ Product.isActive p = true).
Proof.
  intros Hps Hcons Hlen Hdist.
  split; [intros l; now apply find_unique|].
  rewrite (concat_server_pages c pageSize reqs Hps Hcons).
  pose proof (ceilDiv_isCeil (totalOf Product.isActive c) pageSize ltac:(lia))
    as [_ Hhi].
  pose proof (totalOf_length_find ProductRoutes.activeCriteria c) as Hfind.
  change (totalOf ProductRoutes.activeCriteria c) with (totalOf Product.isActive c) in Hfind.
  unfold Legacy.listProducts, Legacy.counted.
  cbn [mret Throws_ret tryCatch json data count default from_option id].
  split; [|split; [|split]].
  - f_equal. symmetry. apply take_ge. nia.
  - now rewrite Hfind.
  - apply NoDup_find.
  - intros id p. apply elem_of_find.
Qed.

End Pages.

(** ** The life of a document *)

Section Lifecycle.
Context `{Runtime} `{!Product.Schema}.

Lemma keepsDocuments_refl (c : gmap string (Product.t Image)) : keepsDocuments c c.
Proof. intros id p Hp. exists p. auto. Qed.

Lemma keepsDocuments_fresh (c : gmap string (Product.t Image)) (id : string)
    (p : Product.t Image) :
  c !! id = None -> keepsDocuments c (<[id := p]> c).
Proof.
  intros Hnone j q Hq. exists q. rewrite lookup_insert_ne; [auto|].
  intros ->. rewrite Hnone in Hq. discriminate Hq.
Qed.

Lemma keepsDocuments_update (c : gmap string (Product.t Image)) (id : string)
    (p : Product.t Image) (u : Product.Update) (now : Z) :
  c !! id = Some p -> Product.set_isActive u <> Some true ->
  keepsDocuments c (<[id := Product.applyUpdate u now p]> c).
Proof.
  intros Hp Hu j q Hq. destruct (decide (id = j)) as [<- | Hne].
  - rewrite Hp in Hq. injection Hq as <-.
    exists (Product.applyUpdate u now p). rewrite lookup_insert_eq.
    split; [reflexivity|]. split; [reflexivity|].
    intros Hin. cbn. destruct (Product.set_isActive u) as [[]|]; cbn; congruence.
  - exists q. rewrite lookup_insert_ne by assumption. auto.
Qed.

(** What [findByIdAndUpdate] can do: throw, find nothing and write nothing,
    or write the updated document under the id. *)
Lemma findByIdAndUpdate_cases (rid : string) (u : Product.Update) (rv : bool)
    (now : Z) (c : gmap string (Product.t Image)) :
  (exists e, Product.findByIdAndUpdate rid u rv now c = Throw e) \/
  (exists id, objectId rid = Some id /\ c !! id = None /\
              Product.findByIdAndUpdate rid u rv now c = Ret (None, c)) \/
  (exists id p, objectId rid = Some id /\ c !! id = Some p /\
                Product.findByIdAndUpdate rid u rv now c =
                Ret (Some (id, Product.applyUpdate u now p),
                     <[id := Product.applyUpdate u now p]> c)).
Proof.
  unfold Product.findByIdAndUpdate, castObjectId.
  destruct (objectId rid) as [id|]; cbn; [|eauto].
  destruct (Product.castFails u); [eauto|].
  destruct (rv && negb (Product.validateUpdate u)); [eauto|].
  destruct (c !! id) as [p|] eqn:Hp; [right; right | right; left]; eauto 8.
Qed.

Lemma findById_cases (rid : string) (c : gmap string (Product.t Image)) :
  (objectId rid = None /\ Product.findById rid c = Throw CastError) \/
  (exists id, objectId rid = Some id /\ c !! id = None /\
              Product.findById rid c = Ret None) \/
  (exists id p, objectId rid = Some id /\ c !! id = Some p /\
                Product.findById rid c = Ret (Some (id, p))).
Proof.
  unfold Product.findById, castObjectId.
  destruct (objectId rid) as [id|]; cbn; [|eauto].
  destruct (c !! id) as [p|] eqn:Hp; [right; right | right; left]; eauto 8.
Qed.

(** The update object of every update route leaves [isActive] alone. *)
Lemma updateData_isActive (req : Request) (imgs : option (list Image)) :
  Product.set_isActive (ProductRoutes.updateData req imgs) = None /\
  Product.set_isActive (Server.updateData req imgs) = None.
Proof. split; reflexivity. Qed.

Ltac write_cases :=
  match goal with
  | |- context [Product.findByIdAndUpdate ?rid ?u ?rv ?now ?c] =>
      let He := fresh "He" in
      destruct (findByIdAndUpdate_cases rid u rv now c)
        as [[? He] | [(? & ? & ? & He) | (? & ? & ? & ? & He)]];
      rewrite He; cbn [mbind Throws_bind mret Throws_ret tryCatch]
  end.

Ltac read_cases :=
  match goal with
  | |- context [Product.findById ?rid ?c] =>
      let He := fresh "He" in
      destruct (findById_cases rid c)
        as [[? He] | [(? & ? & ? & He) | (? & ? & ? & ? & He)]];
      rewrite He; cbn [mbind Throws_bind mret Throws_ret tryCatch]
  end.

Ltac settle_write :=
  first
    [ left; split; reflexivity
    | right; split; [reflexivity|]; split; [auto|]; left;
      do 4 eexists; split; [eassumption|]; split; [|reflexivity]; discriminate ].

Lemma softDelete_outcome (c : gmap string (Product.t Image)) (req : Request)
    (now : Z) :
  writeOutcome c (ProductRoutes.softDelete c req now).1
    (ProductRoutes.softDelete c req now).2 /\
  writeOutcome c (Server.softDelete c req now).1 (Server.softDelete c req now).2 /\
  writeOutcome c (Legacy.softDelete c req now).1 (Legacy.softDelete c req now).2.
Proof.
  unfold ProductRoutes.softDelete, Server.softDelete, Legacy.softDelete, writeOutcome.
  write_cases; repeat split; settle_write.
Qed.

Lemma router_update_outcome (c : gmap string (Product.t Image)) (req : Request)
    (now : Z) :
  writeOutcome c (ProductRoutes.update c req now).1 (ProductRoutes.update c req now).2.
Proof.
  unfold ProductRoutes.update, ProductRoutes.updateFrom, writeOutcome.
  destruct (negb (noFiles req)); [read_cases|];
    cbn [mbind Throws_bind mret Throws_ret tryCatch];
    try settle_write; write_cases; settle_write.
Qed.

Lemma server_update_outcome (c : gmap string (Product.t Image)) (req : Request)
    (now : Z) :
  writeOutcome c (Server.update c req now).1 (Server.update c req now).2.
Proof.
  unfold Server.update, Server.updateFrom, writeOutcome.
  destruct (uploadError req); [settle_write|].
  destruct (negb (noFiles req)); [read_cases|];
    cbn [mbind Throws_bind mret Throws_ret tryCatch];
    try settle_write; write_cases; settle_write.
Qed.

Lemma legacy_update_outcome (c : gmap string (Product.t Image)) (req : Request)
    (now : Z) :
  writeOutcome c (Legacy.update c req now).1 (Legacy.update c req now).2.
Proof.
  unfold Legacy.update, Legacy.updateFrom, writeOutcome.
  destruct (negb (noFiles req)); [read_cases|];
    cbn [mbind Throws_bind mret Throws_ret tryCatch];
    try settle_write; write_cases; settle_write.
Qed.

(** What [Product.create] can do: throw, or insert an active document under
    an id the collection does not hold. *)
Lemma create_cases (n : Product.NewDoc) (freshId : string) (now : Z)
    (c : gmap string (Product.t Image)) :
  (exists e, Product.create n freshId now c = Throw e) \/
  (exists p, c !! freshId = None /\ Product.isActive p = true /\
             Product.createdAt p = now /\ Product.images p = Product.new_images n /\
             Product.create n freshId now c = Ret ((freshId, p), <[freshId := p]> c)).
Proof.
  unfold Product.create.
  destruct (Product.new_name n), (Product.new_description n), (Product.new_price n),
    (Product.new_stock n); eauto.
  destruct (negb (Product.validateCreate n)); [eauto|].
  destruct (decide (is_Some (c !! freshId))) as [Hsome | Hnone]; [eauto|].
  assert (c !! freshId = None) as Hn.
  { destruct (c !! freshId) eqn:E; [|reflexivity]. exfalso. apply Hnone. eauto. }
  right. refine (ex_intro _ _ (conj Hn (conj _ (conj _ (conj _ eq_refl))))); reflexivity.
Qed.

Ltac create_cases_in_goal :=
  match goal with
  | |- context [Product.create ?n ?i ?t ?c] =>
      let He := fresh "He" in
      destruct (create_cases n i t c) as [[? He] | (? & ? & ? & ? & ? & He)];
      rewrite He; cbn [mbind Throws_bind mret Throws_ret tryCatch]
  end.

Ltac settle_create :=
  first
    [ left; split; reflexivity
    | right; split; [reflexivity|]; split; [auto|]; right;
      do 2 eexists; split; [eassumption|]; split; [eassumption | reflexivity] ].

Lemma create_outcome (c : gmap string (Product.t Image)) (req : Request)
    (freshId : string) (now : Z) (disk : gset string) :
  writeOutcome c (ProductRoutes.create c req freshId now).1
    (ProductRoutes.create c req freshId now).2 /\
  writeOutcome c (Server.create c req freshId now).1
    (Server.create c req freshId now).2 /\
  writeOutcome c (Legacy.create c disk req freshId now).1.1
    (Legacy.create c disk req freshId now).1.2.
Proof.
  unfold ProductRoutes.create, Server.create, Legacy.create, writeOutcome.
  destruct (uploadError req), (noFiles req);
    cbn [mbind Throws_bind mret Throws_ret tryCatch];
    repeat split; try settle_create; create_cases_in_goal; settle_create.
Qed.

Lemma writesOf_outcome (c : gmap string (Product.t Image)) (disk : gset string)
    (req : Request) (freshId : string) (now : Z) :
  Forall (fun w : bool * Z * gmap string (Product.t Image) =>
            (w.1.1 = false /\ w.2 = c) \/
            (w.1.1 = true /\ (w.1.2 = 200 \/ w.1.2 = 201) /\ oneWrite c w.2))
    (writesOf c disk req freshId now).
Proof.
  destruct (create_outcome c req freshId now disk) as (K1 & K2 & K3).
  destruct (softDelete_outcome c req now) as (D1 & D2 & D3).
  pose proof (router_update_outcome c req now) as U1.
  pose proof (server_update_outcome c req now) as U2.
  pose proof (legacy_update_outcome c req now) as U3.
  unfold writeOutcome in *.
  cbv beta iota zeta delta [writesOf fst snd] in *.
  repeat (apply List.Forall_cons; [cbv beta iota; assumption|]). apply List.Forall_nil.
Qed.

(** X4. A writing route (create, update or soft delete, of the router, of
    the entry file or of the earlier revision) that answers with a failure
    has left the collection as it was; one that answers with a success
    (status 200 or 201) has written one document and no other: every other
    id holds what it held. *)
Theorem failed_write_changes_nothing (c : gmap string (Product.t Image))
    (disk : gset string) (req : Request) (freshId : string) (now : Z) :
  Forall (fun w : bool * Z * gmap string (Product.t Image) =>
            (w.1.1 = false /\ w.2 = c) \/
            (w.1.1 = true /\ (w.1.2 = 200 \/ w.1.2 = 201) /\
             exists id, is_Some (w.2 !! id) /\
                        forall j, j <> id -> w.2 !! j = c !! j))
    (writesOf c disk req freshId now).
Proof.
  eapply Forall_impl; [apply writesOf_outcome|].
  intros [[ok st] c']; cbn.
  intros [Hfail | (Hok & Hst & Hw)]; [left; exact Hfail | right].
  split; [exact Hok|]. split; [exact Hst|].
  destruct Hw as [(id & p & u & t & _ & _ & ->) | (id & p & _ & _ & ->)];
    exists id; (split; [rewrite lookup_insert_eq; eauto |
                        intros j Hj; now rewrite lookup_insert_ne]).
Qed.

(** X5. No writing route removes a document, changes its creation time or
    makes an inactive product active again: after any of them every
    document of the collection is still there, created when it was, and
    still inactive if it was. *)
Theorem writes_keep_documents (c : gmap string (Product.t Image))
    (disk : gset string) (req : Request) (freshId : string) (now : Z) :
  Forall (fun w : bool * Z * gmap string (Product.t Image) => keepsDocuments c w.2)
    (writesOf c disk req freshId now).
Proof.
  eapply Forall_impl; [apply writesOf_outcome|].
  intros [[ok st] c']; cbn.
  intros [[_ ->] | (_ & _ & [(id & p & u & t & Hp & Hu & ->) | (id & p & Hn & _ & ->)])].
  - apply keepsDocuments_refl.
  - now apply keepsDocuments_update.
  - now apply keepsDocuments_fresh.
Qed.

(** X6. When no product of the collection has the id of the request, the
    fetch by id and the soft delete answer 404 "Product not found" (500 when
    the id cannot be cast to an object id), and the soft delete, whatever
    its time, leaves the collection as it was. *)
Theorem unknown_id_is_not_found (c : gmap string (Product.t Image)) (req : Request)
    (now : Z) :
  unknownId c req ->
  ProductRoutes.getById c req = notThere req "Error fetching product" /\
  Server.getById c req = notThere req "Error fetching product" /\
  Legacy.getById c req = notThere req "Error fetching product" /\
  ProductRoutes.softDelete c req now = (notThere req "Error deleting product", c) /\
  Server.softDelete c req now = (notThere req "Error deleting product", c) /\
  Legacy.softDelete c req now = (notThere req "Error deleting product", c).
Proof.
  intros Hunknown. unfold unknownId in Hunknown.
  unfold ProductRoutes.getById, Server.getById, Legacy.getById,
    ProductRoutes.softDelete, Server.softDelete, Legacy.softDelete, notThere,
    Product.findById, Product.findByIdAndUpdate, castObjectId.
  destruct (objectId (params_id req)) as [id|]; [|repeat split].
  cbn [mbind Throws_bind mret Throws_ret tryCatch].
  rewrite (Hunknown id eq_refl). repeat split.
Qed.

(** X7. An update never creates a document: when no product of the
    collection has the id of the request, every update route leaves the
    collection as it was and answers with a failure of status 404 or 400,
    uploaded files or not. *)
Theorem update_never_creates (c : gmap string (Product.t Image)) (req : Request)
    (now : Z) :
  unknownId c req ->
  Forall (fun w : bool * Z * gmap string (Product.t Image) =>
            w.1.1 = false /\ (w.1.2 = 404 \/ w.1.2 = 400) /\ w.2 = c)
    [ (success (json (ProductRoutes.update c req now).1),
       status (ProductRoutes.update c req now).1, (ProductRoutes.update c req now).2);
      (success (json (Server.update c req now).1),
       status (Server.update c req now).1, (Server.update c req now).2);
      (success (json (Legacy.update c req now).1),
       status (Legacy.update c req now).1, (Legacy.update c req now).2) ].
Proof.
  intros Hunknown. unfold unknownId in Hunknown.
  assert (forall id p, objectId (params_id req) = Some id -> c !! id = Some p -> False)
    as Habsurd.
  { intros id p Hid Hp. rewrite (Hunknown id Hid) in Hp. discriminate Hp. }
  repeat (apply List.Forall_cons; [cbv beta iota delta [fst snd]|]);
    [| | |apply List.Forall_nil].
  - unfold ProductRoutes.update, ProductRoutes.updateFrom.
    destruct (negb (noFiles req)); [read_cases|];
      cbn [mbind Throws_bind mret Throws_ret tryCatch];
      try (now auto); try (exfalso; eauto; fail);
      write_cases; try (now auto); exfalso; eauto.
  - unfold Server.update, Server.updateFrom. destruct (uploadError req); [now auto|].
    destruct (negb (noFiles req)); [read_cases|];
      cbn [mbind Throws_bind mret Throws_ret tryCatch];
      try (now auto); try (exfalso; eauto; fail);
      write_cases; try (now auto); exfalso; eauto.
  - unfold Legacy.update, Legacy.updateFrom.
    destruct (negb (noFiles req)); [read_cases|];
      cbn [mbind Throws_bind mret Throws_ret tryCatch];
      try (now auto); try (exfalso; eauto; fail);
      write_cases; try (now auto); exfalso; eauto.
Qed.

(** The count of the documents that satisfy the criteria after a write under
    one id. *)
Lemma totalOf_insert (crit : Product.t Image -> bool)
    (c : gmap string (Product.t Image)) (id : string) (p' : Product.t Image) :
  totalOf crit (<[id := p']> c) =
  totalOf crit c - counts crit (c !! id) + counts crit (Some p').
Proof.
  unfold totalOf, counts. rewrite map_filter_insert. cbn [snd].
  set (P := fun kv : string * Product.t Image => crit kv.2 = true).
  assert (filter P c !! id =
          match c !! id with
          | Some p => if crit p then Some p else None
          | None => None
          end) as Hlook.
  { destruct (c !! id) as [p|] eqn:Hp.
    - destruct (crit p) eqn:Hc.
      + apply map_lookup_filter_Some. auto.
      + apply map_lookup_filter_None. right. intros q Hq. rewrite Hp in Hq.
        injection Hq as <-. unfold P. cbn. congruence.
    - apply map_lookup_filter_None. left. exact Hp. }
  destruct (decide (crit p' = true)) as [Hc' | Hc'].
  - rewrite Hc', map_size_insert, Hlook.
    destruct (c !! id) as [p|]; [destruct (crit p) eqn:Hc|]; cbn; try lia;
      assert (size (filter P c) <> 0%nat)
        by (apply (map_size_ne_0_lookup_2 _ id); rewrite Hlook; eauto);
      lia.
  - destruct (crit p'); [congruence|].
    rewrite map_filter_delete, map_size_delete, Hlook.
    destruct (c !! id) as [p|]; [destruct (crit p) eqn:Hc|]; cbn; try lia;
      assert (size (filter P c) <> 0%nat)
        by (apply (map_size_ne_0_lookup_2 _ id); rewrite Hlook; eauto);
      lia.
Qed.

(** X8. The soft delete of a product of the collection rewrites that
    document with [isActive] false and [updatedAt] the time of the call,
    every other field (name, description, images, price, category, stock,
    [createdAt]) as it was, and touches nothing else: the other ids hold
    what they held and the ids of the collection are the same. *)
Theorem softDelete_touches_only_isActive (c : gmap string (Product.t Image))
    (req : Request) (now : Z) (id : string) (p : Product.t Image) :
  objectId (params_id req) = Some id -> c !! id = Some p ->
  let c' := (ProductRoutes.softDelete c req now).2 in
  c' !! id = Some (Product.mk (Product.name p) (Product.description p)
                     (Product.images p) (Product.price p) (Product.category p)
                     (Product.stock p) false (Product.createdAt p) now) /\
  (forall j, j <> id -> c' !! j = c !! j) /\
  dom c' = dom c /\
  (Server.softDelete c req now).2 = c' /\ (Legacy.softDelete c req now).2 = c'.
Proof.
  intros Hid Hp c'.
  assert (castObjectId (params_id req) = Ret id) as Hcast
    by (unfold castObjectId; now rewrite Hid).
  assert (c' = <[id := Product.applyUpdate Product.deactivate now p]> c) as ->
    by (unfold c'; now rewrite (softDelete_present c req now id p Hcast Hp)).
  split; [apply lookup_insert_eq|]. split; [|split; [|split]].
  - intros j Hj. now apply lookup_insert_ne.
  - apply dom_insert_lookup_L. eauto.
  - now rewrite (server_softDelete_present c req now id p Hcast Hp).
  - unfold Legacy.softDelete.
    now rewrite (findByIdAndUpdate_present _ _ _ _ _ _ _ Hcast Hp).
Qed.

(** X9. The soft delete of an active product lowers the number of active
    products, the [count] of the listing, by one; the soft delete of a
    product that is already inactive leaves it as it is. *)
Theorem softDelete_lowers_count (c : gmap string (Product.t Image))
    (req : Request) (now : Z) (id : string) (p : Product.t Image) :
  objectId (params_id req) = Some id -> c !! id = Some p ->
  totalOf Product.isActive (ProductRoutes.softDelete c req now).2 =
  totalOf Product.isActive c - (if Product.isActive p then 1 else 0).
Proof.
  intros Hid Hp.
  assert (castObjectId (params_id req) = Ret id) as Hcast
    by (unfold castObjectId; now rewrite Hid).
  rewrite (softDelete_present c req now id p Hcast Hp). cbn [snd].
  rewrite totalOf_insert, Hp. cbn. lia.
Qed.

End Lifecycle.

(** ** Creation *)

Section Creation.
Context `{Runtime} `{!Product.Schema}.

Lemma product_create_success (n : Product.NewDoc) (freshId : string) (now : Z)
    (c : gmap string (Product.t Image)) (nm ds : string) (pr : Price) (st : Z) :
  Product.new_name n = Some nm -> Product.new_description n = Some ds ->
  Product.new_price n = Num pr -> Product.new_stock n = Num st ->
  Product.validateCreate n = true -> c !! freshId = None ->
  Product.create n freshId now c =
  Ret ((freshId,
        created nm ds (Product.new_images n) pr (Product.new_category n) st now),
       <[freshId := created nm ds (Product.new_images n) pr
                      (Product.new_category n) st now]> c).
Proof.
  intros Hn Hd Hp Hs Hv Hfresh. unfold Product.create.
  rewrite Hn, Hd, Hp, Hs, Hv. cbn [negb].
  destruct (decide (is_Some (c !! freshId))) as [[x Hx] | _]; [congruence|].
  reflexivity.
Qed.

(** X10. A product created by the router can be fetched at once under its
    id: when the creation is accepted (files uploaded, name and description
    supplied, numeric price and stock, validators passed, an id the
    collection does not hold), it answers 201 and the fetch by that id
    answers 200 with the same product, which is active and has one image for
    each uploaded file. *)
Theorem create_then_getById (c : gmap string (Product.t Image)) (req getReq : Request)
    (freshId : string) (now : Z) (fs : list File) (nm ds : string) (pr : Price)
    (st : Z) :
  files req = Some fs -> fs <> [] ->
  body_name req = Some nm -> body_description req = Some ds ->
  parseFloat (toString (body_price req)) = Num pr ->
  Js.parseInt (toString (body_stock req)) = Num st ->
  Product.validateCreate
    (Product.mkNewDoc (body_name req) (body_description req)
       (ProductRoutes.binaryImages fs) (parseFloat (toString (body_price req)))
       (body_category req) (Js.parseInt (toString (body_stock req)))) = true ->
  c !! freshId = None ->
  params_id getReq = freshId -> objectId freshId = Some freshId ->
  exists view,
    (ProductRoutes.create c req freshId now).1 =
      succeeded 201 (Some "Product created successfully") (Some view) /\
    ProductRoutes.getById (ProductRoutes.create c req freshId now).2 getReq =
      succeeded 200 None (Some view) /\
    view.1 = freshId /\ Product.isActive view.2 = true /\
    Product.name view.2 = nm /\ Product.createdAt view.2 = now /\
    length (Product.images view.2) = length fs.
Proof.
  intros Hf Hne Hn Hd Hp Hs Hv Hfresh Hget Hid.
  unfold ProductRoutes.create.
  rewrite (noFiles_false req fs Hf Hne), Hf.
  change (default [] (Some fs)) with fs.
  rewrite (product_create_success
             (Product.mkNewDoc (body_name req) (body_description req)
                (ProductRoutes.binaryImages fs) (parseFloat (toString (body_price req)))
                (body_category req) (Js.parseInt (toString (body_stock req))))
             freshId now c nm ds pr st Hn Hd Hp Hs Hv Hfresh).
  cbn [mbind Throws_bind mret Throws_ret tryCatch fst snd].
  eexists. split; [reflexivity|]. split; [|repeat split].
  - unfold ProductRoutes.getById.
    rewrite (findById_present (params_id getReq) freshId _
               (created nm ds (ProductRoutes.binaryImages fs) pr (body_category req) st now)).
    + reflexivity.
    + unfold castObjectId. now rewrite Hget, Hid.
    + apply lookup_insert_eq.
  - cbn. unfold ProductRoutes.binaryImages. now rewrite !length_map.
Qed.

(** X11. An accepted creation adds one active product and touches no other:
    the number of active products, the [count] of the listing, goes up by
    one, the new product is among the results of the listing query, and
    every other id holds what it held. *)
Theorem create_raises_count (c : gmap string (Product.t Image)) (req : Request)
    (freshId : string) (now : Z) (fs : list File) (nm ds : string) (pr : Price)
    (st : Z) :
  files req = Some fs -> fs <> [] ->
  body_name req = Some nm -> body_description req = Some ds ->
  parseFloat (toString (body_price req)) = Num pr ->
  Js.parseInt (toString (body_stock req)) = Num st ->
  Product.validateCreate
    (Product.mkNewDoc (body_name req) (body_description req)
       (ProductRoutes.binaryImages fs) (parseFloat (toString (body_price req)))
       (body_category req) (Js.parseInt (toString (body_stock req)))) = true ->
  c !! freshId = None ->
  let c' := (ProductRoutes.create c req freshId now).2 in
  totalOf Product.isActive c' = totalOf Product.isActive c + 1 /\
  (exists p, (freshId, p) ∈ Product.find ProductRoutes.activeCriteria c') /\
  (forall j, j <> freshId -> c' !! j = c !! j).
Proof.
  intros Hf Hne Hn Hd Hp Hs Hv Hfresh c'. unfold c', ProductRoutes.create.
  rewrite (noFiles_false req fs Hf Hne), Hf.
  change (default [] (Some fs)) with fs.
  rewrite (product_create_success
             (Product.mkNewDoc (body_name req) (body_description req)
                (ProductRoutes.binaryImages fs) (parseFloat (toString (body_price req)))
                (body_category req) (Js.parseInt (toString (body_stock req))))
             freshId now c nm ds pr st Hn Hd Hp Hs Hv Hfresh).
  cbn [mbind Throws_bind mret Throws_ret tryCatch fst snd].
  split; [|split].
  - rewrite totalOf_insert, Hfresh. cbn. lia.
  - eexists. apply elem_of_find. split; [apply lookup_insert_eq | reflexivity].
  - intros j Hj. now apply lookup_insert_ne.
Qed.

Lemma elem_of_unlinkUploads (fs : list File) (disk : gset string) (x : string) :
  x ∈ Legacy.unlinkUploads fs disk <-> x ∈ disk /\ x ∉ List.map filename fs.
Proof.
  unfold Legacy.unlinkUploads. revert disk.
  induction fs as [|f fs IH]; intros disk; cbn [foldl List.map].
  - rewrite elem_of_nil. tauto.
  - rewrite IH, not_elem_of_cons.
    destruct (decide (filename f ∈ disk)) as [Hin | Hout].
    + rewrite elem_of_difference, elem_of_singleton. tauto.
    + split; [|tauto]. intros [Hx Hfs]. repeat split; try assumption.
      intros ->. contradiction.
Qed.

(** X12. In the earlier revision a creation that fails removes from the
    uploads directory the files the request uploaded, and only those; a
    creation that succeeds leaves the directory as it was. *)
Theorem legacy_create_cleans_up (c : gmap string (Product.t Image))
    (disk : gset string) (req : Request) (freshId : string) (now : Z) :
  let r := (Legacy.create c disk req freshId now).1.1 in
  let disk' := (Legacy.create c disk req freshId now).2 in
  (success (json r) = true /\ disk' = disk) \/
  (success (json r) = false /\ status r = 400 /\
   forall x, x ∈ disk' <->
             x ∈ disk /\ x ∉ List.map filename (default [] (files req))).
Proof.
  unfold Legacy.create.
  destruct (noFiles req) eqn:Hno; cbn [mbind Throws_bind mret Throws_ret tryCatch].
  - right. cbn [fst snd failure json success status].
    assert (default [] (files req) = []) as ->.
    { unfold noFiles in Hno. now destruct (files req) as [[|f fs]|]. }
    split; [reflexivity|]. split; [reflexivity|].
    intros x. split; [intros Hx; split; [exact Hx | apply not_elem_of_nil] | tauto].
  - unfold noFiles in Hno. destruct (files req) as [fs|] eqn:Hf; [|discriminate].
    change (default [] (Some fs)) with fs.
    destruct (create_cases
                (Product.mkNewDoc (body_name req) (body_description req)
                   (Server.pathImages fs) (parseFloat (toString (body_price req)))
                   (body_category req) (Js.parseInt (toString (body_stock req))))
                freshId now c) as [[e He] | (p & _ & _ & _ & _ & He)];
      rewrite He;
      cbn [mbind Throws_bind mret Throws_ret tryCatch fst snd failure succeeded
             json success status default from_option id].
    + right. split; [reflexivity|]. split; [reflexivity|].
      intros x. apply elem_of_unlinkUploads.
    + left. split; reflexivity.
Qed.

End Creation.

(** ** More on search and on the conversion of images *)

Section SearchAndImages.
Context `{Runtime}.

Lemma containsCI_case (q1 q2 s : string) :
  Js.toLowerCase q1 = Js.toLowerCase q2 -> containsCI q1 s <-> containsCI q2 s.
Proof. intros Hq. unfold containsCI. now rewrite Hq. Qed.

Lemma bool_ext_of_iff (a b : bool) (P : Prop) :
  (a = true <-> P) -> (b = true <-> P) -> a = b.
Proof. destruct a, b; intuition congruence. Qed.

(** X13. The search does not look at the case of the query: two queries
    made of ordinary characters that are equal up to case, asked for the
    same page, get the same products, the same count and the same number of
    pages, from the router and from the entry file. *)
Theorem search_ignores_query_case (c : gmap string (Product.t Image))
    (req1 req2 : Request) :
  literalQuery (params_query req1) = true ->
  literalQuery (params_query req2) = true ->
  Js.toLowerCase (params_query req1) = Js.toLowerCase (params_query req2) ->
  query_page req1 = query_page req2 -> query_limit req1 = query_limit req2 ->
  let same {D : Type} (r1 r2 : Response D) :=
    status r1 = status r2 /\ data (json r1) = data (json r2) /\
    count (json r1) = count (json r2) /\
    totalPages (json r1) = totalPages (json r2) in
  same (ProductRoutes.search c req1) (ProductRoutes.search c req2) /\
  same (Server.search c req1) (Server.search c req2).
Proof.
  intros Hq1 Hq2 Hlow Hpage Hlimit same.
  destruct (compile_literal pcre _ Hq1) as [re1 [Hc1 Hre1]].
  destruct (compile_literal pcre _ Hq2) as [re2 [Hc2 Hre2]].
  assert (forall s, re1 s = re2 s) as Hre.
  { intros s. apply (bool_ext_of_iff _ _ (containsCI (params_query req1) s)).
    - apply Hre1.
    - rewrite Hre2. symmetry. now apply containsCI_case. }
  assert (forall p, ProductRoutes.searchCriteria re1 p = ProductRoutes.searchCriteria re2 p)
    as Hrouter.
  { intros p. unfold ProductRoutes.searchCriteria. rewrite !Hre.
    destruct (Product.category p); [now rewrite Hre | reflexivity]. }
  assert (forall p, Server.searchCriteria re1 p = Server.searchCriteria re2 p) as Hserver.
  { intros p. unfold Server.searchCriteria. now rewrite !Hre. }
  unfold same, ProductRoutes.search, Server.search, pageOf, limitOf,
    Product.find, Product.countDocuments.
  rewrite Hc1, Hc2, Hpage, Hlimit.
  rewrite (matching_ext _ _ c Hrouter), (matching_ext _ _ c Hserver).
  split; destruct (Product.skipLimit _ _ _); repeat split.
Qed.

Lemma totalOf_mono (f g : Product.t Image -> bool) (c : gmap string (Product.t Image)) :
  (forall p, f p = true -> g p = true) -> totalOf f c <= totalOf g c.
Proof.
  intros Hfg. unfold totalOf. apply inj_le, map_subseteq_size.
  apply map_filter_subseteq_ext. intros i x _. cbn. apply Hfg.
Qed.

(** X14. A search never counts more than the listing: for a valid page and
    a pattern the engine accepts, the count of the search of the entry file
    is at most the count of the search of the router, which is at most the
    count of the listing. *)
Theorem search_counts_within_listing (c : gmap string (Product.t Image))
    (req : Request) (re : string -> bool) :
  Regex.compile pcre (params_query req) = Some re ->
  1 <= pageOf req -> 1 <= limitOf req ->
  exists s r l,
    count (json (Server.search c req)) = Some s /\
    count (json (ProductRoutes.search c req)) = Some r /\
    count (json (ProductRoutes.listProducts c req)) = Some l /\
    0 <= s /\ s <= r /\ r <= l.
Proof.
  intros Hc Hpage Hlimit.
  assert (0 <= (pageOf req - 1) * limitOf req) as Hskip by nia.
  exists (totalOf (Server.searchCriteria re) c),
    (totalOf (ProductRoutes.searchCriteria re) c), (totalOf Product.isActive c).
  rewrite (router_listing_eq c req Hpage Hlimit).
  unfold ProductRoutes.search, Server.search. rewrite Hc.
  rewrite !skipLimit_valid by assumption.
  cbn [mbind Throws_bind mret Throws_ret tryCatch paged json count].
  split; [|split; [|split; [|split; [|split]]]].
  - unfold totalOf. now rewrite countDocuments_size.
  - unfold totalOf. now rewrite countDocuments_size.
  - reflexivity.
  - apply totalOf_nonneg.
  - apply totalOf_mono. intros p. unfold Server.searchCriteria, ProductRoutes.searchCriteria.
    rewrite !andb_true_iff, !orb_true_iff. tauto.
  - apply totalOf_mono. intros p. unfold ProductRoutes.searchCriteria.
    rewrite andb_true_iff. tauto.
Qed.

Lemma toDataUrl_of_data_url (x : string) :
  ProductRoutes.toDataUrl (ImgString ("data:" +:+ x)) = "data:" +:+ x.
Proof. reflexivity. Qed.

(** Converting the string a conversion gave changes nothing. *)
Lemma toDataUrl_stable (img : Image) :
  ProductRoutes.toDataUrl (ImgString (ProductRoutes.toDataUrl img)) =
  ProductRoutes.toDataUrl img.
Proof.
  destruct img as [s | bytes contentType].
  - cbn [ProductRoutes.toDataUrl].
    destruct (String.eqb s "") eqn:Hs; [reflexivity|].
    destruct (Js.startsWith "/uploads/" s) eqn:Hup.
    + destruct (readUpload (Js.replace "/uploads/" "" s)) eqn:Hread.
      * apply toDataUrl_of_data_url.
      * cbn [ProductRoutes.toDataUrl]. now rewrite Hs, Hup, Hread.
    + cbn [ProductRoutes.toDataUrl]. now rewrite Hs, Hup.
  - cbn [ProductRoutes.toDataUrl].
    destruct (negb (String.eqb contentType "")); [apply toDataUrl_of_data_url | reflexivity].
Qed.

Lemma toDataUrl_images_stable (imgs : list Image) :
  List.map ProductRoutes.toDataUrl
    (List.map ImgString (List.map ProductRoutes.toDataUrl imgs)) =
  List.map ProductRoutes.toDataUrl imgs.
Proof.
  induction imgs as [|img imgs IH]; [reflexivity|].
  cbn [List.map]. now rewrite toDataUrl_stable, IH.
Qed.

(** X15. The conversion of a product for transport keeps its id, every
    field but the images and the number of images, and converting again a
    product that is already converted (its images put back as strings)
    changes nothing. *)
Theorem toDataUrlProduct_stable (d : Product.doc) :
  let v := ProductRoutes.toDataUrlProduct d in
  ProductRoutes.toDataUrlProduct (asStored v) = v /\
  v.1 = d.1 /\
  length (Product.images v.2) = length (Product.images d.2) /\
  (Product.name v.2, Product.description v.2, Product.price v.2,
   Product.category v.2, Product.stock v.2, Product.isActive v.2,
   Product.createdAt v.2, Product.updatedAt v.2) =
  (Product.name d.2, Product.description d.2, Product.price d.2,
   Product.category d.2, Product.stock d.2, Product.isActive d.2,
   Product.createdAt d.2, Product.updatedAt d.2).
Proof.
  destruct d as [id p]. cbn. split; [|split; [reflexivity | split; [|reflexivity]]].
  - unfold ProductRoutes.toDataUrlProduct, asStored. cbn.
    now rewrite toDataUrl_images_stable.
  - apply length_map.
Qed.

End SearchAndImages.

(** ** More on registration, login and the bootstrap script *)

Section Accounts.
Context `{Runtime} `{!User.Schema}.

Lemma findOne_app_none (criteria : User.t -> bool) (l l' : list User.t) :
  User.findOne criteria l = None ->
  User.findOne criteria (l ++ l') = User.findOne criteria l'.
Proof.
  unfold User.findOne. induction l as [|u l IH]; [reflexivity|].
  cbn. destruct (criteria u); [discriminate | exact IH].
Qed.

Lemma findOne_none_inv (criteria : User.t -> bool) (users : list User.t) (u : User.t) :
  User.findOne criteria users = None -> u ∈ users -> criteria u = false.
Proof.
  intros Hf Hu. apply list_elem_of_In in Hu. exact (List.find_none _ _ Hf u Hu).
Qed.

Lemma not_complete (body : AuthRoutes.Body) :
  ~ complete body ->
  negb (truthyJson (AuthRoutes.name body)) || negb (truthyJson (AuthRoutes.email body)) ||
  negb (truthyJson (AuthRoutes.phone body)) || negb (truthyJson (AuthRoutes.zipcode body)) ||
  negb (truthyJson (AuthRoutes.password body)) = true.
Proof.
  unfold complete.
  destruct (truthyJson (AuthRoutes.name body)), (truthyJson (AuthRoutes.email body)),
    (truthyJson (AuthRoutes.phone body)), (truthyJson (AuthRoutes.zipcode body)),
    (truthyJson (AuthRoutes.password body)); cbn; intros Hc; try reflexivity.
  exfalso. apply Hc. repeat split.
Qed.

(** What a registration can do: answer with a failure and leave the users,
    or store one user, under an email no user has, and answer 201.  It
    stores a user only when the email and the password are strings that are
    not empty and the three other fields are, or cast to, strings. *)
Lemma register_cases (users : list User.t) (body : AuthRoutes.Body)
    (env : AuthRoutes.Env) :
  (success (json (AuthRoutes.register users body env).1) = false /\
   status (AuthRoutes.register users body env).1 <> 201 /\
   (AuthRoutes.register users body env).2 = users) \/
  (exists n e ph z pw,
     AuthRoutes.castToString (AuthRoutes.name body) = Ret n /\
     AuthRoutes.email body = JString e /\
     AuthRoutes.castToString (AuthRoutes.phone body) = Ret ph /\
     AuthRoutes.castToString (AuthRoutes.zipcode body) = Ret z /\
     AuthRoutes.password body = JString pw /\ e <> "" /\ pw <> "" /\
     User.findOne (fun u => String.eqb (User.email u) (Js.toLowerCase e)) users = None /\
     AuthRoutes.register users body env =
       (AuthRoutes.authenticated 201 "Registered successfully"
          (registered env n e ph z pw) env,
        (users ++ [registered env n e ph z pw])%list)).
Proof.
  unfold AuthRoutes.register.
  destruct (negb _ || _ || _ || _ || _) eqn:Hc;
    [left; repeat split; discriminate|].
  rewrite !orb_false_iff, !negb_false_iff in Hc.
  destruct Hc as ((((_ & He) & _) & _) & Hw).
  destruct (AuthRoutes.email body) as [|e|te oe] eqn:Eem;
    cbn [AuthRoutes.toLowerCaseOf mbind Throws_bind mret Throws_ret tryCatch];
    try (left; repeat split; discriminate).
  destruct (User.findOne _ users) eqn:Hf; [left; repeat split; discriminate|].
  destruct (AuthRoutes.password body) as [|pw|tw ow] eqn:Epw;
    cbn [AuthRoutes.bcryptArgument mbind Throws_bind mret Throws_ret tryCatch];
    try (left; repeat split; discriminate).
  destruct (AuthRoutes.castToString (AuthRoutes.name body)) as [n|] eqn:En;
    cbn [mbind Throws_bind mret Throws_ret tryCatch];
    [|left; repeat split; discriminate].
  destruct (AuthRoutes.castToString (AuthRoutes.phone body)) as [ph|] eqn:Eph;
    cbn [mbind Throws_bind mret Throws_ret tryCatch];
    [|left; repeat split; discriminate].
  destruct (AuthRoutes.castToString (AuthRoutes.zipcode body)) as [z|] eqn:Ez;
    cbn [mbind Throws_bind mret Throws_ret tryCatch];
    [|left; repeat split; discriminate].
  unfold User.create. fold (registered env n e ph z pw).
  destruct (User.validate (registered env n e ph z pw));
    [|left; repeat split; discriminate].
  right. exists n, e, ph, z, pw.
  repeat split; try assumption; try reflexivity; now apply truthy_JString.
Qed.

(** X16. A registration with any of the five fields missing or empty fails
    with status 400 "All fields are required" and creates no user, whether
    or not the email is already registered. *)
Theorem register_missing_field (users : list User.t) (body : AuthRoutes.Body)
    (env : AuthRoutes.Env) :
  ~ complete body ->
  AuthRoutes.register users body env =
    (failure 400 "All fields are required" None, users).
Proof.
  intros Hc. unfold AuthRoutes.register. now rewrite (not_complete body Hc).
Qed.

(** X17. Registration keeps the emails of the users distinct: if no two
    users share an email before a call of register, none do after it. *)
Theorem register_keeps_emails_unique (users : list User.t) (body : AuthRoutes.Body)
    (env : AuthRoutes.Env) :
  NoDup (List.map User.email users) ->
  NoDup (List.map User.email (AuthRoutes.register users body env).2).
Proof.
  intros Hnd.
  destruct (register_cases users body env)
    as [(_ & _ & ->) | (n & e & ph & z & pw & _ & _ & _ & _ & _ & _ & _ & Hf & ->)];
    [exact Hnd|].
  cbn [snd]. rewrite List.map_app. apply NoDup_app. split; [exact Hnd|]. split.
  - intros x Hx Hin. cbn in Hin. apply list_elem_of_singleton in Hin. subst x.
    apply list_elem_of_In, in_map_iff in Hx as (u & Hu & Hin).
    apply list_elem_of_In in Hin.
    pose proof (findOne_none_inv _ _ u Hf Hin) as Hneq. cbn in Hneq.
    apply String.eqb_neq in Hneq. contradiction.
  - cbn. apply NoDup_singleton.
Qed.

(** X18. Registration never changes or removes a user and never creates an
    administrator: it leaves the users as they were, or appends one user,
    active, with the role of a plain user, the email in lower case and the
    hash of the password in place of the password. *)
Theorem register_only_adds_plain_user (users : list User.t) (body : AuthRoutes.Body)
    (env : AuthRoutes.Env) :
  (AuthRoutes.register users body env).2 = users \/
  exists u pw,
    (AuthRoutes.register users body env).2 = (users ++ [u])%list /\
    status (AuthRoutes.register users body env).1 = 201 /\
    User.role u = RoleUser /\ User.isActive u = true /\
    User._id u = AuthRoutes.freshId env /\
    User.email u = Js.toLowerCase (User.email u) /\
    AuthRoutes.password body = JString pw /\
    User.password u = bcrypt_hash pw (AuthRoutes.salt env).
Proof.
  destruct (register_cases users body env)
    as [(_ & _ & Hsame) | (n & e & ph & z & pw & _ & _ & _ & _ & Hw & _ & _ & _ & Hr)];
    [left; exact Hsame | right].
  exists (registered env n e ph z pw), pw. rewrite Hr. cbn.
  repeat split; try assumption. now rewrite toLowerCase_idem.
Qed.

Lemma truthy_case (e1 e2 : string) :
  Js.toLowerCase e1 = Js.toLowerCase e2 ->
  truthyJson (JString e1) = truthyJson (JString e2).
Proof.
  intros Hl. pose proof (f_equal String.length Hl) as Hlen.
  rewrite !toLowerCase_length in Hlen.
  destruct e1, e2; cbn in *; try reflexivity; discriminate.
Qed.

(** X19. After a registration that answered 201, a login with the same
    password and the same email, in any case, succeeds with status 200 and
    the account the registration sent, provided bcrypt accepts a password
    against its own hash. *)
Theorem login_after_register (users : list User.t) (body body' : AuthRoutes.Body)
    (env env' : AuthRoutes.Env) (e e' : string) :
  hashVerifies ->
  status (AuthRoutes.register users body env).1 = 201 ->
  AuthRoutes.email body = JString e -> AuthRoutes.email body' = JString e' ->
  Js.toLowerCase e' = Js.toLowerCase e ->
  AuthRoutes.password body' = AuthRoutes.password body ->
  status (AuthRoutes.login (AuthRoutes.register users body env).2 body' env') = 200 /\
  message (json (AuthRoutes.login (AuthRoutes.register users body env).2 body' env'))
    = Some "Login successful" /\
  data (json (AuthRoutes.login (AuthRoutes.register users body env).2 body' env'))
    = data (json (AuthRoutes.register users body env).1).
Proof.
  intros Hhash Hst He He' Hlow Hpw.
  destruct (register_cases users body env)
    as [(_ & Hno & _) | (n & e0 & ph & z & pw & _ & He0 & _ & _ & Hw & Hne & Hnw & Hf & Hr)];
    [contradiction|].
  rewrite He in He0. injection He0 as <-.
  rewrite Hr. cbn [fst snd].
  assert (e' <> "") as Hne'.
  { intros ->. apply Hne. destruct e; [reflexivity | discriminate Hlow]. }
  rewrite (login_success _ body' env' e' pw (registered env n e ph z pw)).
  - repeat split.
  - exact He'.
  - exact Hne'.
  - now rewrite Hpw.
  - exact Hnw.
  - rewrite Hlow. rewrite findOne_app_none.
    + cbn. now rewrite String.eqb_refl.
    + apply findOne_none. intros u Hu.
      now rewrite (findOne_none_inv _ _ u Hf Hu).
  - apply Hhash.
Qed.

(** X20. Login does not look at the case of the email: two logins with the
    same password and emails equal up to case get the same response. *)
Theorem login_ignores_email_case (users : list User.t) (body1 body2 : AuthRoutes.Body)
    (env : AuthRoutes.Env) (e1 e2 : string) :
  AuthRoutes.email body1 = JString e1 -> AuthRoutes.email body2 = JString e2 ->
  Js.toLowerCase e1 = Js.toLowerCase e2 ->
  AuthRoutes.password body1 = AuthRoutes.password body2 ->
  AuthRoutes.login users body1 env = AuthRoutes.login users body2 env.
Proof.
  intros H1 H2 Hlow Hpw. unfold AuthRoutes.login.
  rewrite H1, H2, Hpw, (truthy_case e1 e2 Hlow).
  cbn [AuthRoutes.toLowerCaseOf]. now rewrite Hlow.
Qed.

(** X21. A login with the email or the password missing, empty or
    otherwise falsy is answered with status 400 "Email and password are required", whoever the
    users are: no user is looked up. *)
Theorem login_missing_credentials (users : list User.t) (body : AuthRoutes.Body)
    (env : AuthRoutes.Env) :
  truthyJson (AuthRoutes.email body) = false \/
  truthyJson (AuthRoutes.password body) = false ->
  AuthRoutes.login users body env = failure 400 "Email and password are required" None.
Proof.
  intros Hmissing. unfold AuthRoutes.login.
  destruct Hmissing as [-> | ->]; cbn; [reflexivity|].
  now rewrite orb_true_r.
Qed.

(** What the script can do once connected: leave the users when one has the
    address of the administrator or the schema refuses the document, or
    store the administrator. *)
Lemma createAdminUser_cases (users : list User.t) (freshId salt : string) :
  (exists u, u ∈ users /\ User.email u = "admin@khushu.com" /\
             Bootstrap.createAdminUser None users freshId salt = (0, users)) \/
  Bootstrap.createAdminUser None users freshId salt = (1, users) \/
  (User.findOne (fun u => String.eqb (User.email u) "admin@khushu.com") users = None /\
   Bootstrap.createAdminUser None users freshId salt =
     (0, (users ++ [adminUser freshId salt])%list)).
Proof.
  unfold Bootstrap.createAdminUser. cbn [mbind Throws_bind mret Throws_ret].
  destruct (User.findOne _ users) as [u|] eqn:Hf.
  - left. exists u. unfold User.findOne in Hf. apply List.find_some in Hf as [Hin He].
    apply list_elem_of_In in Hin. apply String.eqb_eq in He. auto.
  - unfold User.create. fold (adminUser freshId salt).
    destruct (User.validate (adminUser freshId salt)); [right; right | right; left]; auto.
Qed.

(** X22. The bootstrap script creates the administrator at most once: after
    a run that ended with exit code 0, a second run, whatever id and salt it
    draws, ends with exit code 0 and leaves the users as they are.  A run
    that cannot connect ends with exit code 1 and leaves the users. *)
Theorem createAdminUser_runs_once (users : list User.t) (freshId salt id2 salt2 : string)
    (e : Exception) :
  ((Bootstrap.createAdminUser None users freshId salt).1 = 0 ->
   Bootstrap.createAdminUser None
     (Bootstrap.createAdminUser None users freshId salt).2 id2 salt2 =
   (0, (Bootstrap.createAdminUser None users freshId salt).2)) /\
  Bootstrap.createAdminUser (Some e) users freshId salt = (1, users).
Proof.
  split; [|reflexivity].
  destruct (createAdminUser_cases users freshId salt)
    as [(u & Hu & He & ->) | [-> | (Hf & ->)]]; cbn [fst snd].
  - intros _. destruct (createAdminUser_cases users id2 salt2)
      as [(_ & _ & _ & ->) | [Hr | (Hf & _)]]; [reflexivity | |].
    + exfalso. revert Hr. unfold Bootstrap.createAdminUser.
      cbn [mbind Throws_bind mret Throws_ret].
      destruct (findOne_found (fun v => String.eqb (User.email v) "admin@khushu.com")
                  users u Hu) as [v ->]; [now apply String.eqb_eq|].
      discriminate.
    + pose proof (findOne_none_inv _ _ u Hf Hu) as Hneq. cbn in Hneq.
      apply String.eqb_neq in Hneq. contradiction.
  - discriminate.
  - intros _. unfold Bootstrap.createAdminUser.
    cbn [mbind Throws_bind mret Throws_ret].
    rewrite findOne_app_none by exact Hf. reflexivity.
Qed.

(** X23. Whoever registers the address of the administrator before the
    script runs keeps it as a plain user: after a registration under
    admin@khushu.com (in any case) that answered 201, the script ends with
    exit code 0 without creating the administrator, and the user under that
    address has the role of a plain user. *)
Theorem registered_admin_address_blocks_bootstrap (users : list User.t)
    (body : AuthRoutes.Body) (env : AuthRoutes.Env) (e freshId salt : string) :
  status (AuthRoutes.register users body env).1 = 201 ->
  AuthRoutes.email body = JString e -> Js.toLowerCase e = "admin@khushu.com" ->
  Bootstrap.createAdminUser None (AuthRoutes.register users body env).2 freshId salt =
    (0, (AuthRoutes.register users body env).2) /\
  forall u, u ∈ (AuthRoutes.register users body env).2 ->
            User.email u = "admin@khushu.com" -> User.role u = RoleUser.
Proof.
  intros Hst He Hlow.
  destruct (register_cases users body env)
    as [(_ & Hno & _) | (n & e0 & ph & z & pw & _ & He0 & _ & _ & _ & _ & _ & Hf & Hr)];
    [contradiction|].
  rewrite He in He0. injection He0 as <-. rewrite Hr. cbn [snd].
  rewrite Hlow in Hf. split.
  - unfold Bootstrap.createAdminUser. cbn [mbind Throws_bind mret Throws_ret].
    rewrite findOne_app_none by exact Hf. cbn. now rewrite Hlow.
  - intros u Hu Hemail. apply elem_of_app in Hu as [Hu | Hu].
    + pose proof (findOne_none_inv _ _ u Hf Hu) as Hneq. cbn in Hneq.
      apply String.eqb_neq in Hneq. contradiction.
    + apply list_elem_of_singleton in Hu. now subst u.
Qed.

(** X24. On users none of whom has the address of the administrator, a
    connected run of the script that the schema accepts stores the
    administrator, and the login under admin@khushu.com (in any case) with
    the password admin123 then succeeds with the role of an administrator,
    provided bcrypt accepts a password against its own hash. *)
Theorem createAdminUser_then_login (users : list User.t) (freshId salt : string)
    (body : AuthRoutes.Body) (env : AuthRoutes.Env) (e : string) :
  hashVerifies ->
  (forall u, u ∈ users -> User.email u <> "admin@khushu.com") ->
  User.validate (adminUser freshId salt) = true ->
  AuthRoutes.email body = JString e -> Js.toLowerCase e = "admin@khushu.com" ->
  AuthRoutes.password body = JString "admin123" ->
  Bootstrap.createAdminUser None users freshId salt =
    (0, (users ++ [adminUser freshId salt])%list) /\
  AuthRoutes.login (Bootstrap.createAdminUser None users freshId salt).2 body env =
    AuthRoutes.authenticated 200 "Login successful" (adminUser freshId salt) env /\
  AuthRoutes.acc_role (AuthRoutes.account (adminUser freshId salt)) = RoleAdmin.
Proof.
  intros Hhash Hnone Hv He Hlow Hpw.
  assert (User.findOne (fun u => String.eqb (User.email u) "admin@khushu.com") users = None)
    as Hf.
  { apply findOne_none. intros u Hu. apply String.eqb_neq. now apply Hnone. }
  assert (Bootstrap.createAdminUser None users freshId salt =
          (0, (users ++ [adminUser freshId salt])%list)) as Hrun.
  { unfold Bootstrap.createAdminUser. cbn [mbind Throws_bind mret Throws_ret].
    rewrite Hf. unfold User.create. fold (adminUser freshId salt). now rewrite Hv. }
  rewrite Hrun. cbn [snd]. split; [reflexivity|]. split; [|reflexivity].
  apply (login_success _ body env e "admin123" (adminUser freshId salt)).
  - exact He.
  - intros ->. discriminate Hlow.
  - exact Hpw.
  - discriminate.
  - rewrite Hlow, findOne_app_none.
    + reflexivity.
    + apply findOne_none. intros u Hu.
      now rewrite (findOne_none_inv _ _ u Hf Hu).
  - apply Hhash.
Qed.

End Accounts.

(** ** The routes on examples *)

Section Examples.
#[local] Existing Instance exampleRuntime.
#[local] Existing Instance exampleSchema.
#[local] Existing Instance exampleUserSchema.

Example parseInt_examples :
  Js.parseInt "12" = Num 12 /\ Js.parseInt "  -7px" = Num (-7) /\
  Js.parseInt "0x1f" = Num 31 /\ Js.parseInt "abc" = NaN /\
  Js.parseInt (toString None) = NaN /\ Js.parseInt "" = NaN.
Proof. repeat split; reflexivity. Qed.

Example defaults_of_page_and_limit :
  pageOf emptyRequest = 1 /\ limitOf emptyRequest = 12 /\
  pageOf (mkRequest "" "" (Some "0") (Some "many") None None None None None None None) = 1 /\
  limitOf (mkRequest "" "" (Some "0") (Some "many") None None None None None None None) = 12.
Proof. repeat split; reflexivity. Qed.

Example ceilDiv_examples :
  Js.ceilDiv 25 12 = 3 /\ Js.ceilDiv 24 12 = 2 /\ Js.ceilDiv 0 12 = 0.
Proof. repeat split; reflexivity. Qed.

(** The search of the router finds the headphones by their category; the
    search of the entry file, which does not look at the category, does
    not. *)
Example search_electron :
  List.map fst (default [] (data (json (ProductRoutes.search catalog (searchFor "electron")))))
    = [idA] /\
  List.map fst (default [] (data (json (Server.search catalog (searchFor "electron")))))
    = [].
Proof. split; vm_compute; reflexivity. Qed.

(** A product created with two pictures is sent back with two images and
    active. *)
Example create_with_two_images :
  let r := ProductRoutes.create ∅ createHeadphones idA 1000 in
  status r.1 = 201 /\
  (fun v => length (Product.images v.2)) <$> data (json r.1) = Some 2%nat /\
  (fun v => Product.isActive v.2) <$> data (json r.1) = Some true /\
  Product.isActive <$> r.2 !! idA = Some true.
Proof. repeat split; vm_compute; reflexivity. Qed.

(** After a registration, the login with the same credentials succeeds and
    a login after the account is made inactive fails. *)
Example register_then_login :
  status (AuthRoutes.register [] signup firstCall).1 = 201 /\
  status (AuthRoutes.login [amina] signup secondCall) = 200 /\
  status (AuthRoutes.login
            [User.mk idA "Amina" "amina@khushu.com" "0300" "54000" "$s3cret" RoleUser false]
            signup secondCall) = 401.
Proof. repeat split; vm_compute; reflexivity. Qed.

(** The second page of the catalog, one product a page: two pages, no
    next page, a previous page. *)
Lemma pagination_metadata_witness :
  pageOf secondPage = 2 /\ limitOf secondPage = 1 /\
  pageMetadata (@ProductRoutes.listProducts exampleRuntime catalog secondPage) 2 2 1.
Proof.
  split; [reflexivity|]. split; [reflexivity|].
  exact (proj1 (@pagination_metadata exampleRuntime catalog secondPage
                  ltac:(vm_compute; discriminate) ltac:(vm_compute; discriminate))).
Defined.

(** A search for [electron] in the catalog. *)
Lemma search_literal_query_witness :
  literalQuery "electron" = true /\
  pageOf (searchFor "electron") = 1 /\ limitOf (searchFor "electron") = 12 /\
  exists results : list (@Product.doc exampleRuntime),
    (forall id p, (id, p) ∈ results <->
                  catalog !! id = Some p /\ wanted true "electron" p) /\
    count (json (@ProductRoutes.search exampleRuntime catalog (searchFor "electron")))
      = Some (Z.of_nat (length results)).
Proof.
  split; [reflexivity|]. split; [reflexivity|]. split; [reflexivity|].
  destruct (proj1 (@search_literal_query exampleRuntime catalog (searchFor "electron")
                     eq_refl ltac:(vm_compute; discriminate) ltac:(vm_compute; discriminate)))
    as [results [Hres [_ [_ [_ [Hcount _]]]]]].
  exists results. split; [exact Hres | exact Hcount].
Defined.

(** The claim C2 as it stands fails on a query that holds an operator: a
    search for [.] finds a product none of whose fields holds a dot. *)
Lemma search_dot_matches_without_substring :
  catalog !! idB = Some novel /\
  ~ wanted true "." novel /\
  List.map fst
    (default [] (data (json (@ProductRoutes.search exampleRuntime catalog (searchFor ".")))))
  = [idB; idA].
Proof.
  split; [reflexivity|]. split.
  - intros [_ [Hn | [Hd | [_ [cat [[= <-] Hc]]]]]].
    + apply matchAnywhere_literal in Hn. discriminate Hn.
    + apply matchAnywhere_literal in Hd. discriminate Hd.
    + apply matchAnywhere_literal in Hc. discriminate Hc.
  - vm_compute. reflexivity.
Qed.

(** The headphones after the upload of one more picture. *)
Lemma update_appends_images_witness :
  castObjectId (params_id updateWithPhoto) = Ret idA /\
  catalog !! idA = Some headphones /\
  files updateWithPhoto = Some [photo] /\
  (exists p',
     (@ProductRoutes.update exampleRuntime exampleSchema catalog updateWithPhoto 5000).2
       = <[idA := p']> catalog /\
     Product.images p' = [ImgBinary [] "image/jpeg"; ImgBinary [] "image/png"]) /\
  (exists p',
     (@Server.update exampleRuntime exampleSchema catalog updateWithPhoto 5000).2
       = <[idA := p']> catalog /\
     Product.images p' = [ImgBinary [] "image/jpeg"; ImgString "/uploads/front.png"]).
Proof.
  split; [reflexivity|]. split; [reflexivity|]. split; [reflexivity|].
  destruct (@update_appends_images exampleRuntime exampleSchema catalog catalog
              updateWithPhoto 5000 idA headphones headphones [photo]
              eq_refl eq_refl eq_refl eq_refl ltac:(discriminate)
              (conj (ex_intro _ 80 eq_refl) (ex_intro _ 7 eq_refl))) as [HR HS].
  unfold ProductRoutes.update, Server.update.
  split.
  - destruct (HR eq_refl) as [p' [Hu [Hi _]]]. exists p'.
    split; [now rewrite Hu | exact Hi].
  - destruct (HS eq_refl eq_refl) as [p' [Hu [Hi _]]]. exists p'.
    split; [now rewrite Hu | exact Hi].
Defined.

(** The claim C3 as it stands fails in two ways.  An update that uploads a
    file and supplies no price and no stock is refused: the product exists
    and the list of new images is not empty, yet the answer is status 400
    and the product keeps its one image.  And an update that read the
    product before another upload wrote it puts its picture after the one
    image it read: the product held two images before the write and holds
    two after it, the picture of the other upload gone. *)
Lemma update_with_files_can_fail_to_append :
  let refused :=
    @ProductRoutes.update exampleRuntime exampleSchema catalog photoOnly 5000 in
  let c1 :=
    (@ProductRoutes.update exampleRuntime exampleSchema catalog updateWithPhoto 5000).2 in
  let late :=
    @ProductRoutes.updateFrom exampleRuntime exampleSchema catalog c1 updateWithScan 6000 in
  catalog !! idA = Some headphones /\
  Product.images headphones = [ImgBinary [] "image/jpeg"] /\
  (files photoOnly = Some [photo] /\
   body_price photoOnly = None /\ body_stock photoOnly = None /\
   status refused.1 = 400 /\
   error (json refused.1) = Some CastError /\
   Product.images <$> refused.2 !! idA = Some [ImgBinary [] "image/jpeg"]) /\
  (files updateWithScan = Some [scan] /\
   Product.images <$> c1 !! idA =
     Some [ImgBinary [] "image/jpeg"; ImgBinary [] "image/png"] /\
   status late.1 = 200 /\
   Product.images <$> late.2 !! idA =
     Some [ImgBinary [] "image/jpeg"; ImgBinary [] "image/gif"]).
Proof.
  intros refused c1 late. split; [reflexivity|]. split; [reflexivity|].
  split; repeat split; vm_compute; reflexivity.
Qed.

(** The catalog after the soft delete of the headphones. *)
Lemma softDelete_then_list_excludes_witness :
  castObjectId (params_id onProductA) = Ret idA /\
  catalog !! idA = Some headphones /\
  exists c',
    @ProductRoutes.softDelete exampleRuntime exampleSchema catalog onProductA 3000 =
      (succeeded 200 (Some "Product deleted successfully") None, c') /\
    (forall req' ds v,
       data (json (@ProductRoutes.listProducts exampleRuntime c' req')) = Some ds ->
       v ∈ ds -> v.1 <> idA).
Proof.
  split; [reflexivity|]. split; [reflexivity|].
  destruct (proj1 (@softDelete_then_list_excludes exampleRuntime exampleSchema catalog
                     onProductA 3000 idA headphones eq_refl eq_refl))
    as [c' [Hd [Hl _]]].
  exists c'. split; [exact Hd | exact Hl].
Defined.

(** A creation with every field and an empty list of files. *)
Lemma create_requires_image_witness :
  files createWithoutImage = Some [] /\
  @ProductRoutes.create exampleRuntime exampleSchema catalog createWithoutImage
    "64b7f0a1c2d3e4f5a6b7c8db" 3000 =
    (failure 400 "At least one image is required" None, catalog).
Proof.
  split; [reflexivity|].
  exact (proj1 (@create_requires_image exampleRuntime exampleSchema catalog
                  createWithoutImage "64b7f0a1c2d3e4f5a6b7c8db" 3000
                  (or_intror eq_refl))).
Defined.


(** The headphones soft-deleted twice. *)
Lemma softDelete_idempotent_witness :
  castObjectId (params_id onProductA) = Ret idA /\
  catalog !! idA = Some headphones /\
  exists c1 p1,
    @ProductRoutes.softDelete exampleRuntime exampleSchema catalog onProductA 3000 =
      (succeeded 200 (Some "Product deleted successfully") None, c1) /\
    c1 !! idA = Some p1 /\
    @ProductRoutes.softDelete exampleRuntime exampleSchema c1 onProductA 4000 =
      (succeeded 200 (Some "Product deleted successfully") None,
       <[idA := touched 4000 p1]> c1).
Proof.
  split; [reflexivity|]. split; [reflexivity|].
  destruct (@softDelete_idempotent exampleRuntime exampleSchema catalog onProductA
              3000 4000 idA headphones eq_refl eq_refl)
    as [c1 [p1 [H1 [Hp1 [_ [_ [H2 _]]]]]]].
  exists c1, p1. split; [exact H1|]. split; [exact Hp1 | exact H2].
Defined.

(** The claim C9 as it stands fails on the timestamp the store keeps: the
    second soft delete answers 200, yet it leaves the product with another
    [updatedAt], so the collection is not the one the first call left. *)
Lemma softDelete_again_moves_updatedAt :
  let c1 :=
    (@ProductRoutes.softDelete exampleRuntime exampleSchema catalog onProductA 3000).2 in
  let again := @ProductRoutes.softDelete exampleRuntime exampleSchema c1 onProductA 4000 in
  catalog !! idA = Some headphones /\
  status again.1 = 200 /\
  Product.updatedAt <$> c1 !! idA = Some 3000 /\
  Product.updatedAt <$> again.2 !! idA = Some 4000 /\
  again.2 <> c1.
Proof.
  intros c1 again.
  assert (Product.updatedAt <$> c1 !! idA = Some 3000) as H1
    by (vm_compute; reflexivity).
  assert (Product.updatedAt <$> again.2 !! idA = Some 4000) as H2
    by (vm_compute; reflexivity).
  split; [reflexivity|]. split; [vm_compute; reflexivity|].
  split; [exact H1|]. split; [exact H2|].
  intros Heq. rewrite Heq, H1 in H2. discriminate H2.
Qed.

(** The headphones updated without a file, by the router and by the
    route of the entry file. *)
Lemma update_without_images_witness :
  castObjectId (params_id updateFields) = Ret idA /\
  catalog !! idA = Some headphones /\
  files updateFields = None /\
  (exists p',
     (@ProductRoutes.update exampleRuntime exampleSchema catalog updateFields 5000).2
       = <[idA := p']> catalog /\
     p' = @Product.mk exampleRuntime Image "Headphones" "Wired"
            [ImgBinary [] "image/jpeg"] 80%Z (Some "Audio") 7 true 1000 5000) /\
  (exists p',
     (@Server.update exampleRuntime exampleSchema catalog updateFields 5000).2
       = <[idA := p']> catalog /\
     p' = @Product.mk exampleRuntime Image "Headphones" "Wired"
            [ImgBinary [] "image/jpeg"] 80%Z (Some "Electronics") 7 true 1000 5000).
Proof.
  split; [reflexivity|]. split; [reflexivity|]. split; [reflexivity|].
  destruct (@update_without_images exampleRuntime exampleSchema catalog updateFields
              5000 idA headphones "Headphones" "Wired" "Audio" 80%Z 7
              eq_refl eq_refl (or_introl eq_refl) eq_refl eq_refl eq_refl eq_refl eq_refl)
    as [HR HS].
  split.
  - destruct (HR eq_refl) as [p' [Hu [_ Hp']]]. exists p'.
    split; [now rewrite Hu | exact Hp'].
  - destruct (HS eq_refl eq_refl) as [p' [Hu [_ Hp']]]. exists p'.
    split; [now rewrite Hu | exact Hp'].
Defined.

(** The claim C10 as it stands fails on the route of the entry file: an
    accepted update that supplies the category ["Audio"] and no file leaves
    the category of the product at ["Electronics"]. *)
Lemma server_update_keeps_category :
  body_category updateFields = Some "Audio" /\
  files updateFields = None /\
  catalog !! idA = Some headphones /\
  status (@Server.update exampleRuntime exampleSchema catalog updateFields 5000).1 = 200 /\
  Product.category <$>
    (@Server.update exampleRuntime exampleSchema catalog updateFields 5000).2 !! idA
  = Some (Some "Electronics").
Proof.
  split; [reflexivity|]. split; [reflexivity|]. split; [reflexivity|].
  split; vm_compute; reflexivity.
Qed.

(** The same registration sent twice, the second time with the email in
    another case. *)
Lemma register_duplicate_email_witness :
  (@AuthRoutes.register exampleRuntime exampleUserSchema [] signup firstCall).2 = [amina] /\
  lowercased [amina] /\
  Js.toLowerCase (User.email amina) = Js.toLowerCase "AMINA@khushu.COM" /\
  complete signupAgain /\
  @AuthRoutes.register exampleRuntime exampleUserSchema [amina] signupAgain secondCall =
    (failure 409 "Email already in use" None, [amina]).
Proof.
  assert (lowercased [amina]) as Hl by (repeat constructor).
  assert (complete signupAgain) as Hc by (repeat split).
  split; [reflexivity|]. split; [exact Hl|]. split; [reflexivity|]. split; [exact Hc|].
  exact (proj1 (@register_duplicate_email exampleRuntime exampleUserSchema [amina]
                  signupAgain secondCall "AMINA@khushu.COM" amina Hl
                  ltac:(apply list_elem_of_In; left; reflexivity) eq_refl eq_refl Hc)).
Defined.



(** A registration whose name is the number 5 stores the name ["5"]; one
    whose password is a number ends in the [catch] of the route. *)
Example register_with_a_number :
  List.map User.name
    (@AuthRoutes.register exampleRuntime exampleUserSchema []
       (AuthRoutes.mkBody (JOther true (Some "5")) (JString "Amina@Khushu.com")
          (JString "0300") (JString "54000") (JString "s3cret")) firstCall).2
    = ["5"] /\
  @AuthRoutes.register exampleRuntime exampleUserSchema []
    (AuthRoutes.mkBody (JString "Amina") (JString "Amina@Khushu.com")
       (JString "0300") (JString "54000") (JOther true (Some "5"))) firstCall
    = (failure 500 "Registration error" (Some IllegalArguments), []).
Proof. split; reflexivity. Qed.

End Examples.

(** ** Images are only ever added *)

Ltac on_read rid c :=
  let He := fresh "He" in
  destruct (findById_cases rid c)
    as [[? He] | [(? & ? & ? & He) | (? & ? & ? & ? & He)]];
  rewrite He; cbn [mbind Throws_bind mret Throws_ret tryCatch fst snd].

Ltac on_write rid u now c :=
  let He := fresh "He" in
  destruct (findByIdAndUpdate_cases rid u true now c)
    as [[? He] | [(? & ? & ? & He) | (? & ? & ? & ? & He)]];
  rewrite He; cbn [mbind Throws_bind mret Throws_ret tryCatch fst snd].

(** The id and the product the read and the write of an update found are
    the same when the product is undisturbed. *)
Ltac same_product Hs :=
  repeat match goal with
  | H1 : objectId ?r = Some ?a, H2 : objectId ?r = Some ?b |- _ =>
      assert (b = a) by congruence; subst b; clear H2
  end;
  match goal with
  | H1 : objectId _ = Some ?a |- _ => pose proof (Hs a H1)
  end.

Section Images.
Context `{Runtime} `{!Product.Schema}.

Lemma keepsImages_refl (c : gmap string (Product.t Image)) : keepsImages c c.
Proof. intros id p Hp. exists p, []. now rewrite app_nil_r. Qed.

Lemma keepsImages_write (c : gmap string (Product.t Image)) (id : string)
    (p : Product.t Image) (u : Product.Update) (now : Z) (more : list Image) :
  c !! id = Some p ->
  Product.set_images u = None \/
  Product.set_images u = Some (Product.images p ++ more)%list ->
  keepsImages c (<[id := Product.applyUpdate u now p]> c).
Proof.
  intros Hp Hu j q Hq. destruct (decide (id = j)) as [<- | Hne].
  - rewrite Hp in Hq. injection Hq as <-.
    exists (Product.applyUpdate u now p). rewrite lookup_insert_eq.
    destruct Hu as [Hu | Hu]; cbn; rewrite Hu; cbn.
    + exists []. now rewrite app_nil_r.
    + now exists more.
  - exists q, []. rewrite lookup_insert_ne by assumption. now rewrite app_nil_r.
Qed.

Lemma router_update_keepsImages (seen c : gmap string (Product.t Image))
    (req : Request) (now : Z) :
  undisturbed seen c req ->
  keepsImages c (ProductRoutes.updateFrom seen c req now).2.
Proof.
  intros Hs. unfold ProductRoutes.updateFrom.
  destruct (negb (noFiles req)).
  - on_read (params_id req) seen; try apply keepsImages_refl.
    + match goal with |- context [Product.findByIdAndUpdate ?r ?u true now c] =>
        on_write r u now c end; try apply keepsImages_refl.
      same_product Hs. congruence.
    + match goal with |- context [Product.findByIdAndUpdate ?r ?u true now c] =>
        on_write r u now c end; try apply keepsImages_refl.
      same_product Hs.
      eapply keepsImages_write; [eassumption|]. right. cbn.
      do 2 f_equal. congruence.
  - cbn [mbind Throws_bind mret Throws_ret tryCatch fst snd].
    match goal with |- context [Product.findByIdAndUpdate ?r ?u true now c] =>
      on_write r u now c end; try apply keepsImages_refl.
    eapply (keepsImages_write _ _ _ _ _ []); [eassumption|]. now left.
Qed.

Lemma pathUpdate_keepsImages (seen c : gmap string (Product.t Image))
    (req : Request) (now : Z) :
  undisturbed seen c req ->
  keepsImages c (Server.updateFrom seen c req now).2 /\
  keepsImages c (Legacy.updateFrom seen c req now).2.
Proof.
  intros Hs. unfold Server.updateFrom, Legacy.updateFrom.
  destruct (uploadError req); (split; [try apply keepsImages_refl|]);
    destruct (negb (noFiles req));
    try (on_read (params_id req) seen; try apply keepsImages_refl);
    cbn [mbind Throws_bind mret Throws_ret tryCatch fst snd];
    match goal with |- context [Product.findByIdAndUpdate ?r ?u true now c] =>
      on_write r u now c end; try apply keepsImages_refl;
    try (same_product Hs; congruence);
    first [ eapply (keepsImages_write _ _ _ _ _ []); [eassumption | now left]
          | same_product Hs; eapply keepsImages_write;
            [eassumption | right; cbn; do 2 f_equal; congruence] ].
Qed.

(** X25. An update whose product no other request writes between its read
    and its write takes no image away, and no soft delete does: after an
    update, with or without uploaded files, and after a soft delete, every
    product of the collection still has the images it had, in the same
    order, with the new ones, if any, after them.  [seen] is the collection
    at the read of the update and [c] the collection at its write. *)
Theorem updates_never_drop_images (seen c : gmap string (Product.t Image))
    (req : Request) (now : Z) :
  undisturbed seen c req ->
  Forall (keepsImages c)
    [ (ProductRoutes.updateFrom seen c req now).2;
      (Server.updateFrom seen c req now).2;
      (Legacy.updateFrom seen c req now).2;
      (ProductRoutes.softDelete c req now).2;
      (Server.softDelete c req now).2; (Legacy.softDelete c req now).2 ].
Proof.
  intros Hs.
  assert (forall c', (c' = c \/ exists id p, c !! id = Some p /\
                        c' = <[id := Product.applyUpdate Product.deactivate now p]> c) ->
                     keepsImages c c') as Hdel.
  { intros c' [-> | (id & p & Hp & ->)]; [apply keepsImages_refl|].
    eapply (keepsImages_write _ _ _ _ _ []); [exact Hp | now left]. }
  destruct (pathUpdate_keepsImages seen c req now Hs) as [HS HL].
  pose proof (router_update_keepsImages seen c req now Hs) as HR.
  repeat (apply List.Forall_cons; [first [assumption | idtac]|]);
    [| | |apply List.Forall_nil].
  all: apply Hdel;
    unfold ProductRoutes.softDelete, Server.softDelete, Legacy.softDelete;
    destruct (findByIdAndUpdate_cases (params_id req) Product.deactivate false now c)
      as [[e He] | [(id & Hid & Hn & He) | (id & p & Hid & Hp & He)]];
    rewrite He; cbn [mbind Throws_bind mret Throws_ret tryCatch fst snd]; eauto.
Qed.

End Images.

(** ** The further properties on examples *)

Section MoreExamples.
#[local] Existing Instance exampleRuntime.
#[local] Existing Instance exampleSchema.
#[local] Existing Instance exampleUserSchema.

Lemma example_hashVerifies : hashVerifies.
Proof. intros pw salt. apply String.eqb_refl. Defined.

Lemma example_unknownId : unknownId catalog onProductC.
Proof. intros id Hid. vm_compute in Hid. injection Hid as <-. reflexivity. Defined.

(** The second of the two pages of the catalog holds one product. *)
Lemma listing_page_length_witness :
  pageOf secondPage = 2 /\ limitOf secondPage = 1 /\
  exists ds, data (json (Server.listProducts catalog secondPage)) = Some ds /\
             Z.of_nat (length ds) = 1.
Proof.
  split; [reflexivity|]. split; [reflexivity|].
  destruct (listing_page_length catalog secondPage
              ltac:(vm_compute; discriminate) ltac:(vm_compute; discriminate))
    as (_ & (ds & Hds & Hlen & _) & _).
  exists ds. split; [exact Hds | exact Hlen].
Defined.

(** The first of the two pages of the catalog has a next page, the second
    has none. *)
Lemma next_page_iff_before_last_witness :
  pageOf firstPage = 1 /\ limitOf firstPage = 1 /\
  exists k, totalPages (json (ProductRoutes.listProducts catalog firstPage)) = Some k /\
            (hasNextPage (json (ProductRoutes.listProducts catalog firstPage)) = Some true
             <-> 1 < k).
Proof.
  split; [reflexivity|]. split; [reflexivity|].
  destruct (next_page_iff_before_last catalog firstPage
              ltac:(vm_compute; discriminate) ltac:(vm_compute; discriminate))
    as (k & Hk & _ & _ & _ & Hnext & _).
  exists k. split; [exact Hk | exact Hnext].
Defined.

Lemma example_consecutivePages : consecutivePages 1 [firstPage; secondPage].
Proof.
  intros i r Hi. destruct i as [|[|i]]; cbn in Hi; try discriminate;
    injection Hi as <-; split; reflexivity.
Defined.

Lemma example_distinctTimes : distinctTimes Product.isActive catalog.
Proof.
  intros i p j q Hi Hj _ _ Ht. unfold catalog in Hi, Hj.
  apply lookup_insert_Some in Hi as [[<- <-] | [_ Hi]];
    apply lookup_insert_Some in Hj as [[<- <-] | [_ Hj]];
    try reflexivity;
    try (apply lookup_insert_Some in Hi as [[<- <-] | [_ Hi]]);
    try (apply lookup_insert_Some in Hj as [[<- <-] | [_ Hj]]);
    try reflexivity; try discriminate Ht;
    try (rewrite lookup_empty in Hi; discriminate Hi);
    try (rewrite lookup_empty in Hj; discriminate Hj).
Defined.

(** The two pages of the catalog, one product a page, make up the
    unpaginated listing. *)
Lemma pages_make_up_the_listing_witness :
  consecutivePages 1 [firstPage; secondPage] /\
  Z.of_nat (length [firstPage; secondPage]) = Js.ceilDiv (totalOf Product.isActive catalog) 1 /\
  distinctTimes Product.isActive catalog /\
  data (json (Legacy.listProducts catalog)) =
    Some (concat (List.map
                    (fun r => default [] (data (json (Server.listProducts catalog r))))
                    [firstPage; secondPage])).
Proof.
  split; [exact example_consecutivePages|]. split; [reflexivity|].
  split; [exact example_distinctTimes|].
  exact (proj1 (proj2 (pages_make_up_the_listing catalog 1 [firstPage; secondPage]
                         ltac:(lia) example_consecutivePages eq_refl
                         example_distinctTimes))).
Defined.

(** A fetch and a soft delete under an id the catalog does not hold. *)
Lemma unknown_id_is_not_found_witness :
  unknownId catalog onProductC /\
  ProductRoutes.getById catalog onProductC = failure 404 "Product not found" None /\
  ProductRoutes.softDelete catalog onProductC 3000 =
    (failure 404 "Product not found" None, catalog).
Proof.
  split; [exact example_unknownId|].
  destruct (unknown_id_is_not_found catalog onProductC 3000 example_unknownId)
    as (Hg & _ & _ & Hd & _).
  split; [exact Hg | exact Hd].
Defined.

(** An update under an id the catalog does not hold. *)
Lemma update_never_creates_witness :
  unknownId catalog onProductC /\
  (ProductRoutes.update catalog onProductC 5000).2 = catalog /\
  status (ProductRoutes.update catalog onProductC 5000).1 = 404.
Proof.
  split; [exact example_unknownId|].
  pose proof (update_never_creates catalog onProductC 5000 example_unknownId) as Hall.
  apply Forall_cons in Hall as [(_ & _ & Hsame) _].
  split; [exact Hsame | reflexivity].
Defined.

(** The soft delete of the headphones at the time 1500. *)
Lemma softDelete_touches_only_isActive_witness :
  objectId (params_id onProductA) = Some idA /\ catalog !! idA = Some headphones /\
  (ProductRoutes.softDelete catalog onProductA 1500).2 !! idA = Some retired /\
  (ProductRoutes.softDelete catalog onProductA 1500).2 !! idB = Some novel.
Proof.
  split; [reflexivity|]. split; [reflexivity|].
  destruct (softDelete_touches_only_isActive catalog onProductA 1500 idA headphones
              eq_refl eq_refl) as (Hat & Hother & _).
  split; [exact Hat|]. rewrite (Hother idB ltac:(discriminate)). reflexivity.
Defined.

(** The soft delete of the headphones leaves one active product of two. *)
Lemma softDelete_lowers_count_witness :
  objectId (params_id onProductA) = Some idA /\ catalog !! idA = Some headphones /\
  totalOf Product.isActive catalog = 2 /\
  totalOf Product.isActive (ProductRoutes.softDelete catalog onProductA 3000).2 = 1.
Proof.
  split; [reflexivity|]. split; [reflexivity|]. split; [reflexivity|].
  exact (softDelete_lowers_count catalog onProductA 3000 idA headphones eq_refl eq_refl).
Defined.

(** The headphones created in the catalog under a third id, then fetched. *)
Lemma create_then_getById_witness :
  files createHeadphones = Some twoPictures /\ catalog !! idC = None /\
  objectId idC = Some idC /\
  exists view,
    ProductRoutes.getById (ProductRoutes.create catalog createHeadphones idC 3000).2
      onProductC = succeeded 200 None (Some view) /\
    length (Product.images view.2) = 2%nat /\ Product.isActive view.2 = true.
Proof.
  split; [reflexivity|]. split; [reflexivity|]. split; [reflexivity|].
  destruct (create_then_getById catalog createHeadphones onProductC idC 3000
              twoPictures "Wireless Headphones" "High-quality wireless headphones"
              99%Z 50 eq_refl ltac:(discriminate) eq_refl eq_refl eq_refl eq_refl
              eq_refl eq_refl eq_refl eq_refl)
    as (view & _ & Hget & _ & Hact & _ & _ & Hlen).
  exists view. split; [exact Hget|]. split; [exact Hlen | exact Hact].
Defined.

(** The creation of the headphones in the catalog makes three active
    products of two. *)
Lemma create_raises_count_witness :
  files createHeadphones = Some twoPictures /\ catalog !! idC = None /\
  totalOf Product.isActive (ProductRoutes.create catalog createHeadphones idC 3000).2 = 3.
Proof.
  split; [reflexivity|]. split; [reflexivity|].
  exact (proj1 (create_raises_count catalog createHeadphones idC 3000
                  twoPictures "Wireless Headphones" "High-quality wireless headphones"
                  99%Z 50 eq_refl ltac:(discriminate) eq_refl eq_refl eq_refl eq_refl
                  eq_refl eq_refl)).
Defined.

(** The searches for [electron] and for [ELECTRON]. *)
Lemma search_ignores_query_case_witness :
  literalQuery "electron" = true /\ literalQuery "ELECTRON" = true /\
  Js.toLowerCase "electron" = Js.toLowerCase "ELECTRON" /\
  data (json (ProductRoutes.search catalog (searchFor "electron"))) =
  data (json (ProductRoutes.search catalog (searchFor "ELECTRON"))).
Proof.
  split; [reflexivity|]. split; [reflexivity|]. split; [reflexivity|].
  destruct (search_ignores_query_case catalog (searchFor "electron") (searchFor "ELECTRON")
              eq_refl eq_refl eq_refl eq_refl eq_refl) as ((_ & Hdata & _) & _).
  exact Hdata.
Defined.

(** The counts of the searches for [electron] and of the listing. *)
Lemma search_counts_within_listing_witness :
  pageOf (searchFor "electron") = 1 /\ limitOf (searchFor "electron") = 12 /\
  exists s r l,
    count (json (Server.search catalog (searchFor "electron"))) = Some s /\
    count (json (ProductRoutes.search catalog (searchFor "electron"))) = Some r /\
    count (json (ProductRoutes.listProducts catalog (searchFor "electron"))) = Some l /\
    0 <= s /\ s <= r /\ r <= l.
Proof.
  split; [reflexivity|]. split; [reflexivity|].
  exact (search_counts_within_listing catalog (searchFor "electron") _ eq_refl
           ltac:(vm_compute; discriminate) ltac:(vm_compute; discriminate)).
Defined.

(** A registration without a phone number, under a registered email. *)
Lemma register_missing_field_witness :
  ~ complete signupWithoutPhone /\
  AuthRoutes.register [amina] signupWithoutPhone secondCall =
    (failure 400 "All fields are required" None, [amina]).
Proof.
  assert (~ complete signupWithoutPhone) as Hc.
  { intros (_ & _ & Hp & _). discriminate Hp. }
  split; [exact Hc|].
  exact (register_missing_field [amina] signupWithoutPhone secondCall Hc).
Defined.

(** A second user registered beside the first. *)
Lemma register_keeps_emails_unique_witness :
  NoDup (List.map User.email [amina]) /\
  NoDup (List.map User.email (AuthRoutes.register [amina] squatter secondCall).2).
Proof.
  assert (NoDup (List.map User.email [amina])) as Hnd
    by (apply NoDup_singleton).
  split; [exact Hnd|].
  exact (register_keeps_emails_unique [amina] squatter secondCall Hnd).
Defined.

(** The registration of Amina, then her login with the email in another
    case. *)
Lemma login_after_register_witness :
  status (AuthRoutes.register [] signup firstCall).1 = 201 /\
  Js.toLowerCase "AMINA@khushu.COM" = Js.toLowerCase "Amina@Khushu.com" /\
  status (AuthRoutes.login (AuthRoutes.register [] signup firstCall).2
            signupAgain secondCall) = 200.
Proof.
  split; [reflexivity|]. split; [reflexivity|].
  exact (proj1 (login_after_register [] signup signupAgain firstCall secondCall
                  "Amina@Khushu.com" "AMINA@khushu.COM" example_hashVerifies
                  eq_refl eq_refl eq_refl eq_refl eq_refl)).
Defined.

(** Two logins of Amina that differ in the case of the email. *)
Lemma login_ignores_email_case_witness :
  Js.toLowerCase "Amina@Khushu.com" = Js.toLowerCase "AMINA@khushu.COM" /\
  AuthRoutes.login [amina] signup firstCall =
  AuthRoutes.login [amina] signupAgain firstCall.
Proof.
  split; [reflexivity|].
  exact (login_ignores_email_case [amina] signup signupAgain firstCall
           "Amina@Khushu.com" "AMINA@khushu.COM" eq_refl eq_refl eq_refl eq_refl).
Defined.

(** A login with an empty password. *)
Lemma login_missing_credentials_witness :
  truthyJson (AuthRoutes.password blankPassword) = false /\
  AuthRoutes.login [amina] blankPassword firstCall =
    failure 400 "Email and password are required" None.
Proof.
  split; [reflexivity|].
  exact (login_missing_credentials [amina] blankPassword firstCall (or_intror eq_refl)).
Defined.

(** The script run twice on the users after one registration. *)
Lemma createAdminUser_runs_once_witness :
  (Bootstrap.createAdminUser None [amina] idB "salt").1 = 0 /\
  Bootstrap.createAdminUser None
    (Bootstrap.createAdminUser None [amina] idB "salt").2 idC "pepper" =
  (0, (Bootstrap.createAdminUser None [amina] idB "salt").2).
Proof.
  split; [reflexivity|].
  exact (proj1 (createAdminUser_runs_once [amina] idB "salt" idC "pepper" BadValue)
           eq_refl).
Defined.

(** A registration under the address of the administrator, then the
    script. *)
Lemma registered_admin_address_blocks_bootstrap_witness :
  status (AuthRoutes.register [amina] squatter secondCall).1 = 201 /\
  Js.toLowerCase "Admin@Khushu.com" = "admin@khushu.com" /\
  Bootstrap.createAdminUser None (AuthRoutes.register [amina] squatter secondCall).2
    idC "salt" = (0, (AuthRoutes.register [amina] squatter secondCall).2).
Proof.
  split; [reflexivity|]. split; [reflexivity|].
  exact (proj1 (registered_admin_address_blocks_bootstrap [amina] squatter secondCall
                  "Admin@Khushu.com" idC "salt" eq_refl eq_refl eq_refl)).
Defined.

(** The script on the users after one registration, then the login of the
    administrator. *)
Lemma createAdminUser_then_login_witness :
  (forall u, u ∈ [amina] -> User.email u <> "admin@khushu.com") /\
  status (AuthRoutes.login (Bootstrap.createAdminUser None [amina] idB "salt").2
            adminLogin firstCall) = 200.
Proof.
  assert (forall u, u ∈ [amina] -> User.email u <> "admin@khushu.com") as Hnone.
  { intros u Hu. apply list_elem_of_singleton in Hu. subst u. discriminate. }
  split; [exact Hnone|].
  destruct (@createAdminUser_then_login exampleRuntime exampleUserSchema
              [amina] idB "salt" adminLogin firstCall
              "Admin@Khushu.com" example_hashVerifies Hnone eq_refl eq_refl eq_refl eq_refl)
    as (_ & Hlogin & _).
  now rewrite Hlogin.
Defined.

(** The upload of one picture to the headphones, nothing written in
    between. *)
Lemma updates_never_drop_images_witness :
  undisturbed catalog catalog updateWithPhoto /\
  keepsImages catalog (ProductRoutes.update catalog updateWithPhoto 5000).2.
Proof.
  assert (undisturbed catalog catalog updateWithPhoto) as Hs
    by (intros id _; reflexivity).
  split; [exact Hs|].
  pose proof (updates_never_drop_images catalog catalog updateWithPhoto 5000 Hs) as Hall.
  apply Forall_cons in Hall as [Hfirst _]. exact Hfirst.
Defined.

(** Two uploads to the headphones that both read the product before either
    writes: the second write puts its picture after the one image it read,
    and the picture of the first upload is gone. *)
Example interleaved_updates_lose_an_image :
  let c1 := (ProductRoutes.updateFrom catalog catalog updateWithPhoto 5000).2 in
  let c2 := (ProductRoutes.updateFrom catalog c1 updateWithScan 6000).2 in
  Product.images <$> c1 !! idA =
    Some [ImgBinary [] "image/jpeg"; ImgBinary [] "image/png"] /\
  Product.images <$> c2 !! idA =
    Some [ImgBinary [] "image/jpeg"; ImgBinary [] "image/gif"] /\
  ~ undisturbed catalog c1 updateWithScan.
Proof.
  intros c1 c2.
  assert (Product.images <$> c1 !! idA =
          Some [ImgBinary [] "image/jpeg"; ImgBinary [] "image/png"]) as H1
    by (vm_compute; reflexivity).
  split; [exact H1|]. split; [vm_compute; reflexivity|].
  intros Hs. specialize (Hs idA eq_refl). rewrite <- Hs in H1. discriminate H1.
Qed.

End MoreExamples.
